(** * LabJack T7 firmware upgrade (src/src/labjack_t7_upgrade.js)

    A shallow embedding of the upgrade logic: the chunked flash read/write
    primitive [createFlashOperation], the region facades built on it, the
    erase and version checks, the wait for re-enumeration and the promise
    chain of [updateFirmware].

    Conventions of the embedding.
    - JavaScript numbers used as counts, addresses and register values are
      integers of [Z].  Firmware versions are IEEE 754 doubles, with the
      subtraction, the comparisons and the not-a-number of the source
      ([Double]).  Percentages are rationals of [Q], their arithmetic taken
      exactly: the runs evaluated below deliver values that a double holds
      exactly, and the general statements fix no value that is the result of
      a rounded operation.
    - A node [Buffer] is a [list byte].
    - The module-level variables [curOffset], [curScaling] and
      [shouldUpdateProgressBar] are fields of the [World] that every
      operation threads; the world also carries the state of everything
      outside the program (devices, bus, files) and the trace of the calls
      made to the driver and to the progress listener.
    - A function that returns a q promise returns an [Outcome]: how that
      promise is eventually settled, or that the call threw.
    - The driver (labjack-nodejs) is not part of the repository: its calls
      are fields of a [Driver] record, its constants fields of a
      [DriverConst] record, and an error it reports is kept as the message
      that [safelyReject] makes of it.
    - Timers are not modelled as time: [setTimeout] is an event of the
      trace, and the polling of [waitForEnumeration] is run for a given
      number of polls.
    - Logging ([console.log], [console.error]) is left out, except where
      evaluating its arguments throws. *)

From Stdlib Require Import ZArith QArith Qabs List String Ascii Bool Lia.
From Stdlib.Strings Require Import Byte.
From Stdlib Require Import DecimalString.
From Stdlib.Floats Require Import SpecFloat.
Import ListNotations.

Open Scope Z_scope.

(** ** Node buffers *)

Module Buffer.

Definition t := list byte.

Definition byteAt (b : t) (i : nat) : Z :=
  Z.of_N (Byte.to_N (nth i b x00)).

(** [buf.readUInt32BE(offset)]: big-endian, and a RangeError ([None]) when
    the four bytes do not lie inside the buffer. *)
Definition readUInt32BE (b : t) (offset : Z) : option Z :=
  if (offset <? 0) || (Z.of_nat (List.length b) <? offset + 4) then None
  else
    let i := Z.to_nat offset in
    Some (byteAt b i * 16777216 + byteAt b (i + 1) * 65536
          + byteAt b (i + 2) * 256 + byteAt b (i + 3)).

(** The four bytes of a 32-bit word, most significant first. *)
Definition ofWord (w : Z) : t :=
  map (fun k => match Byte.of_N (Z.to_N ((w / 256 ^ k) mod 256)) with
                | Some x => x
                | None => x00
                end) [3; 2; 1; 0].

Definition ofWords (ws : list Z) : t := flat_map ofWord ws.

End Buffer.

(** ** JavaScript numbers *)

(** A JavaScript number is an IEEE 754 binary64 value.  The operations are
    those that the Standard Library specifies for 53 bits of precision and
    a largest exponent of 1024, rounding to nearest, ties to even. *)
Module Double.

Definition t := spec_float.

Definition prec : Z := 53.
Definition emax : Z := 1024.

Definition NaN : t := S754_nan.

(** [a - b], [Math.abs(a)], [a > b] read as [b < a], and [a == b] between
    numbers. *)
Definition sub : t -> t -> t := SFsub prec emax.
Definition div : t -> t -> t := SFdiv prec emax.
Definition abs : t -> t := SFabs.
Definition ltb : t -> t -> bool := SFltb.
Definition eqb : t -> t -> bool := SFeqb.

(** The double nearest to a rational whose numerator and denominator are
    below 2^53 (both are then doubles themselves, and the division rounds
    once): what a decimal literal of the source denotes, and what
    [Number(digits) / 10000] yields.  It is used on such literals only. *)
Definition ofQ (q : Q) : t :=
  match Qnum q with
  | Z0 => S754_zero false
  | Zpos n => div (S754_finite false n 0) (S754_finite false (Qden q) 0)
  | Zneg n => div (S754_finite true n 0) (S754_finite false (Qden q) 0)
  end.

(** The value of a finite double, as a rational. *)
Definition toQ (x : t) : option Q :=
  match x with
  | S754_zero _ => Some 0%Q
  | S754_finite s m e =>
      let v := match e with
               | Zneg k => Zpos m # Pos.pow 2 k
               | _ => inject_Z (Zpos m * 2 ^ e)
               end in
      Some (if s then Qopp v else v)
  | S754_infinity _ | S754_nan => None
  end.

End Double.

(** ** Integer operators of the source *)

(** [Math.floor(a / b)] on integers, for a divisor other than 0 (a block
    size of 0 makes the source loop without end; the statements below are
    about positive block sizes). *)
Definition floorDiv (a b : Z) : Z := a / b.

(** [a % b]: the remainder takes the sign of the dividend. *)
Definition jsRem (a b : Z) : Z := Z.rem a b.

(** ** The chunk plan of createFlashOperation *)

(** What a closure returned by [createExecution(address, innerSize,
    writeValues)] has captured; [writeValues] is [undefined] for a read. *)
Record Execution := mkExecution {
  ex_address : Z;
  ex_innerSize : Z;
  ex_writeValues : option (list Z)
}.

Fixpoint getdata_loop (imageBuffer : Buffer.t) (count : nat) (i offset : Z)
  : option (list Z) :=
  match count with
  | O => Some []
  | S count' =>
      match Buffer.readUInt32BE imageBuffer (i * 4 + offset) with
      | None => None
      | Some v =>
          match getdata_loop imageBuffer count' (i + 1) offset with
          | None => None
          | Some vs => Some (v :: vs)
          end
      end
  end.

(** [getdata(imageBuffer, numIntegers, offset)]; [None] when a read throws. *)
Definition getdata (imageBuffer : Buffer.t) (numIntegers offset : Z)
  : option (list Z) :=
  getdata_loop imageBuffer (Z.to_nat numIntegers) 0 offset.

(** The payload argument handed to [createExecution]: none for a read,
    [getdata(data, n, offset)] for a write ([data] is [undefined] when the
    caller passed none, and reading from it throws). *)
Definition payload (isReadOp : bool) (data : option Buffer.t) (n offset : Z)
  : option (option (list Z)) :=
  if isReadOp then Some None
  else match data with
       | None => None
       | Some buf =>
           match getdata buf n offset with
           | None => None
           | Some vs => Some (Some vs)
           end
       end.

(** The [for] loop over the full blocks.  Returns the executions pushed, and
    [currentAddress] and [offset] as the loop leaves them. *)
Fixpoint fullBlocks (numIterations : nat) (isReadOp : bool)
  (data : option Buffer.t) (size currentAddress offset : Z)
  : option (list Execution * Z * Z) :=
  match numIterations with
  | O => Some ([], currentAddress, offset)
  | S n =>
      match payload isReadOp data 8 offset with
      | None => None
      | Some wv =>
          match fullBlocks n isReadOp data size
                  (currentAddress + size * 4) (offset + 32) with
          | None => None
          | Some (ops, a, o) =>
              Some (mkExecution currentAddress size wv :: ops, a, o)
          end
      end
  end.

(** [executeOperations] as createFlashOperation builds it; [None] when a
    buffer read throws while it is built. *)
Definition executeOperations (startAddress lengthInts sizeInts : Z)
  (isReadOp : bool) (data : option Buffer.t) : option (list Execution) :=
  let size := sizeInts in
  let length := lengthInts in
  let numIterations := floorDiv length size in
  let remainder := jsRem length size in
  let shouldAugment := 0 <? remainder in
  match fullBlocks (Z.to_nat numIterations) isReadOp data size
          startAddress 0 with
  | None => None
  | Some (ops, currentAddress, offset) =>
      if shouldAugment && (0 <? remainder) then
        match payload isReadOp data remainder offset with
        | None => None
        | Some wv => Some (ops ++ [mkExecution currentAddress remainder wv])
        end
      else Some ops
  end.

(** Number of data words the frames of a plan declare. *)
Definition totalWords (ops : list Execution) : Z :=
  fold_right (fun op acc => ex_innerSize op + acc) 0 ops.

(** ** JavaScript values, bundles and promises *)

(** A labjack-nodejs device object, by identity. *)
Definition Handle := nat.

(** The parsed header.  Only the fields some operation reads are kept;
    [containedVersion] is the number its four-decimal string converts to. *)
Record ImageInformation := mkImageInformation {
  rawImageInfo : Buffer.t;
  headerCode : Z;
  intendedDevice : Z;
  containedVersion : Double.t
}.

(** The fields of [DeviceFirmwareBundle]; [None] is the initial [null].
    The connection type is opaque to the program, which hands it to the
    driver as it is.  The one object that the source mutates in place is a
    record here: every stage hands the bundle on, and no stale copy of it is
    read after an update. *)
Record DeviceFirmwareBundle := mkBundle {
  firmwareImageInformation : ImageInformation;
  firmwareImage : Buffer.t;
  device : option Handle;
  version : Double.t;
  serial : option Z;
  connectionType : option Z
}.

Definition setDevice (b : DeviceFirmwareBundle) (newDevice : Handle) :=
  mkBundle (firmwareImageInformation b) (firmwareImage b) (Some newDevice)
           (version b) (serial b) (connectionType b).

Definition setSerialNumber (b : DeviceFirmwareBundle) (newSerial : Z) :=
  mkBundle (firmwareImageInformation b) (firmwareImage b) (device b)
           (version b) (Some newSerial) (connectionType b).

Definition setConnectionType (b : DeviceFirmwareBundle)
  (newConnectionType : option Z) :=
  mkBundle (firmwareImageInformation b) (firmwareImage b) (device b)
           (version b) (serial b) newConnectionType.

(** The values that promises of this program are settled with. *)
Inductive Value :=
| VUndefined
| VBundle (b : DeviceFirmwareBundle)
| VString (s : string)
| VError (name message : string)
| VMemory (words : list Z).

(** The result of calling a promise-returning function: the state its
    promise ends in, or an exception thrown by the call itself.  [Pending]
    is a promise that nothing settles (within the polls that were run, for
    the one operation that polls). *)
Inductive Outcome :=
| Fulfilled (v : Value)
| Rejected (reason : Value)
| Pending
| Thrown (e : Value).

(** [deferred.resolve] and [deferred.reject]: only the first one counts. *)
Definition resolve (deferred : Outcome) (v : Value) : Outcome :=
  match deferred with Pending => Fulfilled v | _ => deferred end.

Definition reject (deferred : Outcome) (reason : Value) : Outcome :=
  match deferred with Pending => Rejected reason | _ => deferred end.

(** The promise a [then] derives from what its handler did. *)
Definition asPromise (o : Outcome) : Outcome :=
  match o with Thrown e => Rejected e | _ => o end.

Definition string_of_Z (z : Z) : string :=
  NilZero.string_of_int (Z.to_int z).

(** [toString()]; [None] where the receiver is undefined (a TypeError). *)
Definition toString (v : Value) : option string :=
  match v with
  | VUndefined => None
  | VBundle _ => Some "[object Object]"%string
  | VString s => Some s
  | VError name message =>
      Some (if String.eqb name "" then message
            else if String.eqb message "" then name
            else name ++ ": " ++ message)%string
  | VMemory ws => Some (String.concat "," (map string_of_Z ws))
  end.

Definition typeError (message : string) : Value := VError "TypeError" message.
Definition rangeError : Value := VError "RangeError" "index out of range".
Definition nullDevice : Value :=
  typeError "Cannot read property of null".

(** [safelyReject(deferred, error)] without prefix.  None of the values
    above has a [retError] attribute, so the message is [error.toString()];
    [None] when reading [error.retError] throws. *)
Definition safelyReject (deferred : Outcome) (error : Value) : option Outcome :=
  match toString error with
  | Some errorMsg => Some (reject deferred (VString errorMsg))
  | None => None
  end.

(** The recurring tail
    [p.then(function () { deferred.resolve(bundle); },
            createSafeReject(deferred)); return deferred.promise]. *)
Definition settleWith (b : DeviceFirmwareBundle) (o : Outcome) : Outcome :=
  match o with
  | Fulfilled _ => resolve Pending (VBundle b)
  | Rejected err =>
      match safelyReject Pending err with
      | Some deferred => deferred
      | None => Pending
      end
  | Pending => Pending
  | Thrown e => Thrown e
  end.

(** ** The driver (labjack-nodejs), outside this repository *)

Inductive Direction := LJM_READ | LJM_WRITE.

(** The four arrays handed to [device.rwMany]; a value is a number or null. *)
Record Frame := mkFrame {
  addresses : list Z;
  directions : list Direction;
  numValues : list Z;
  values : list (option Z)
}.

(** The constants of [driver_const] that the upgrade uses. *)
Record DriverConst := mkDriverConst {
  T7_MA_EXF_KEY : Z;
  T7_MA_EXF_ERASE : Z;
  T7_MA_EXF_pREAD : Z;
  T7_MA_EXF_READ : Z;
  T7_MA_EXF_pWRITE : Z;
  T7_MA_EXF_WRITE : Z;
  T7_MA_REQ_FWUPG : Z;
  T7_REQUEST_FW_UPGRADE : Z;
  T7_FLASH_PAGE_SIZE : Z;
  T7_FLASH_BLOCK_WRITE_SIZE : Z;
  T7_EFAdd_ExtFirmwareImage : Z;
  T7_IMG_FLASH_PAGE_ERASE : Z;
  T7_EFkey_ExtFirmwareImage : Z;
  T7_EFAdd_ExtFirmwareImgInfo : Z;
  T7_HDR_FLASH_PAGE_ERASE : Z;
  T7_EFkey_ExtFirmwareImgInfo : Z;
  T7_HEAD_FIRST_FOUR_BYTES : Z;
  T7_TARGET_OLD : Z;
  T7_TARGET : Z
}.

(** What the loader of [readFirmwareFile] yields. *)
Record FirmwareFile := mkFirmwareFile {
  ff_imageInformation : ImageInformation;
  ff_image : Buffer.t;
  ff_version : Double.t
}.

(** The calls the upgrade makes, as transitions of the state [Ext] of the
    outside world.  A failing call yields the message that [safelyReject]
    derives from its error (taken non-empty, so that it is truthy).
    [drv_readFirmwareFile] stands for fetching and parsing the bin file,
    which no statement below depends on. *)
Record Driver (Ext : Type) := mkDriver {
  drv_rwMany : Handle -> Frame -> Ext -> Ext * (string + list Z);
  drv_writeMany : Handle -> list Z -> list Z -> Ext -> Ext * option string;
  drv_write : Handle -> Z -> Z -> Ext -> Ext * option string;
  drv_close : Handle -> Ext -> Ext * option string;
  drv_readFirmwareVersion : Handle -> Ext -> Ext * (string + Double.t);
  drv_readSerialSync : Handle -> Ext -> Ext * (string + Z);
  drv_listAll : option Z -> Ext -> Ext * (string + list Z);
  drv_open : option Z -> Z -> Ext -> Ext * (string + Handle);
  drv_readFirmwareFile : string -> Ext -> Ext * (string + FirmwareFile)
}.

Arguments drv_rwMany {Ext}.
Arguments drv_writeMany {Ext}.
Arguments drv_write {Ext}.
Arguments drv_close {Ext}.
Arguments drv_readFirmwareVersion {Ext}.
Arguments drv_readSerialSync {Ext}.
Arguments drv_listAll {Ext}.
Arguments drv_open {Ext}.
Arguments drv_readFirmwareFile {Ext}.

(** Calls observable from outside, in the order they are made. *)
Inductive Event :=
| EvUpdate (percent : Q)
| EvStatusText (text : string)
| EvRwMany (h : Handle) (f : Frame)
| EvWriteMany (h : Handle) (addrs vals : list Z)
| EvWrite (h : Handle) (address value : Z)
| EvClose (h : Handle)
| EvRead (h : Handle)
| EvListAll (connection : option Z)
| EvOpen (connection : option Z) (identifier : Z)
| EvSetTimeout (ms : Z).

Record World (Ext : Type) := mkWorld {
  ext : Ext;
  curOffset : Q;
  curScaling : Q;
  shouldUpdateProgressBar : bool;
  trace : list Event
}.

Arguments mkWorld {Ext}.
Arguments ext {Ext}.
Arguments curOffset {Ext}.
Arguments curScaling {Ext}.
Arguments shouldUpdateProgressBar {Ext}.
Arguments trace {Ext}.

(** The world when the module has just been loaded. *)
Definition initialWorld {Ext} (e : Ext) : World Ext :=
  mkWorld e 0%Q 0%Q false [].

Definition withExt {Ext} (w : World Ext) (e : Ext) : World Ext :=
  mkWorld e (curOffset w) (curScaling w) (shouldUpdateProgressBar w) (trace w).

Definition emit {Ext} (w : World Ext) (ev : Event) : World Ext :=
  mkWorld (ext w) (curOffset w) (curScaling w) (shouldUpdateProgressBar w)
          (trace w ++ [ev]).

Definition setShouldUpdateProgressBar {Ext} (w : World Ext) (flag : bool) :=
  mkWorld (ext w) (curOffset w) (curScaling w) flag (trace w).

Definition setScaling {Ext} (w : World Ext) (scaling offset : Q) :=
  mkWorld (ext w) offset scaling (shouldUpdateProgressBar w) (trace w).

(** The percentages handed to [progressListener.update], in order. *)
Definition updates (tr : list Event) : list Q :=
  flat_map (fun ev => match ev with EvUpdate p => [p] | _ => [] end) tr.

(** The frames sent through [rwMany], in order. *)
Definition frames (tr : list Event) : list Frame :=
  flat_map (fun ev => match ev with EvRwMany _ f => [f] | _ => [] end) tr.

Definition EXPECTED_ZEROED_MEM_VAL : Z := 4294967295.
Definition EXPECTED_REBOOT_WAIT : Z := 1000.
Definition EXPECTED_FIRMWARE_UPDATE_TIME : Z := 5000.

Definition CHECKPOINT_ONE_PERCENT : Q := 10.
Definition CHECKPOINT_TWO_PERCENT : Q := 30.
Definition CHECKPOINT_THREE_PERCENT : Q := 85.
Definition CHECKPOINT_FOUR_PERCENT : Q := 90.
Definition CHECKPOINT_FIVE_PERCENT : Q := 100.

(** ** The operations of labjack_t7_upgrade.js *)

Section Upgrade.

Context {Ext : Type}.
Variable drv : Driver Ext.
Variable dc : DriverConst.

Definition ALLOWED_IMAGE_INFO_DEVICE_TYPES : list Z :=
  [T7_TARGET_OLD dc; T7_TARGET dc].

(** [updateProgressScaled(value)].  The listener is taken to be installed
    and to return normally. *)
Definition updateProgressScaled (value : Z) (w : World Ext) : World Ext :=
  if shouldUpdateProgressBar w then
    let scaledValue := (curScaling w * inject_Z value + curOffset w)%Q in
    emit w (EvUpdate scaledValue)
  else w.

(** [range(numPages)]. *)
Definition range (stop : Z) : list Z :=
  map Z.of_nat (seq 0 (Z.to_nat stop)).

(** *** Compatibility *)

Definition headerCodeCorrect (b : DeviceFirmwareBundle) : bool :=
  headerCode (firmwareImageInformation b) =? T7_HEAD_FIRST_FOUR_BYTES dc.

Definition intendedDeviceCorrect (b : DeviceFirmwareBundle) : bool :=
  existsb (Z.eqb (intendedDevice (firmwareImageInformation b)))
          ALLOWED_IMAGE_INFO_DEVICE_TYPES.

Definition versionCorrect (b : DeviceFirmwareBundle) : bool :=
  Double.eqb (containedVersion (firmwareImageInformation b)) (version b).

Definition checkCompatibility (b : DeviceFirmwareBundle) : Outcome :=
  if headerCodeCorrect b && intendedDeviceCorrect b && versionCorrect b then
    resolve Pending (VBundle b)
  else if negb (headerCodeCorrect b) then
    reject Pending (VError "Error" "Invalid header code.")
  else if negb (intendedDeviceCorrect b) then
    reject Pending (VError "Error" "Incorrect device type.")
  else
    reject Pending (VError "Error" "Incorrect version.").

(** *** Erase *)

(** The iteration of [async.eachSeries] over the pages: it stops at the
    first error. *)
Fixpoint erasePages (h : Handle) (startAddress key : Z) (pages : list Z)
  (w : World Ext) : World Ext * option string :=
  match pages with
  | [] => (w, None)
  | page :: rest =>
      let addrs := [T7_MA_EXF_KEY dc; T7_MA_EXF_ERASE dc] in
      let vals := [key; startAddress + page * T7_FLASH_PAGE_SIZE dc] in
      let '(e, r) := drv_writeMany drv h addrs vals (ext w) in
      let w' := emit (withExt w e) (EvWriteMany h addrs vals) in
      match r with
      | Some err => (w', Some err)
      | None => erasePages h startAddress key rest w'
      end
  end.

Definition eraseFlash (b : DeviceFirmwareBundle)
  (startAddress numPages key : Z) (w : World Ext) : World Ext * Outcome :=
  let pages := range numPages in
  match pages, device b with
  | [], _ => (w, resolve Pending (VBundle b))
  | _ :: _, None => (w, Thrown nullDevice)
  | _ :: _, Some h =>
      match erasePages h startAddress key pages w with
      | (w', Some err) => (w', reject Pending (VString err))
      | (w', None) => (w', resolve Pending (VBundle b))
      end
  end.

Definition eraseImage (b : DeviceFirmwareBundle) (w : World Ext)
  : World Ext * Outcome :=
  let '(w', o) := eraseFlash b (T7_EFAdd_ExtFirmwareImage dc)
                    (T7_IMG_FLASH_PAGE_ERASE dc)
                    (T7_EFkey_ExtFirmwareImage dc) w in
  (w', settleWith b o).

Definition eraseImageInformation (b : DeviceFirmwareBundle) (w : World Ext)
  : World Ext * Outcome :=
  let '(w', o) := eraseFlash b (T7_EFAdd_ExtFirmwareImgInfo dc)
                    (T7_HDR_FLASH_PAGE_ERASE dc)
                    (T7_EFkey_ExtFirmwareImgInfo dc) w in
  (w', settleWith b o).

(** *** The flash primitive *)

(** The arrays the closure of [createExecution] hands to [rwMany]. *)
Definition frameOf (ptrAddress flashAddress : Z) (isReadOp : bool)
  (key : option Z) (op : Execution) : Frame :=
  let dataDirection := if isReadOp then LJM_READ else LJM_WRITE in
  let dataValues :=
    if isReadOp then repeat None (Z.to_nat (ex_innerSize op))
    else match ex_writeValues op with
         | Some writeValues => map Some writeValues
         | None => []
         end in
  match key with
  | None =>
      mkFrame [ptrAddress; flashAddress]
              [LJM_WRITE; dataDirection]
              [1; ex_innerSize op]
              (Some (ex_address op) :: dataValues)
  | Some k =>
      mkFrame [T7_MA_EXF_KEY dc; ptrAddress; flashAddress]
              [LJM_WRITE; LJM_WRITE; dataDirection]
              [1; 1; ex_innerSize op]
              (Some k :: Some (ex_address op) :: dataValues)
  end.

(** One closure of [createExecution] applied to [lastResults]. *)
Definition runExecution (dev : option Handle) (ptrAddress flashAddress : Z)
  (isReadOp : bool) (key : option Z) (op : Execution)
  (lastResults : list Z) (w : World Ext) : World Ext * Outcome :=
  match dev with
  | None => (w, Thrown nullDevice)
  | Some h =>
      let f := frameOf ptrAddress flashAddress isReadOp key op in
      let '(e, r) := drv_rwMany drv h f (ext w) in
      let w' := emit (withExt w e) (EvRwMany h f) in
      match r with
      | inl errorMsg => (w', reject Pending (VString errorMsg))
      | inr newResults =>
          (w', resolve Pending (VMemory (lastResults ++ newResults)))
      end
  end.

(** [async.reduce(executeOperations, [], iterator, ...)]: the memo, the
    first error, or the exception that escaped an iterator call. *)
Fixpoint reduceOperations (dev : option Handle)
  (ptrAddress flashAddress sizeInts : Z) (isReadOp : bool) (key : option Z)
  (ops : list Execution) (lastMemoryResult : list Z) (numIntsWritten : Z)
  (w : World Ext) : World Ext * Outcome :=
  match ops with
  | [] => (w, Fulfilled (VMemory lastMemoryResult))
  | currentExecution :: rest =>
      let numIntsWritten := numIntsWritten + sizeInts in
      let w1 := updateProgressScaled numIntsWritten w in
      match runExecution dev ptrAddress flashAddress isReadOp key
              currentExecution lastMemoryResult w1 with
      | (w2, Fulfilled (VMemory newMemory)) =>
          reduceOperations dev ptrAddress flashAddress sizeInts isReadOp
            key rest newMemory numIntsWritten w2
      | (w2, o) => (w2, o)
      end
  end.

Definition createFlashOperation (b : DeviceFirmwareBundle)
  (startAddress lengthInts sizeInts ptrAddress flashAddress : Z)
  (isReadOp : bool) (key : option Z) (data : option Buffer.t)
  (w : World Ext) : World Ext * Outcome :=
  match executeOperations startAddress lengthInts sizeInts isReadOp data with
  | None => (w, Thrown rangeError)
  | Some ops =>
      match reduceOperations (device b) ptrAddress flashAddress sizeInts
              isReadOp key ops [] 0 w with
      | (w', Fulfilled allMemoryRead) => (w', resolve Pending (VBundle b))
      | (w', Rejected err) =>
          (w', match safelyReject Pending err with
               | Some deferred => deferred
               | None => Pending
               end)
      | (w', o) => (w', o)
      end
  end.

Definition readFlash (b : DeviceFirmwareBundle)
  (startAddress length size : Z) (w : World Ext) : World Ext * Outcome :=
  createFlashOperation b startAddress length size
    (T7_MA_EXF_pREAD dc) (T7_MA_EXF_READ dc) true None None w.

Definition writeFlash (b : DeviceFirmwareBundle)
  (startAddress length size key : Z) (data : Buffer.t) (w : World Ext)
  : World Ext * Outcome :=
  createFlashOperation b startAddress length size
    (T7_MA_EXF_pWRITE dc) (T7_MA_EXF_WRITE dc) false (Some key) (Some data) w.

(** *** Region facades *)

(** The word counts below are quotients by 4 of byte counts; the byte
    counts are taken to be multiples of 4, as the flash page size and a
    well-formed image are. *)

Definition readImage (b : DeviceFirmwareBundle) (w : World Ext)
  : World Ext * Outcome :=
  let numberOfIntegers :=
    T7_IMG_FLASH_PAGE_ERASE dc * T7_FLASH_PAGE_SIZE dc / 4 in
  let '(w', o) := readFlash b (T7_EFAdd_ExtFirmwareImage dc)
                    numberOfIntegers (T7_FLASH_BLOCK_WRITE_SIZE dc) w in
  (w', settleWith b o).

Definition readImageInformation (b : DeviceFirmwareBundle) (w : World Ext)
  : World Ext * Outcome :=
  let numberOfIntegers :=
    T7_HDR_FLASH_PAGE_ERASE dc * T7_FLASH_PAGE_SIZE dc / 4 in
  let '(w', o) := readFlash b (T7_EFAdd_ExtFirmwareImgInfo dc)
                    numberOfIntegers (T7_FLASH_BLOCK_WRITE_SIZE dc) w in
  (w', settleWith b o).

(** The tail shared by the two writers: the flag is cleared on either
    settlement, and left alone when [writeFlash] itself threw.  The scale
    factor is a quotient by the number of words; for an empty buffer the
    source gets an infinite scale, which is never used since no chunk is
    written then. *)
Definition afterWrite (b : DeviceFirmwareBundle)
  (r : World Ext * Outcome) : World Ext * Outcome :=
  let '(w, o) := r in
  match o with
  | Fulfilled _ | Rejected _ =>
      (setShouldUpdateProgressBar w false, settleWith b o)
  | _ => (w, o)
  end.

Definition writeImage (minPercent maxPercent : Q)
  (b : DeviceFirmwareBundle) (w : World Ext) : World Ext * Outcome :=
  let w := setShouldUpdateProgressBar w true in
  let numberOfIntegers := Z.of_nat (List.length (firmwareImage b)) / 4 in
  let perecentScaleFactor :=
    ((maxPercent - minPercent) / inject_Z numberOfIntegers)%Q in
  let w := setScaling w perecentScaleFactor minPercent in
  afterWrite b
    (writeFlash b (T7_EFAdd_ExtFirmwareImage dc) numberOfIntegers
       (T7_FLASH_BLOCK_WRITE_SIZE dc) (T7_EFkey_ExtFirmwareImage dc)
       (firmwareImage b) w).

Definition writeImageInformation (minPercent maxPercent : Q)
  (b : DeviceFirmwareBundle) (w : World Ext) : World Ext * Outcome :=
  let rawImageInfo := rawImageInfo (firmwareImageInformation b) in
  let numberOfIntegers := Z.of_nat (List.length rawImageInfo) / 4 in
  let perecentScaleFactor :=
    ((maxPercent - minPercent) / inject_Z numberOfIntegers)%Q in
  let w := setScaling w perecentScaleFactor minPercent in
  afterWrite b
    (writeFlash b (T7_EFAdd_ExtFirmwareImgInfo dc) numberOfIntegers
       (T7_FLASH_BLOCK_WRITE_SIZE dc) (T7_EFkey_ExtFirmwareImgInfo dc)
       rawImageInfo w).

(** *** Verification after erase *)

(** [isAllZeroed(memory)] on whatever value it is handed: a value without
    a [length] never enters the loop; [None] when reading [memory.length]
    throws. *)
Definition isAllZeroed (memory : Value) : option bool :=
  match memory with
  | VUndefined => None
  | VMemory ws => Some (forallb (fun x => x =? EXPECTED_ZEROED_MEM_VAL) ws)
  | VString s => Some (String.eqb s "")
  | VBundle _ | VError _ _ => Some true
  end.

Definition notAnObject : Value :=
  typeError "Cannot read property of undefined".

(** [createSafeReject(deferred)] used as the rejection handler of a
    [then]: it returns undefined, so the derived promise is fulfilled. *)
Definition safeRejectHandler (deferred : Outcome) (err : Value)
  : Outcome * Outcome :=
  match safelyReject deferred err with
  | Some deferred' => (deferred', Fulfilled VUndefined)
  | None => (deferred, Rejected notAnObject)
  end.

Definition checkErase (b : DeviceFirmwareBundle) (w : World Ext)
  : World Ext * Outcome :=
  let deferred := Pending in
  match readImageInformation b w with
  | (w1, Thrown e) => (w1, Thrown e)
  | (w1, p1) =>
      (* .then(checkIfZeroedThenContinue, createSafeReject(deferred)):
         checkIfZeroedThenContinue settles a promise of its own and
         returns undefined *)
      let '(deferred, p2) :=
        match p1 with
        | Fulfilled memory =>
            match isAllZeroed memory with
            | Some _ => (deferred, Fulfilled VUndefined)
            | None => (deferred, Rejected notAnObject)
            end
        | Rejected err => safeRejectHandler deferred err
        | _ => (deferred, Pending)
        end in
      (* .then(checkMemory(exports.readImage), createSafeReject(deferred)) *)
      let '(w2, deferred, p3) :=
        match p2 with
        | Fulfilled _ =>
            match readImage b w1 with
            | (w2, Thrown e) => (w2, deferred, Rejected e)
            | (w2, Fulfilled memory) =>
                match isAllZeroed memory with
                | Some true => (w2, deferred, resolve Pending (VBundle b))
                | Some false =>
                    (w2, reject deferred (VError "Error" "Memory not zeroed."),
                     Pending)
                | None => (w2, deferred, Pending)
                end
            | (w2, _) => (w2, deferred, Pending)
            end
        | Rejected err =>
            let '(d, p) := safeRejectHandler deferred err in (w1, d, p)
        | _ => (w1, deferred, Pending)
        end in
      (* .then(function () { deferred.resolve(bundle); },
               createSafeReject(deferred)) *)
      match p3 with
      | Fulfilled _ => (w2, resolve deferred (VBundle b))
      | Rejected err => (w2, fst (safeRejectHandler deferred err))
      | _ => (w2, deferred)
      end
  end.

(** *** Verification after write *)

(** [Number(c)] for the string of the one character [c]: a decimal digit
    is its value, white space is 0, and any other character is NaN
    ([None]), which no number equals.  Characters are taken from the first
    256 code points. *)
Definition charToNumber (c : ascii) : option Z :=
  let n := Z.of_nat (nat_of_ascii c) in
  if (48 <=? n) && (n <=? 57) then Some (n - 48)
  else if ((9 <=? n) && (n <=? 13)) || (n =? 32) || (n =? 160) then Some 0
  else None.

(** What the loop of checkImageWrite finds in the value it is handed: its
    elements [readImage[0]], ..., as the numbers that [!=] compares
    ([None] for an element that equals no number); no element for a value
    without a [length]; [None] when reading [length] throws. *)
Definition comparands (readImage : Value) : option (list (option Z)) :=
  match readImage with
  | VUndefined => None
  | VMemory words => Some (map Some words)
  | VString s => Some (map charToNumber (list_ascii_of_string s))
  | VBundle _ | VError _ _ => Some []
  end.

(** The least index [i] with [bundleImage[i] != readImage[i]], counting
    from [i]; a byte past the end of the image is undefined and differs
    from everything. *)
Fixpoint firstMismatch (bundleImage : Buffer.t) (i : nat)
  (readImage : list (option Z)) : option nat :=
  match readImage with
  | [] => None
  | element :: rest =>
      let differs :=
        match nth_error bundleImage i, element with
        | Some byte, Some n => negb (Z.of_N (Byte.to_N byte) =? n)
        | _, _ => true
        end in
      if differs then Some i else firstMismatch bundleImage (S i) rest
  end.

Definition unexpectedImageData (i : nat) : Value :=
  VError "Error" ("Unexpected image data at " ++ string_of_Z (Z.of_nat i)).

Definition checkImageWrite (b : DeviceFirmwareBundle) (w : World Ext)
  : World Ext * Outcome :=
  let deferred := Pending in
  match readImage b w with
  | (w', Thrown e) => (w', Thrown e)
  | (w', Fulfilled readImage) =>
      match comparands readImage with
      | None => (w', deferred)
      | Some elements =>
          match firstMismatch (firmwareImage b) 0 elements with
          | Some i => (w', reject deferred (unexpectedImageData i))
          | None => (w', resolve deferred (VBundle b))
          end
      end
  | (w', Rejected err) => (w', fst (safeRejectHandler deferred err))
  | (w', Pending) => (w', deferred)
  end.

(** *** Reboot, close and re-enumeration *)

Definition restartAndUpgrade (b : DeviceFirmwareBundle) (w : World Ext)
  : World Ext * Outcome :=
  match device b with
  | None => (w, Thrown nullDevice)
  | Some h =>
      let '(e, r) := drv_write drv h (T7_MA_REQ_FWUPG dc)
                       (T7_REQUEST_FW_UPGRADE dc) (ext w) in
      let w' := emit (withExt w e)
                  (EvWrite h (T7_MA_REQ_FWUPG dc) (T7_REQUEST_FW_UPGRADE dc)) in
      match r with
      | Some errorMsg => (w', reject Pending (VString errorMsg))
      | None => (w', resolve Pending (VBundle b))
      end
  end.

Definition closeDevice (b : DeviceFirmwareBundle) (w : World Ext)
  : World Ext * Outcome :=
  match device b with
  | None => (w, Thrown nullDevice)
  | Some h =>
      let '(e, r) := drv_close drv h (ext w) in
      let w' := emit (withExt w e) (EvClose h) in
      match r with
      | Some _ => (w', reject Pending (VBundle b))
      | None => (w', resolve Pending (VBundle b))
      end
  end.

(** [forceClose] logs [device.handle] before its [var device] is assigned:
    the hoisted [device] is still undefined there, whatever the argument,
    and the call throws before it does anything else. *)
Definition forceClose (bundle : Value) (w : World Ext)
  : World Ext * Outcome :=
  (w, Thrown (typeError "Cannot read property 'handle' of undefined")).

Definition pauseForClose (b : DeviceFirmwareBundle) (w : World Ext)
  : World Ext * Outcome :=
  (emit w (EvSetTimeout EXPECTED_FIRMWARE_UPDATE_TIME),
   resolve Pending (VBundle b)).

(** [checkForDevice], once per expired timer, for at most [polls] timers.
    A failed listing has no rejection handler: nothing is scheduled any
    more and the promise stays pending. *)
Fixpoint checkForDevice (polls : nat) (b : DeviceFirmwareBundle)
  (targetSerial : Z) (w : World Ext) : World Ext * Outcome :=
  match polls with
  | O => (w, Pending)
  | S polls' =>
      let '(e1, r1) := drv_listAll drv (connectionType b) (ext w) in
      let w1 := emit (withExt w e1) (EvListAll (connectionType b)) in
      match r1 with
      | inl _ => (w1, Pending)
      | inr serialNumbers =>
          if existsb (Z.eqb targetSerial) serialNumbers then
            let '(e2, r2) :=
              drv_open drv (connectionType b) targetSerial (ext w1) in
            let w2 := emit (withExt w1 e2)
                        (EvOpen (connectionType b) targetSerial) in
            match r2 with
            | inl _ =>
                checkForDevice polls' b targetSerial
                  (emit w2 (EvSetTimeout EXPECTED_REBOOT_WAIT))
            | inr newDevice =>
                (w2, resolve Pending (VBundle (setDevice b newDevice)))
            end
          else
            checkForDevice polls' b targetSerial
              (emit w1 (EvSetTimeout EXPECTED_REBOOT_WAIT))
      end
  end.

Definition waitForEnumeration (polls : nat) (b : DeviceFirmwareBundle)
  (w : World Ext) : World Ext * Outcome :=
  match serial b with
  | None => (w, Thrown nullDevice)
  | Some targetSerial =>
      checkForDevice polls b targetSerial
        (emit w (EvSetTimeout EXPECTED_REBOOT_WAIT))
  end.

(** *** Version confirmation *)

Definition checkNewFirmware (b : DeviceFirmwareBundle) (w : World Ext)
  : World Ext * Outcome :=
  match device b with
  | None => (w, Thrown nullDevice)
  | Some h =>
      let '(e, r) := drv_readFirmwareVersion drv h (ext w) in
      let w' := emit (withExt w e) (EvRead h) in
      match r with
      | inl errorMsg => (w', reject Pending (VString errorMsg))
      | inr firmwareVersion =>
          let dif := Double.sub (version b) firmwareVersion in
          if Double.ltb (Double.ofQ (1 # 10000)) (Double.abs dif) then
            (w', reject Pending
                   (VError "Error"
                      "New firmware version does not reflect upgrade."))
          else (w', resolve Pending (VBundle b))
      end
  end.

(** *** The pipeline *)

Definition readFirmwareFile (fileSrc : string) (w : World Ext)
  : World Ext * Outcome :=
  let '(e, r) := drv_readFirmwareFile drv fileSrc (ext w) in
  match r with
  | inl message => (withExt w e, reject Pending (VString message))
  | inr file =>
      (withExt w e,
       resolve Pending
         (VBundle (mkBundle (ff_imageInformation file) (ff_image file) None
                            (ff_version file) None None)))
  end.

(** A promise chain under construction: the world, the deferred that
    [updateFirmware] returns the promise of, and the promise that the
    next [then] is called on. *)
Record Chain := mkChain {
  ch_world : World Ext;
  ch_deferred : Outcome;
  ch_promise : Outcome
}.

(** A handler sees the settled value, the world and the outer deferred;
    it returns a promise or a value ([Fulfilled]), or throws. *)
Definition Handler :=
  Value -> World Ext -> Outcome -> World Ext * Outcome * Outcome.

(** [promise.then(onFulfilled, onRejected)]. *)
Definition then_ (c : Chain) (handlers : Handler * Handler) : Chain :=
  let '(onFulfilled, onRejected) := handlers in
  match ch_promise c with
  | Fulfilled v =>
      let '(w, d, o) := onFulfilled v (ch_world c) (ch_deferred c) in
      mkChain w d (asPromise o)
  | Rejected reason =>
      let '(w, d, o) := onRejected reason (ch_world c) (ch_deferred c) in
      mkChain w d (asPromise o)
  | Pending | Thrown _ => c
  end.

(** A stage that expects a bundle, as a fulfilment handler. *)
Definition stage (f : DeviceFirmwareBundle -> World Ext -> World Ext * Outcome)
  : Handler :=
  fun v w d =>
    match v with
    | VBundle b => let '(w', o) := f b w in (w', d, o)
    | _ => (w, d, Thrown (typeError "undefined is not a function"))
    end.

Definition injectDevice (dev : Handle) (connection : option Z) : Handler :=
  stage (fun b w =>
    let '(e, r) := drv_readSerialSync drv dev (ext w) in
    match r with
    | inr serialNumber =>
        let b := setConnectionType (setSerialNumber b serialNumber)
                   connection in
        (withExt w e, resolve Pending (VBundle (setDevice b dev)))
    | inl errorMsg => (withExt w e, reject Pending (VString errorMsg))
    end).

Definition reportError (message : string) : Handler :=
  fun error w deferred =>
    if String.eqb message "finishingUpdate" then (w, deferred, Thrown error)
    else match safelyReject deferred error with
         | Some deferred' => (w, deferred', Thrown error)
         | None => (w, deferred, Thrown notAnObject)
         end.

(** The listener is taken to call back, as [update] and
    [displayStatusText] are meant to. *)
Definition updateProgress (value : Q) : Handler :=
  fun bundle w d => (emit w (EvUpdate value), d, resolve Pending bundle).

Definition updateStatusText (value : string) : Handler :=
  fun bundle w d => (emit w (EvStatusText value), d, resolve Pending bundle).

(** [deferred.resolve] as the last fulfilment handler. *)
Definition resolveDeferred : Handler :=
  fun v w d => (w, resolve d v, Fulfilled VUndefined).

Definition asHandler (f : Value -> World Ext -> World Ext * Outcome)
  : Handler :=
  fun v w d => let '(w', o) := f v w in (w', d, o).

(** The [then] steps that updateFirmware hangs onto the promise of
    readFirmwareFile, in order. *)
Definition pipeline (polls : nat) (dev : Handle) (connection : option Z)
  : list (Handler * Handler) :=
  [ (injectDevice dev connection, reportError "readingFirmwareFile");
    (stage (fun b w => (w, checkCompatibility b)),
     reportError "injectDevice");
    (updateProgress CHECKPOINT_ONE_PERCENT,
     reportError "checkCompatibility");
    (updateStatusText "Erasing image...", reportError "updateProgress");
    (stage eraseImage, reportError "updateStatusText");
    (stage eraseImageInformation, reportError "eraseImage");
    (updateProgress CHECKPOINT_TWO_PERCENT,
     reportError "eraseImageInformation");
    (updateStatusText "Writing image...", reportError "updateProgress");
    (stage (writeImage CHECKPOINT_TWO_PERCENT CHECKPOINT_THREE_PERCENT),
     reportError "updateStatusText");
    (stage (writeImageInformation CHECKPOINT_THREE_PERCENT
              CHECKPOINT_FOUR_PERCENT),
     reportError "writeImage");
    (updateProgress CHECKPOINT_FOUR_PERCENT,
     reportError "writeImageInformation");
    (updateStatusText "Restarting...", reportError "updateProgress");
    (stage restartAndUpgrade, reportError "updateStatusText");
    (stage closeDevice, asHandler forceClose);
    (updateStatusText "<br>Waiting for device(s)...",
     reportError "restartAndUpgrade");
    (stage pauseForClose, reportError "updateStatusText");
    (stage (waitForEnumeration polls), reportError "pauseForClose");
    (stage checkNewFirmware, reportError "waitForEnumeration");
    (updateProgress CHECKPOINT_FIVE_PERCENT,
     reportError "checkNewFirmware");
    (resolveDeferred, reportError "finishingUpdate") ].

(** [updateFirmware(device, firmwareFileLocation, connectionType,
    progressListener)]: the final world and the state of the returned
    promise, after at most [polls] enumeration polls. *)
Definition updateFirmware (polls : nat) (dev : Handle)
  (firmwareFileLocation : string) (connection : option Z) (w : World Ext)
  : World Ext * Outcome :=
  let first := readFirmwareFile firmwareFileLocation w in
  let c := fold_left then_ (pipeline polls dev connection)
             (mkChain (fst first) Pending (snd first)) in
  (ch_world c, ch_deferred c).

End Upgrade.

(** ** The range helper in full *)

(** [range(start, stop, step)] with its optional arguments.  The [for] loop
    is run for at most [fuel] tests of its condition; [None] stands for a
    call that has not returned by then. *)
Module General.

Fixpoint loop (fuel : nat) (i stop step : Z) : option (list Z) :=
  match fuel with
  | O => None
  | S fuel' =>
      if (if 0 <? step then i <? stop else stop <? i) then
        match loop fuel' (i + step) stop step with
        | Some result => Some (i :: result)
        | None => None
        end
      else Some []
  end.

(** One test of the loop condition per member and one that ends the loop:
    between integers, a step other than 0 covers the distance from [start]
    to [stop] in at most that many members. *)
Definition range (start : Z) (stop step : option Z) : option (list Z) :=
  let '(start, stop) :=
    match stop with
    | None => (0, start)
    | Some stop => (start, stop)
    end in
  let step := match step with None => 1 | Some step => step end in
  if ((0 <? step) && (stop <=? start)) || ((step <? 0) && (start <=? stop))
  then Some []
  else loop (S (Z.to_nat (Z.abs (stop - start)))) start stop step.

End General.

(** ** A simulated device *)

(** A small scripted outside world to run the operations on: flash whose
    every word reads back [flashWord], a device that is listed again from
    the [bootPolls]-th listing on (never, for [None]), and switches for the
    calls that can be made to fail.  The constants are sample values (block
    size 8 and page size 4096 as on the T7, three image pages to keep the
    runs short). *)
Module Sim.

Record State := mkState {
  flashWord : Z;
  restartFails : bool;
  closeFails : bool;
  bootPolls : option nat;
  listings : nat;
  reportedVersion : Double.t;
  file : FirmwareFile
}.

Definition serialNumber : Z := 470010117.

Definition consts : DriverConst :=
  {| T7_MA_EXF_KEY := 61800;
     T7_MA_EXF_ERASE := 61820;
     T7_MA_EXF_pREAD := 61810;
     T7_MA_EXF_READ := 61812;
     T7_MA_EXF_pWRITE := 61830;
     T7_MA_EXF_WRITE := 61832;
     T7_MA_REQ_FWUPG := 61996;
     T7_REQUEST_FW_UPGRADE := 1280262231;
     T7_FLASH_PAGE_SIZE := 4096;
     T7_FLASH_BLOCK_WRITE_SIZE := 8;
     T7_EFAdd_ExtFirmwareImage := 3670016;
     T7_IMG_FLASH_PAGE_ERASE := 3;
     T7_EFkey_ExtFirmwareImage := 1702317207;
     T7_EFAdd_ExtFirmwareImgInfo := 3604480;
     T7_HDR_FLASH_PAGE_ERASE := 1;
     T7_EFkey_ExtFirmwareImgInfo := 946617483;
     T7_HEAD_FIRST_FOUR_BYTES := 1280200754;
     T7_TARGET_OLD := 100017001;
     T7_TARGET := 100007001 |}.

Definition countListing (s : State) : State :=
  mkState (flashWord s) (restartFails s) (closeFails s) (bootPolls s)
          (S (listings s)) (reportedVersion s) (file s).

Definition rwMany (h : Handle) (f : Frame) (s : State)
  : State * (string + list Z) :=
  match last (directions f) LJM_WRITE with
  | LJM_READ =>
      (s, inr (repeat (flashWord s) (Z.to_nat (last (numValues f) 0))))
  | LJM_WRITE => (s, inr [])
  end.

Definition listAll (connection : option Z) (s : State)
  : State * (string + list Z) :=
  (countListing s,
   inr (match bootPolls s with
        | Some n => if Nat.leb n (listings s) then [serialNumber] else []
        | None => []
        end)).

Definition driver : Driver State :=
  {| drv_rwMany := rwMany;
     drv_writeMany := fun _ _ _ s => (s, None);
     drv_write := fun _ _ _ s =>
       (s, if restartFails s then Some "1239"%string else None);
     drv_close := fun _ s =>
       (s, if closeFails s then Some "1224"%string else None);
     drv_readFirmwareVersion := fun _ s => (s, inr (reportedVersion s));
     drv_readSerialSync := fun _ s => (s, inr serialNumber);
     drv_listAll := listAll;
     drv_open := fun _ _ s => (s, inr 2%nat);
     drv_readFirmwareFile := fun _ s => (s, inr (file s)) |}.

(** A firmware file for version 1.0290 whose image is the given words. *)
Definition firmware (imageWords : list Z) : FirmwareFile :=
  {| ff_imageInformation :=
       {| rawImageInfo := Buffer.ofWords (repeat 0 32);
          headerCode := T7_HEAD_FIRST_FOUR_BYTES consts;
          intendedDevice := T7_TARGET consts;
          containedVersion := Double.ofQ (10290 # 10000) |};
     ff_image := Buffer.ofWords imageWords;
     ff_version := Double.ofQ (10290 # 10000) |}.

(** A device that takes the new firmware and is back at the second
    listing. *)
Definition healthy (imageWords : list Z) : State :=
  mkState 0 false false (Some 1%nat) 0 (Double.ofQ (10290 # 10000))
    (firmware imageWords).

(** The same device, never listed again after the reboot. *)
Definition lost (imageWords : list Z) : State :=
  mkState 0 false false None 0 (Double.ofQ (10290 # 10000))
    (firmware imageWords).

(** The same device, whose close reports an error. *)
Definition closeFailing (imageWords : list Z) : State :=
  mkState 0 false true (Some 1%nat) 0 (Double.ofQ (10290 # 10000))
    (firmware imageWords).

(** The same device, whose upgrade request reports an error. *)
Definition restartFailing (imageWords : list Z) : State :=
  mkState 0 true false (Some 1%nat) 0 (Double.ofQ (10290 # 10000))
    (firmware imageWords).

(** The same device, reporting the given firmware version. *)
Definition reporting (reported : Double.t) : State :=
  mkState 0 false false (Some 1%nat) 0 reported (firmware []).

Definition fileName : string := "T7firmware_010290_2014-01-01.bin".

Definition run (polls : nat) (s : State) : World State * Outcome :=
  updateFirmware driver consts polls 1%nat fileName (Some 1) (initialWorld s).

End Sim.

(** ** A device that fails *)

(** A second scripted outside world, for the runs that go wrong.  The
    device carries out [flashCalls] more flash calls (page erases and
    frames) and refuses every flash call after them; when [busDown] is set,
    listing the devices fails.  All other calls succeed, and the device is
    listed whenever the listing succeeds. *)
Module Faulty.

Record State := mkState {
  flashCalls : nat;
  busDown : bool
}.

Definition refusal : string := "1204".
Definition noBus : string := "1227".

Definition flashCall (s : State) : State * bool :=
  match flashCalls s with
  | O => (s, false)
  | S n => (mkState n (busDown s), true)
  end.

Definition driver (file : FirmwareFile) : Driver State :=
  {| drv_rwMany := fun _ _ s =>
       let '(s', ok) := flashCall s in
       (s', if ok then inr [] else inl refusal);
     drv_writeMany := fun _ _ _ s =>
       let '(s', ok) := flashCall s in
       (s', if ok then None else Some refusal);
     drv_write := fun _ _ _ s => (s, None);
     drv_close := fun _ s => (s, None);
     drv_readFirmwareVersion := fun _ s => (s, inr (ff_version file));
     drv_readSerialSync := fun _ s => (s, inr Sim.serialNumber);
     drv_listAll := fun _ s =>
       (s, if busDown s then inl noBus else inr [Sim.serialNumber]);
     drv_open := fun _ _ s => (s, inr 2%nat);
     drv_readFirmwareFile := fun _ s => (s, inr file) |}.

(** A device that refuses its flash calls after the first [n]. *)
Definition refusingAfter (n : nat) : State := mkState n false.

(** A device that carries out [n] flash calls, on a bus that cannot be
    listed. *)
Definition unlisted (n : nat) : State := mkState n true.

Definition run (polls : nat) (file : FirmwareFile) (s : State)
  : World State * Outcome :=
  updateFirmware (driver file) Sim.consts polls 1%nat Sim.fileName (Some 1)
    (initialWorld s).

(** The simulated device with one call that always fails: the read of the
    firmware file, the request to reboot into the upgrade, the close. *)
Definition noFile : string := "Could not read firmware file: Error: ENOENT".

Definition fileless : Driver Sim.State :=
  {| drv_rwMany := drv_rwMany Sim.driver;
     drv_writeMany := drv_writeMany Sim.driver;
     drv_write := drv_write Sim.driver;
     drv_close := drv_close Sim.driver;
     drv_readFirmwareVersion := drv_readFirmwareVersion Sim.driver;
     drv_readSerialSync := drv_readSerialSync Sim.driver;
     drv_listAll := drv_listAll Sim.driver;
     drv_open := drv_open Sim.driver;
     drv_readFirmwareFile := fun _ s => (s, inl noFile) |}.



End Faulty.


(** ** Vocabulary of the statements *)

(** Address and declared size of each execution of a plan. *)
Definition geometry (ops : list Execution) : list (Z * Z) :=
  map (fun op => (ex_address op, ex_innerSize op)) ops.

(** [n] full blocks of [size] words laid out from [start]. *)
Definition blocksFrom (start size : Z) (n : nat) : list (Z * Z) :=
  map (fun i => (start + Z.of_nat i * size * 4, size)) (seq 0 n).

(** The layout that createFlashOperation aims at: the full blocks, then a
    partial block when the length is not a multiple of the block size. *)
Definition layout (start len size : Z) : list (Z * Z) :=
  blocksFrom start size (Z.to_nat (len / size))
  ++ (if len mod size =? 0 then []
      else [(start + len / size * size * 4, len mod size)]).

Definition sumSizes (l : list (Z * Z)) : Z :=
  fold_right (fun p acc => snd p + acc) 0 l.

(** The least number of blocks of [b] words that hold [a] words. *)
Definition ceilDiv (a b : Z) : Z := a / b + (if a mod b =? 0 then 0 else 1).

(** The words that a frame declares for the flash register, the last of
    its addresses, and the values that it carries for that register. *)
Definition declaredWords (f : Frame) : Z := last (numValues f) 0.

Definition carriedWords (f : Frame) : Z :=
  Z.of_nat
    (List.length (skipn (List.length (addresses f) - 1) (values f))).

Definition sumZ (l : list Z) : Z := fold_right Z.add 0 l.

(** The device behind [h] carries out every frame it is sent. *)
Definition accepts {Ext} (drv : Driver Ext) (h : Handle) : Prop :=
  forall f e, exists e' newResults,
    drv_rwMany drv h f e = (e', inr newResults).

(** Two drivers that differ at most in the words a successful [rwMany]
    returns: same next state, same failures. *)
Definition sameButWords {Ext} (d1 d2 : Driver Ext) : Prop :=
  forall h f e,
    fst (drv_rwMany d1 h f e) = fst (drv_rwMany d2 h f e)
    /\ match snd (drv_rwMany d1 h f e), snd (drv_rwMany d2 h f e) with
       | inl m1, inl m2 => m1 = m2
       | inr _, inr _ => True
       | _, _ => False
       end.

(** Settled alike, up to the value of a fulfilment. *)
Definition sameSettlement (o1 o2 : Outcome) : Prop :=
  match o1, o2 with
  | Fulfilled _, Fulfilled _ => True
  | Rejected r1, Rejected r2 => r1 = r2
  | Pending, Pending => True
  | Thrown e1, Thrown e2 => e1 = e2
  | _, _ => False
  end.

(** The percentages of an image write of [numberOfIntegers] words in
    blocks of [blockSize]: after each chunk, the words counted in whole
    blocks, scaled onto the range from [minPercent] to [maxPercent]. *)
Definition imageProgress (minPercent maxPercent : Q)
  (numberOfIntegers blockSize : Z) : list Q :=
  map (fun k =>
         ((maxPercent - minPercent) / inject_Z numberOfIntegers
          * inject_Z (blockSize * Z.of_nat k) + minPercent)%Q)
      (seq 1 (Z.to_nat (ceilDiv numberOfIntegers blockSize))).

(** A stage that hands nothing to the progress listener and, when it
    resolves, resolves with a bundle carrying the same image. *)
Definition quiet {Ext}
  (f : DeviceFirmwareBundle -> World Ext -> World Ext * Outcome) : Prop :=
  forall b w,
    updates (trace (fst (f b w))) = updates (trace w)
    /\ forall v, snd (f b w) = Fulfilled v ->
         exists b', v = VBundle b'
                    /\ firmwareImage b' = firmwareImage b
                    /\ firmwareImageInformation b'
                       = firmwareImageInformation b.

Definition notFulfilled (o : Outcome) : Prop :=
  match o with Fulfilled _ => False | _ => True end.

(** A rejection handler that leaves the outer deferred unresolved and
    passes a rejection on. *)
Definition rethrows {Ext} (handlers : @Handler Ext * @Handler Ext) : Prop :=
  forall reason w d,
    notFulfilled d ->
    notFulfilled (snd (fst (snd handlers reason w d)))
    /\ notFulfilled (asPromise (snd (snd handlers reason w d))).

(** The three errors of checkCompatibility, and that of checkNewFirmware. *)
Definition invalidHeaderCode : Value := VError "Error" "Invalid header code.".
Definition incorrectDeviceType : Value :=
  VError "Error" "Incorrect device type.".
Definition incorrectVersion : Value := VError "Error" "Incorrect version.".

Definition versionMismatch : Value :=
  VError "Error" "New firmware version does not reflect upgrade.".

(** The test of checkNewFirmware, [Math.abs(a - b) > 0.0001], in double
    arithmetic. *)
Definition exceedsTolerance (a b : Double.t) : bool :=
  Double.ltb (Double.ofQ (1 # 10000)) (Double.abs (Double.sub a b)).

(** From the state [e] of the outside world, the first [k] polls fail to
    bring the device back -- the listing succeeds without the serial [s],
    or lists it while the open under it fails -- and the next poll lists
    the serial and the open under it yields [h]. *)
Fixpoint reappearsAfter {Ext} (drv : Driver Ext) (k : nat)
  (connection : option Z) (s : Z) (e : Ext) (h : Handle) : Prop :=
  match k with
  | O =>
      exists e1 serialNumbers e2,
        drv_listAll drv connection e = (e1, inr serialNumbers)
        /\ existsb (Z.eqb s) serialNumbers = true
        /\ drv_open drv connection s e1 = (e2, inr h)
  | S k' =>
      exists e1 serialNumbers,
        drv_listAll drv connection e = (e1, inr serialNumbers)
        /\ ((existsb (Z.eqb s) serialNumbers = false
             /\ reappearsAfter drv k' connection s e1 h)
            \/ (existsb (Z.eqb s) serialNumbers = true
                /\ exists e2 errorMsg,
                     drv_open drv connection s e1 = (e2, inl errorMsg)
                     /\ reappearsAfter drv k' connection s e2 h))
  end.

(** From the state [e] on, every listing succeeds and none contains the
    serial [s]: some property of the outside world holds at [e], makes a
    listing succeed without the serial, and still holds afterwards. *)
Definition neverListed {Ext} (drv : Driver Ext) (connection : option Z)
  (s : Z) (e : Ext) : Prop :=
  exists Inv : Ext -> Prop,
    Inv e
    /\ forall e0, Inv e0 ->
         exists e1 serialNumbers,
           drv_listAll drv connection e0 = (e1, inr serialNumbers)
           /\ existsb (Z.eqb s) serialNumbers = false
           /\ Inv e1.

(** A bundle as the pipeline has it once the device is injected. *)
Definition simBundle (imageWords : list Z) : DeviceFirmwareBundle :=
  let file := Sim.firmware imageWords in
  mkBundle (ff_imageInformation file) (ff_image file) (Some 1%nat)
           (ff_version file) (Some Sim.serialNumber) (Some 1).

Definition wordsFrom (first : Z) (count : nat) : list Z :=
  map (fun i => first + Z.of_nat i) (seq 0 count).

(** A bundle for firmware version 0.0001. *)
Definition boundaryBundle : DeviceFirmwareBundle :=
  mkBundle (ff_imageInformation (Sim.firmware [])) [] (Some 1%nat)
           (Double.ofQ (1 # 10000)) (Some Sim.serialNumber) (Some 1).

(** The listings made so far. *)
Definition listingCount (tr : list Event) : nat :=
  List.length
    (filter (fun ev => match ev with EvListAll _ => true | _ => false end)
       tr).

Fixpoint nonDecreasingb (l : list Q) : bool :=
  match l with
  | x :: ((y :: _) as rest) => Qle_bool x y && nonDecreasingb rest
  | _ => true
  end.

Definition listed (tr : list Event) : bool :=
  existsb (fun ev => match ev with EvListAll _ => true | _ => false end) tr.

Definition closed (tr : list Event) : bool :=
  existsb (fun ev => match ev with EvClose _ => true | _ => false end) tr.

(** ** Vocabulary of the further properties *)

(** The call that erases one page, and those for a list of pages. *)
Definition eraseCall (dc : DriverConst) (h : Handle) (startAddress key : Z)
  (page : Z) : Event :=
  EvWriteMany h [T7_MA_EXF_KEY dc; T7_MA_EXF_ERASE dc]
    [key; startAddress + page * T7_FLASH_PAGE_SIZE dc].

Definition eraseCalls (dc : DriverConst) (h : Handle) (startAddress key : Z)
  (pages : list Z) : list Event :=
  map (eraseCall dc h startAddress key) pages.


(** What a flash operation does for the frames it gets to send, after
    [numIntsWritten] words: before each frame, when progress is reported,
    the words counted so far -- a whole block per frame -- go to the
    listener, scaled. *)
Fixpoint chunkEvents (reported : bool) (scaling offset : Q) (sizeInts : Z)
  (h : Handle) (numIntsWritten : Z) (fs : list Frame) : list Event :=
  match fs with
  | [] => []
  | f :: rest =>
      let numIntsWritten := numIntsWritten + sizeInts in
      (if reported
       then [EvUpdate (scaling * inject_Z numIntsWritten + offset)%Q]
       else [])
      ++ EvRwMany h f
         :: chunkEvents reported scaling offset sizeInts h numIntsWritten rest
  end.

(** The frame of chunk [i] of a read of [lengthInts] words in blocks of
    [sizeInts] words from [startAddress]: the pointer is written, and the
    words of the chunk -- a block, or what is left of the length -- are
    asked for. *)
Definition readFrame (dc : DriverConst) (startAddress lengthInts sizeInts : Z)
  (i : nat) : Frame :=
  let n := Z.min sizeInts (lengthInts - Z.of_nat i * sizeInts) in
  mkFrame [T7_MA_EXF_pREAD dc; T7_MA_EXF_READ dc] [LJM_WRITE; LJM_READ]
    [1; n]
    (Some (startAddress + Z.of_nat i * sizeInts * 4)
     :: repeat None (Z.to_nat n)).

(** The percentages of [chunkEvents], for [count] frames. *)
Fixpoint chunkPercents (scaling offset : Q) (sizeInts numIntsWritten : Z)
  (count : nat) : list Q :=
  match count with
  | O => []
  | S count' =>
      let numIntsWritten := numIntsWritten + sizeInts in
      (scaling * inject_Z numIntsWritten + offset)%Q
      :: chunkPercents scaling offset sizeInts numIntsWritten count'
  end.

(** Frames sent one after the other, each after a report of progress to
    the listener: as many frames as there are percentages. *)
Fixpoint reportedFrames (h : Handle) (percents : list Q) (fs : list Frame)
  : list Event :=
  match percents, fs with
  | percent :: percents', f :: fs' =>
      EvUpdate percent :: EvRwMany h f :: reportedFrames h percents' fs'
  | _, _ => []
  end.

(** The state that the calls [evs] leave the outside world in when the
    driver carries out every one of them, from the state [e] on; [None]
    when it fails one.  A report to the listener, a status text and a timer
    are no calls to the driver. *)
Fixpoint carriedOut {Ext} (drv : Driver Ext) (evs : list Event) (e : Ext)
  : option Ext :=
  match evs with
  | [] => Some e
  | ev :: rest =>
      match ev with
      | EvUpdate _ | EvStatusText _ | EvSetTimeout _ =>
          carriedOut drv rest e
      | EvRwMany h f =>
          match drv_rwMany drv h f e with
          | (e', inr _) => carriedOut drv rest e'
          | (_, inl _) => None
          end
      | EvWriteMany h addrs vals =>
          match drv_writeMany drv h addrs vals e with
          | (e', None) => carriedOut drv rest e'
          | (_, Some _) => None
          end
      | EvWrite h address value =>
          match drv_write drv h address value e with
          | (e', None) => carriedOut drv rest e'
          | (_, Some _) => None
          end
      | EvClose h =>
          match drv_close drv h e with
          | (e', None) => carriedOut drv rest e'
          | (_, Some _) => None
          end
      | EvRead h =>
          match drv_readFirmwareVersion drv h e with
          | (e', inr _) => carriedOut drv rest e'
          | (_, inl _) => None
          end
      | EvListAll connection =>
          match drv_listAll drv connection e with
          | (e', inr _) => carriedOut drv rest e'
          | (_, inl _) => None
          end
      | EvOpen connection identifier =>
          match drv_open drv connection identifier e with
          | (e', inr _) => carriedOut drv rest e'
          | (_, inl _) => None
          end
      end
  end.

(** From [w] to [w'] the calls [evs] were made, in this order and no
    others, and the driver carried out every one of them. *)
Definition carries {Ext} (drv : Driver Ext) (w w' : World Ext)
  (evs : list Event) : Prop :=
  trace w' = trace w ++ evs /\ carriedOut drv evs (ext w) = Some (ext w').

(** The data words of a frame that writes under a key. *)
Definition written (op : Execution) : list Z :=
  match ex_writeValues op with
  | Some writeValues => writeValues
  | None => []
  end.

(** A poll of waitForEnumeration that does not bring the device back, and
    the calls it consists of: the serial was not in the listing, or it was
    and the open under it failed; either way the timer is set again. *)
Inductive Poll := NotListed | OpenFailed.

Definition pollEvents (connection : option Z) (s : Z) (p : Poll)
  : list Event :=
  match p with
  | NotListed =>
      [EvListAll connection; EvSetTimeout EXPECTED_REBOOT_WAIT]
  | OpenFailed =>
      [EvListAll connection; EvOpen connection s;
       EvSetTimeout EXPECTED_REBOOT_WAIT]
  end.

(** The polls [ps] are what the driver answers, one after the other, from
    the state [e] of the outside world on, and they leave it in [e']: for
    [NotListed] the listing succeeds without the serial [s], for
    [OpenFailed] it lists the serial and the open under it fails. *)
Fixpoint polled {Ext} (drv : Driver Ext) (connection : option Z) (s : Z)
  (ps : list Poll) (e e' : Ext) : Prop :=
  match ps with
  | [] => e' = e
  | NotListed :: rest =>
      exists e1 serialNumbers,
        drv_listAll drv connection e = (e1, inr serialNumbers)
        /\ existsb (Z.eqb s) serialNumbers = false
        /\ polled drv connection s rest e1 e'
  | OpenFailed :: rest =>
      exists e1 serialNumbers e2 errorMsg,
        drv_listAll drv connection e = (e1, inr serialNumbers)
        /\ existsb (Z.eqb s) serialNumbers = true
        /\ drv_open drv connection s e1 = (e2, inl errorMsg)
        /\ polled drv connection s rest e2 e'
  end.

(** From the state [e] on, the polls [ps] do not bring the device back and
    the next one does: its listing holds the serial [s], and the open of
    that serial yields the device [h] and leaves the outside world in
    [e']. *)
Definition reopened {Ext} (drv : Driver Ext) (connection : option Z)
  (s : Z) (ps : list Poll) (e : Ext) (h : Handle) (e' : Ext) : Prop :=
  exists e0 e1 serialNumbers,
    polled drv connection s ps e e0
    /\ drv_listAll drv connection e0 = (e1, inr serialNumbers)
    /\ existsb (Z.eqb s) serialNumbers = true
    /\ drv_open drv connection s e1 = (e', inr h).

(** From the state [e] of the outside world, the first [k] polls fail to
    bring the device back, and the listing of the next poll fails. *)
Fixpoint listingFailsAfter {Ext} (drv : Driver Ext) (k : nat)
  (connection : option Z) (s : Z) (e : Ext) : Prop :=
  match k with
  | O =>
      exists e1 errorMsg, drv_listAll drv connection e = (e1, inl errorMsg)
  | S k' =>
      exists e1 serialNumbers,
        drv_listAll drv connection e = (e1, inr serialNumbers)
        /\ ((existsb (Z.eqb s) serialNumbers = false
             /\ listingFailsAfter drv k' connection s e1)
            \/ (existsb (Z.eqb s) serialNumbers = true
                /\ exists e2 errorMsg,
                     drv_open drv connection s e1 = (e2, inl errorMsg)
                     /\ listingFailsAfter drv k' connection s e2))
  end.

(** A rejection handler that hands the rejection on: it leaves the world
    alone and throws, and it does not touch an outer deferred that is
    already settled. *)
Definition passesOn {Ext} (handlers : @Handler Ext * @Handler Ext) : Prop :=
  forall reason w d,
    exists d' reason',
      snd handlers reason w d = (w, d', Thrown reason')
      /\ (d <> Pending -> d' = d).

(** The bundle that [injectDevice] makes of a firmware file. *)
Definition injected (file : FirmwareFile) (dev : Handle) (s : Z)
  (connection : option Z) : DeviceFirmwareBundle :=
  mkBundle (ff_imageInformation file) (ff_image file) (Some dev)
           (ff_version file) (Some s) connection.

(** A firmware file whose header names another device. *)
Definition foreignFirmware : FirmwareFile :=
  {| ff_imageInformation :=
       {| rawImageInfo := Buffer.ofWords (repeat 0 32);
          headerCode := T7_HEAD_FIRST_FOUR_BYTES Sim.consts;
          intendedDevice := 200007001;
          containedVersion := Double.ofQ (10290 # 10000) |};
     ff_image := Buffer.ofWords (wordsFrom 1 16);
     ff_version := Double.ofQ (10290 # 10000) |}.

(** [w'] has the trace of [w] and, after it, only events of the kind
    [sel]. *)
Definition adds {Ext} (sel : Event -> bool) (w w' : World Ext) : Prop :=
  exists evs, trace w' = trace w ++ evs /\ forallb sel evs = true.

Definition handlerAdds {Ext} (sel : Event -> bool) (h : @Handler Ext)
  : Prop :=
  forall v w d, adds sel w (fst (fst (h v w d))).

(** Progress reports, status texts, page erases and frames: what is done
    before the device is asked to reboot. *)
Definition flashEvent (ev : Event) : bool :=
  match ev with
  | EvUpdate _ | EvStatusText _ | EvWriteMany _ _ _ | EvRwMany _ _ => true
  | _ => false
  end.

Definition anyEvent (ev : Event) : bool := true.

(** The request to reboot into the upgrade, and whether a trace holds
    one: a write of a single register, of which this request is the only
    one that updateFirmware makes. *)
Definition upgradeRequest (dc : DriverConst) (dev : Handle) : Event :=
  EvWrite dev (T7_MA_REQ_FWUPG dc) (T7_REQUEST_FW_UPGRADE dc).

Definition upgradeRequested (tr : list Event) : bool :=
  existsb (fun ev => match ev with EvWrite _ _ _ => true | _ => false end)
    tr.

(** A firmware file whose image and image information are whole 4-byte
    words: the files for which the counts of words that writeImage and
    writeImageInformation compute are integers. *)
Definition wholeWords (file : FirmwareFile) : Prop :=
  Z.of_nat (List.length (ff_image file)) mod 4 = 0
  /\ Z.of_nat (List.length (rawImageInfo (ff_imageInformation file))) mod 4
     = 0.

(** The firmware file at [firmwareFileLocation], if it can be read in the
    world [w], is one of whole words. *)
Definition readsWholeWords {Ext} (drv : Driver Ext)
  (firmwareFileLocation : string) (w : World Ext) : Prop :=
  forall file,
    snd (drv_readFirmwareFile drv firmwareFileLocation (ext w)) = inr file ->
    wholeWords file.

(** The plans of the two writes of the pipeline, and their frames. *)
Definition imagePlan (dc : DriverConst) (file : FirmwareFile)
  : option (list Execution) :=
  executeOperations (T7_EFAdd_ExtFirmwareImage dc)
    (Z.of_nat (List.length (ff_image file)) / 4)
    (T7_FLASH_BLOCK_WRITE_SIZE dc) false (Some (ff_image file)).

Definition infoPlan (dc : DriverConst) (file : FirmwareFile)
  : option (list Execution) :=
  executeOperations (T7_EFAdd_ExtFirmwareImgInfo dc)
    (Z.of_nat (List.length (rawImageInfo (ff_imageInformation file))) / 4)
    (T7_FLASH_BLOCK_WRITE_SIZE dc) false
    (Some (rawImageInfo (ff_imageInformation file))).

Definition writeFrames (dc : DriverConst) (key : Z) (ops : list Execution)
  : list Frame :=
  map (frameOf dc (T7_MA_EXF_pWRITE dc) (T7_MA_EXF_WRITE dc) false (Some key))
    ops.

(** What updateFirmware does to the device [dev] and tells the listener
    before it asks for the reboot, when nothing fails: it erases the pages
    of the image and of the image information, writes the frames of the
    image, each after a report of progress -- the percentages [percents]
    -- and writes the frames of the image information, reporting
    nothing. *)
Definition flashSequence (dc : DriverConst) (dev : Handle)
  (percents : list Q) (imageOps infoOps : list Execution) : list Event :=
  [EvUpdate CHECKPOINT_ONE_PERCENT; EvStatusText "Erasing image..."]
  ++ eraseCalls dc dev (T7_EFAdd_ExtFirmwareImage dc)
       (T7_EFkey_ExtFirmwareImage dc) (range (T7_IMG_FLASH_PAGE_ERASE dc))
  ++ eraseCalls dc dev (T7_EFAdd_ExtFirmwareImgInfo dc)
       (T7_EFkey_ExtFirmwareImgInfo dc) (range (T7_HDR_FLASH_PAGE_ERASE dc))
  ++ [EvUpdate CHECKPOINT_TWO_PERCENT; EvStatusText "Writing image..."]
  ++ reportedFrames dev percents
       (writeFrames dc (T7_EFkey_ExtFirmwareImage dc) imageOps)
  ++ map (EvRwMany dev)
       (writeFrames dc (T7_EFkey_ExtFirmwareImgInfo dc) infoOps)
  ++ [EvUpdate CHECKPOINT_FOUR_PERCENT; EvStatusText "Restarting..."].

(** A deferred that is settled, if at all, with a value or with the text
    of an error. *)
Definition textual (d : Outcome) : Prop :=
  match d with
  | Rejected reason => exists errorMsg, reason = VString errorMsg
  | Thrown _ => False
  | Fulfilled _ | Pending => True
  end.

(** What updateFirmware does after the flash sequence when nothing fails:
    the request to reboot, the close, the wait for the device -- the polls
    that did not bring it back, then the listing and the open that did --
    and the read of its firmware version under the new handle [h]. *)
Definition rebootSequence (dc : DriverConst) (dev : Handle)
  (connection : option Z) (s : Z) (unsuccessful : list Poll) (h : Handle)
  : list Event :=
  [upgradeRequest dc dev; EvClose dev;
   EvStatusText "<br>Waiting for device(s)...";
   EvSetTimeout EXPECTED_FIRMWARE_UPDATE_TIME;
   EvSetTimeout EXPECTED_REBOOT_WAIT]
  ++ flat_map (pollEvents connection s) unsuccessful
  ++ [EvListAll connection; EvOpen connection s; EvRead h;
      EvUpdate CHECKPOINT_FIVE_PERCENT].

(** * Properties *)

(** ** The chunk plan *)

Lemma blocksFrom_S (start size : Z) (n : nat) :
  blocksFrom start size (S n)
  = (start, size) :: blocksFrom (start + size * 4) size n.
Proof.
  unfold blocksFrom. cbn [seq map]. rewrite <- seq_shift, map_map.
  f_equal.
  - f_equal. lia.
  - apply map_ext. intros i. f_equal. lia.
Qed.

Lemma blocksFrom_length (start size : Z) (n : nat) :
  List.length (blocksFrom start size n) = n.
Proof. unfold blocksFrom. now rewrite length_map, length_seq. Qed.

Lemma blocksFrom_nth (start size : Z) (n i : nat) (d : Z * Z) :
  (i < n)%nat ->
  nth i (blocksFrom start size n) d = (start + Z.of_nat i * size * 4, size).
Proof.
  intros Hi. unfold blocksFrom.
  set (f := fun i : nat => (start + Z.of_nat i * size * 4, size)).
  rewrite (nth_indep _ d (f O)) by now rewrite length_map, length_seq.
  rewrite (map_nth f), seq_nth by exact Hi. reflexivity.
Qed.

Lemma getdata_loop_total (buf : Buffer.t) (count : nat) :
  forall i offset,
    0 <= i * 4 + offset ->
    (i + Z.of_nat count) * 4 + offset <= Z.of_nat (List.length buf) ->
    exists vs, getdata_loop buf count i offset = Some vs
               /\ List.length vs = count.
Proof.
  induction count as [|count IH]; intros i offset Hlo Hhi.
  - exists []. split; reflexivity.
  - cbn [getdata_loop]. unfold Buffer.readUInt32BE.
    replace (i * 4 + offset <? 0) with false by (symmetry; apply Z.ltb_ge; lia).
    replace (Z.of_nat (List.length buf) <? i * 4 + offset + 4) with false
      by (symmetry; apply Z.ltb_ge; lia).
    cbn [orb].
    destruct (IH (i + 1) offset) as [vs [Hvs Hlen]]; [lia | lia |].
    rewrite Hvs. eexists. split; [reflexivity|]. simpl. now rewrite Hlen.
Qed.

Lemma payload_read (data : option Buffer.t) (n offset : Z) :
  payload true data n offset = Some None.
Proof. reflexivity. Qed.

Lemma payload_write_total (buf : Buffer.t) (n offset : Z) :
  0 <= offset -> 0 <= n ->
  offset + 4 * n <= Z.of_nat (List.length buf) ->
  exists vs, payload false (Some buf) n offset = Some (Some vs)
             /\ Z.of_nat (List.length vs) = n.
Proof.
  intros Ho Hn Hlen. unfold payload, getdata.
  destruct (getdata_loop_total buf (Z.to_nat n) 0 offset) as [vs [Hvs Hl]];
    [lia | lia |].
  rewrite Hvs. exists vs. split; [reflexivity | lia].
Qed.

(** Whenever the loop over the full blocks completes, it has laid the
    blocks out back to back and advanced the payload offset by 32 bytes per
    block. *)
Lemma fullBlocks_geometry (isReadOp : bool) (data : option Buffer.t)
  (size : Z) (n : nat) :
  forall a o ops a' o',
    fullBlocks n isReadOp data size a o = Some (ops, a', o') ->
    geometry ops = blocksFrom a size n
    /\ a' = a + Z.of_nat n * size * 4
    /\ o' = o + 32 * Z.of_nat n.
Proof.
  induction n as [|n IH]; intros a o ops a' o' H.
  - cbn in H. inversion H; subst. repeat split; cbn; lia.
  - cbn [fullBlocks] in H.
    destruct (payload isReadOp data 8 o) as [wv|]; [|discriminate].
    destruct (fullBlocks n isReadOp data size (a + size * 4) (o + 32))
      as [[[ops1 a1] o1]|] eqn:E; [|discriminate].
    inversion H; subst. destruct (IH _ _ _ _ _ E) as [Hg [Ha Ho]].
    rewrite blocksFrom_S. cbn [geometry map]. fold (geometry ops1).
    rewrite Hg. split; [reflexivity | split; lia].
Qed.

Lemma fullBlocks_read_total (data : option Buffer.t) (size : Z) (n : nat) :
  forall a o, exists ops a' o',
    fullBlocks n true data size a o = Some (ops, a', o').
Proof.
  induction n as [|n IH]; intros a o.
  - cbn. eauto.
  - cbn [fullBlocks]. rewrite payload_read.
    destruct (IH (a + size * 4) (o + 32)) as [ops [a' [o' E]]].
    rewrite E. eauto.
Qed.

Lemma fullBlocks_write_total (buf : Buffer.t) (size : Z) (n : nat) :
  forall a o,
    0 <= o -> o + 32 * Z.of_nat n <= Z.of_nat (List.length buf) ->
    exists ops a' o',
      fullBlocks n false (Some buf) size a o = Some (ops, a', o').
Proof.
  induction n as [|n IH]; intros a o Ho Hlen.
  - cbn. eauto.
  - cbn [fullBlocks].
    destruct (payload_write_total buf 8 o) as [vs [Hvs _]]; [lia | lia | lia |].
    rewrite Hvs.
    destruct (IH (a + size * 4) (o + 32)) as [ops [a' [o' E]]]; [lia | lia |].
    rewrite E. eauto.
Qed.

Lemma totalWords_geometry (ops : list Execution) :
  totalWords ops = sumSizes (geometry ops).
Proof.
  unfold totalWords, sumSizes, geometry.
  induction ops as [|op ops IH]; cbn [map fold_right snd]; [reflexivity|].
  now rewrite IH.
Qed.

Lemma sumSizes_app (l1 l2 : list (Z * Z)) :
  sumSizes (l1 ++ l2) = sumSizes l1 + sumSizes l2.
Proof.
  unfold sumSizes.
  induction l1 as [|p l1 IH]; cbn [app fold_right]; [reflexivity|].
  rewrite IH. lia.
Qed.

Lemma sumSizes_blocksFrom (size : Z) (n : nat) :
  forall start, sumSizes (blocksFrom start size n) = Z.of_nat n * size.
Proof.
  induction n as [|n IH]; intros start; [reflexivity|].
  rewrite blocksFrom_S. cbn [sumSizes fold_right snd].
  fold (sumSizes (blocksFrom (start + size * 4) size n)). rewrite IH. lia.
Qed.

Lemma layout_length (start len size : Z) :
  0 < size -> 0 <= len ->
  Z.of_nat (List.length (layout start len size))
  = len / size + (if len mod size =? 0 then 0 else 1).
Proof.
  intros Hs Hl. unfold layout. rewrite length_app, blocksFrom_length.
  assert (0 <= len / size) by (apply Z.div_pos; lia).
  destruct (len mod size =? 0); cbn [List.length]; lia.
Qed.

Lemma layout_sum (start len size : Z) :
  0 < size -> 0 <= len -> sumSizes (layout start len size) = len.
Proof.
  intros Hs Hl. unfold layout. rewrite sumSizes_app, sumSizes_blocksFrom.
  assert (0 <= len / size) by (apply Z.div_pos; lia).
  pose proof (Z.div_mod len size ltac:(lia)) as Hdm.
  destruct (len mod size =? 0) eqn:E; cbn [sumSizes fold_right snd].
  - apply Z.eqb_eq in E. nia.
  - nia.
Qed.

Lemma layout_nth (start len size : Z) (i : nat) (d : Z * Z) :
  0 < size -> 0 <= len ->
  (i < List.length (layout start len size))%nat ->
  nth i (layout start len size) d
  = (start + Z.of_nat i * size * 4,
     if Z.of_nat i <? len / size then size else len mod size).
Proof.
  intros Hs Hl Hi.
  pose proof (layout_length start len size Hs Hl) as Hlen.
  assert (Hq : 0 <= len / size) by (apply Z.div_pos; lia).
  unfold layout in *.
  destruct (Z.ltb_spec (Z.of_nat i) (len / size)) as [Hlt|Hge].
  - rewrite app_nth1 by (rewrite blocksFrom_length; lia).
    apply blocksFrom_nth. lia.
  - rewrite app_nth2 by (rewrite blocksFrom_length; lia).
    rewrite blocksFrom_length.
    destruct (len mod size =? 0).
    + rewrite length_app, blocksFrom_length in Hi. cbn in Hi. lia.
    + rewrite length_app, blocksFrom_length in Hi. cbn [List.length] in Hi.
      replace (i - Z.to_nat (len / size))%nat with O by lia.
      cbn [nth]. f_equal. f_equal. nia.
Qed.

(** Whenever createFlashOperation gets to build its plan, the plan has the
    aimed-at layout. *)
Lemma executeOperations_layout (startAddress lengthInts sizeInts : Z)
  (isReadOp : bool) (data : option Buffer.t) (ops : list Execution) :
  0 < sizeInts -> 0 <= lengthInts ->
  executeOperations startAddress lengthInts sizeInts isReadOp data = Some ops ->
  geometry ops = layout startAddress lengthInts sizeInts.
Proof.
  intros Hs Hl. unfold executeOperations, floorDiv, jsRem, layout.
  rewrite Z.rem_mod_nonneg by lia.
  assert (Hq : 0 <= lengthInts / sizeInts) by (apply Z.div_pos; lia).
  pose proof (Z.mod_pos_bound lengthInts sizeInts Hs) as Hm.
  destruct (fullBlocks _ isReadOp data sizeInts startAddress 0)
    as [[[full a] o]|] eqn:E; [|discriminate].
  destruct (fullBlocks_geometry _ _ _ _ _ _ _ _ _ E) as [Hg [Ha Ho]].
  destruct (Z.eqb_spec (lengthInts mod sizeInts) 0) as [Hz|Hnz].
  - rewrite Hz. cbn [Z.ltb Z.compare andb]. intros H. inversion H; subst ops.
    now rewrite Hg, app_nil_r.
  - replace (0 <? lengthInts mod sizeInts) with true
      by (symmetry; apply Z.ltb_lt; lia).
    cbn [andb].
    destruct (payload isReadOp data (lengthInts mod sizeInts) o) as [wv|];
      [|discriminate].
    intros H. inversion H; subst ops.
    unfold geometry. rewrite map_app. fold (geometry full). rewrite Hg.
    cbn [map ex_address ex_innerSize]. do 3 f_equal. lia.
Qed.

(** A read always gets its plan built. *)
Lemma executeOperations_read_total (startAddress lengthInts sizeInts : Z)
  (data : option Buffer.t) :
  exists ops,
    executeOperations startAddress lengthInts sizeInts true data = Some ops.
Proof.
  unfold executeOperations.
  destruct (fullBlocks_read_total data sizeInts
              (Z.to_nat (floorDiv lengthInts sizeInts)) startAddress 0)
    as [ops [a [o E]]].
  rewrite E, payload_read. destruct (_ && _); eauto.
Qed.

(** A write gets its plan built when the buffer holds the bytes that the
    payload reads touch: 32 per full block, 4 per word of the partial one. *)
Lemma executeOperations_write_total (startAddress lengthInts sizeInts : Z)
  (buf : Buffer.t) :
  0 < sizeInts -> 0 <= lengthInts ->
  32 * (lengthInts / sizeInts) + 4 * (lengthInts mod sizeInts)
    <= Z.of_nat (List.length buf) ->
  exists ops,
    executeOperations startAddress lengthInts sizeInts false (Some buf)
    = Some ops.
Proof.
  intros Hs Hl Hbuf. unfold executeOperations, floorDiv, jsRem.
  rewrite Z.rem_mod_nonneg by lia.
  assert (Hq : 0 <= lengthInts / sizeInts) by (apply Z.div_pos; lia).
  pose proof (Z.mod_pos_bound lengthInts sizeInts Hs) as Hm.
  destruct (fullBlocks_write_total buf sizeInts
              (Z.to_nat (lengthInts / sizeInts)) startAddress 0)
    as [ops [a [o E]]]; [lia | lia |].
  rewrite E. destruct (fullBlocks_geometry _ _ _ _ _ _ _ _ _ E) as [_ [_ Ho]].
  destruct (_ && _); [|eauto].
  destruct (payload_write_total buf (lengthInts mod sizeInts) o)
    as [vs [Hvs _]]; [lia | lia | lia |].
  rewrite Hvs. eauto.
Qed.





Lemma ceilDiv_spec (a b : Z) :
  0 < b -> (ceilDiv a b - 1) * b < a <= ceilDiv a b * b.
Proof.
  intros Hb. unfold ceilDiv.
  pose proof (Z.div_mod a b ltac:(lia)) as Hdm.
  pose proof (Z.mod_pos_bound a b Hb) as Hm.
  destruct (Z.eqb_spec (a mod b) 0); nia.
Qed.

Lemma frames_app (tr1 tr2 : list Event) :
  frames (tr1 ++ tr2) = frames tr1 ++ frames tr2.
Proof. apply flat_map_app. Qed.

Lemma updates_app (tr1 tr2 : list Event) :
  updates (tr1 ++ tr2) = updates tr1 ++ updates tr2.
Proof. apply flat_map_app. Qed.

(** ** Running a plan *)

Section FlashRun.

Context {Ext : Type}.
Variable drv : Driver Ext.
Variable dc : DriverConst.

Lemma frames_updateProgressScaled (value : Z) (w : World Ext) :
  frames (trace (updateProgressScaled value w)) = frames (trace w).
Proof.
  unfold updateProgressScaled. destruct (shouldUpdateProgressBar w);
    [|reflexivity].
  cbn. rewrite frames_app. cbn. apply app_nil_r.
Qed.

(** On such a device the reduction runs every execution of the plan, in
    order, one frame each. *)
Lemma reduceOperations_accepted (h : Handle)
  (ptrAddress flashAddress sizeInts : Z) (isReadOp : bool) (key : option Z) :
  accepts drv h ->
  forall ops lastMemoryResult numIntsWritten w,
  exists w' allMemoryRead,
    reduceOperations drv dc (Some h) ptrAddress flashAddress sizeInts
      isReadOp key ops lastMemoryResult numIntsWritten w
    = (w', Fulfilled (VMemory allMemoryRead))
    /\ frames (trace w')
       = frames (trace w)
         ++ map (frameOf dc ptrAddress flashAddress isReadOp key) ops.
Proof.
  intros Hacc. induction ops as [|op ops IH]; intros memo n w.
  - exists w, memo. split; [reflexivity|]. cbn. now rewrite app_nil_r.
  - cbn [reduceOperations runExecution].
    set (w1 := updateProgressScaled (n + sizeInts) w).
    destruct (Hacc (frameOf dc ptrAddress flashAddress isReadOp key op)
                   (ext w1)) as [e' [res Hres]].
    rewrite Hres. cbn [resolve].
    destruct (IH (memo ++ res) (n + sizeInts)
                (emit (withExt w1 e')
                   (EvRwMany h (frameOf dc ptrAddress flashAddress
                                  isReadOp key op))))
      as [w' [mem [Hrun Hfr]]].
    exists w', mem. split; [exact Hrun|].
    rewrite Hfr. cbn [emit withExt trace]. rewrite frames_app.
    subst w1. rewrite frames_updateProgressScaled.
    cbn. now rewrite <- app_assoc.
Qed.

(** The chunk plan where it is built.  For a block size [sizeInts > 0] and
    a length of [lengthInts >= 0] words, a flash operation that is a read,
    or a write whose buffer holds the bytes that are read from it (32 for
    each full block, whatever the block size), plans exactly ceil(lengthInts /
    sizeInts) chunks, the least number of blocks that hold the length;
    chunk [i] points at [startAddress + i * sizeInts *
    4]; the chunks before index [lengthInts / sizeInts] declare [sizeInts]
    words and the one after them, present only when [lengthInts mod
    sizeInts] is not zero, declares that remainder; the declared words add
    up to [lengthInts]; and on a device that carries out every frame the
    operation resolves with the bundle after sending exactly the frames of
    these chunks, in order. *)
Theorem createFlashOperation_chunking
  (b : DeviceFirmwareBundle) (h : Handle)
  (startAddress lengthInts sizeInts ptrAddress flashAddress : Z)
  (isReadOp : bool) (key : option Z) (data : option Buffer.t)
  (w : World Ext) :
  0 < sizeInts ->
  0 <= lengthInts ->
  device b = Some h ->
  accepts drv h ->
  (isReadOp = false ->
   exists buf, data = Some buf
     /\ 32 * (lengthInts / sizeInts) + 4 * (lengthInts mod sizeInts)
        <= Z.of_nat (List.length buf)) ->
  exists ops w',
    executeOperations startAddress lengthInts sizeInts isReadOp data
    = Some ops
    /\ Z.of_nat (List.length ops) = ceilDiv lengthInts sizeInts
    /\ (Z.of_nat (List.length ops) - 1) * sizeInts < lengthInts
       <= Z.of_nat (List.length ops) * sizeInts
    /\ (forall i, (i < List.length ops)%nat ->
          ex_address (nth i ops (mkExecution 0 0 None))
          = startAddress + Z.of_nat i * sizeInts * 4
          /\ ex_innerSize (nth i ops (mkExecution 0 0 None))
             = if Z.of_nat i <? lengthInts / sizeInts then sizeInts
               else lengthInts mod sizeInts)
    /\ (lengthInts mod sizeInts = 0 ->
          forall op, In op ops -> ex_innerSize op = sizeInts)
    /\ totalWords ops = lengthInts
    /\ createFlashOperation drv dc b startAddress lengthInts sizeInts
         ptrAddress flashAddress isReadOp key data w
       = (w', Fulfilled (VBundle b))
    /\ frames (trace w')
       = frames (trace w)
         ++ map (frameOf dc ptrAddress flashAddress isReadOp key) ops.
Proof.
  intros Hs Hl Hdev Hacc Hdata.
  assert (Hplan : exists ops,
             executeOperations startAddress lengthInts sizeInts isReadOp data
             = Some ops).
  { destruct isReadOp.
    - apply executeOperations_read_total.
    - destruct (Hdata eq_refl) as [buf [-> Hbuf]].
      now apply executeOperations_write_total. }
  destruct Hplan as [ops Hops].
  pose proof (executeOperations_layout _ _ _ _ _ _ Hs Hl Hops) as Hgeo.
  assert (Hlen : List.length ops
                 = List.length (layout startAddress lengthInts sizeInts)).
  { rewrite <- Hgeo. unfold geometry. now rewrite length_map. }
  destruct (reduceOperations_accepted h ptrAddress flashAddress sizeInts
              isReadOp key Hacc ops [] 0 w) as [w' [mem [Hrun Hfr]]].
  assert (Hcount : Z.of_nat (List.length ops) = ceilDiv lengthInts sizeInts)
    by (rewrite Hlen; now apply layout_length).
  exists ops, w'. repeat split.
  - exact Hops.
  - exact Hcount.
  - rewrite Hcount. now apply ceilDiv_spec.
  - rewrite Hcount. now apply ceilDiv_spec.
  - pose proof (layout_nth startAddress lengthInts sizeInts i (0, 0) Hs Hl
                  ltac:(lia)) as Hn.
    rewrite <- Hgeo in Hn. unfold geometry in Hn.
    change (0, 0) with ((fun op => (ex_address op, ex_innerSize op))
                          (mkExecution 0 0 None)) in Hn.
    rewrite map_nth in Hn. now inversion Hn.
  - pose proof (layout_nth startAddress lengthInts sizeInts i (0, 0) Hs Hl
                  ltac:(lia)) as Hn.
    rewrite <- Hgeo in Hn. unfold geometry in Hn.
    change (0, 0) with ((fun op => (ex_address op, ex_innerSize op))
                          (mkExecution 0 0 None)) in Hn.
    rewrite map_nth in Hn. now inversion Hn.
  - intros Hz op Hin.
    assert (Hin' : In (ex_address op, ex_innerSize op) (geometry ops))
      by (unfold geometry;
          apply (in_map (fun op => (ex_address op, ex_innerSize op)));
          exact Hin).
    rewrite Hgeo in Hin'. unfold layout in Hin'. rewrite Hz in Hin'.
    cbn [Z.eqb] in Hin'. rewrite app_nil_r in Hin'.
    unfold blocksFrom in Hin'. apply in_map_iff in Hin'.
    destruct Hin' as [k [Hk _]]. now inversion Hk.
  - rewrite totalWords_geometry, Hgeo. now apply layout_sum.
  - unfold createFlashOperation. rewrite Hops, Hdev, Hrun. reflexivity.
  - exact Hfr.
Qed.

End FlashRun.

(** ** Runs on the simulated device *)

Lemma sim_accepts (h : Handle) : accepts Sim.driver h.
Proof.
  intros f e. cbn. unfold Sim.rwMany.
  destruct (last (directions f) LJM_WRITE); eauto.
Qed.

(** A write of 20 words in blocks of 8 from a buffer of 20 words: three
    chunks, at 4096, 4128 and 4160, of 8, 8 and 4 words. *)
Lemma createFlashOperation_chunking_example :
  exists ops w',
    executeOperations 4096 20 8 false (Some (Buffer.ofWords (wordsFrom 100 20)))
    = Some ops
    /\ Z.of_nat (List.length ops) = ceilDiv 20 8
    /\ (Z.of_nat (List.length ops) - 1) * 8 < 20
       <= Z.of_nat (List.length ops) * 8
    /\ (forall i, (i < List.length ops)%nat ->
          ex_address (nth i ops (mkExecution 0 0 None))
          = 4096 + Z.of_nat i * 8 * 4
          /\ ex_innerSize (nth i ops (mkExecution 0 0 None))
             = if Z.of_nat i <? 20 / 8 then 8 else 20 mod 8)
    /\ (20 mod 8 = 0 -> forall op, In op ops -> ex_innerSize op = 8)
    /\ totalWords ops = 20
    /\ createFlashOperation Sim.driver Sim.consts (simBundle []) 4096 20 8
         61830 61832 false (Some 7) (Some (Buffer.ofWords (wordsFrom 100 20)))
         (initialWorld (Sim.healthy []))
       = (w', Fulfilled (VBundle (simBundle [])))
    /\ frames (trace w')
       = frames (trace (initialWorld (Sim.healthy [])))
         ++ map (frameOf Sim.consts 61830 61832 false (Some 7)) ops.
Proof.
  apply (createFlashOperation_chunking Sim.driver Sim.consts (simBundle [])
           1%nat 4096 20 8 61830 61832 false (Some 7)
           (Some (Buffer.ofWords (wordsFrom 100 20)))
           (initialWorld (Sim.healthy []))).
  - lia.
  - lia.
  - reflexivity.
  - apply sim_accepts.
  - intros _. exists (Buffer.ofWords (wordsFrom 100 20)).
    split; [reflexivity | vm_compute; discriminate].
Defined.

(** C1, on the code.  A write of 20 words in blocks of 6, for which the
    claim has ceil(20 / 6) = 4 chunks that transfer 20 words.  When the
    buffer holds just the 20 words, the payload of the third full block is
    read past its end (8 words are read for every full block, whatever the
    block size): the operation throws, and no chunk is issued.  When the
    buffer holds 26 words, four chunks are issued and their pointers are
    4096, 4120, 4144 and 4168, as claimed, but the full blocks declare 6
    words and carry 8: 26 words are handed to the device, not 20.  The
    read of the same 20 words in blocks of 6 does what the claim says:
    four chunks, the same pointers, 6, 6, 6 and 2 words asked for. *)
Theorem createFlashOperation_chunks_block_of_six :
  let start := initialWorld (Sim.healthy []) in
  let written :=
    frames (trace (fst (writeFlash Sim.driver Sim.consts (simBundle [])
                          4096 20 6 7 (Buffer.ofWords (wordsFrom 100 26))
                          start))) in
  let read :=
    frames (trace (fst (readFlash Sim.driver Sim.consts (simBundle [])
                          4096 20 6 start))) in
  ceilDiv 20 6 = 4
  /\ writeFlash Sim.driver Sim.consts (simBundle []) 4096 20 6 7
       (Buffer.ofWords (wordsFrom 100 20)) start
     = (start, Thrown rangeError)
  /\ written
     = [ mkFrame [61800; 61830; 61832] [LJM_WRITE; LJM_WRITE; LJM_WRITE]
                 [1; 1; 6]
                 (Some 7 :: Some 4096 :: map Some (wordsFrom 100 8));
         mkFrame [61800; 61830; 61832] [LJM_WRITE; LJM_WRITE; LJM_WRITE]
                 [1; 1; 6]
                 (Some 7 :: Some 4120 :: map Some (wordsFrom 108 8));
         mkFrame [61800; 61830; 61832] [LJM_WRITE; LJM_WRITE; LJM_WRITE]
                 [1; 1; 6]
                 (Some 7 :: Some 4144 :: map Some (wordsFrom 116 8));
         mkFrame [61800; 61830; 61832] [LJM_WRITE; LJM_WRITE; LJM_WRITE]
                 [1; 1; 2]
                 (Some 7 :: Some 4168 :: map Some (wordsFrom 124 2)) ]
  /\ map declaredWords written = [6; 6; 6; 2]
  /\ map carriedWords written = [8; 8; 8; 2]
  /\ sumZ (map carriedWords written) = 26
  /\ read
     = [ mkFrame [61810; 61812] [LJM_WRITE; LJM_READ] [1; 6]
                 (Some 4096 :: repeat None 6);
         mkFrame [61810; 61812] [LJM_WRITE; LJM_READ] [1; 6]
                 (Some 4120 :: repeat None 6);
         mkFrame [61810; 61812] [LJM_WRITE; LJM_READ] [1; 6]
                 (Some 4144 :: repeat None 6);
         mkFrame [61810; 61812] [LJM_WRITE; LJM_READ] [1; 2]
                 (Some 4168 :: repeat None 2) ]
  /\ map declaredWords read = [6; 6; 6; 2]
  /\ map carriedWords read = [6; 6; 6; 2]
  /\ sumZ (map declaredWords read) = 20.
Proof. cbv zeta. repeat split; vm_compute; reflexivity. Qed.

(** C2, on the code.  A write of 8 words in blocks of 4: each of the two
    chunks declares 4 words but is handed 8 words of payload, taken from
    byte offsets 0 and 32 -- words 0..7 and 8..15 of the buffer, not words
    0..3 and 4..7; and when the buffer holds just the 8 words to write, the
    second payload read runs past its end and the operation throws before
    any frame is sent. *)
Theorem writeFlash_payload_block_of_eight :
  executeOperations 4096 8 4 false (Some (Buffer.ofWords (wordsFrom 100 16)))
  = Some [ mkExecution 4096 4 (Some (wordsFrom 100 8));
           mkExecution 4112 4 (Some (wordsFrom 108 8)) ]
  /\ frames (trace (fst (writeFlash Sim.driver Sim.consts (simBundle [])
                           4096 8 4 7 (Buffer.ofWords (wordsFrom 100 16))
                           (initialWorld (Sim.healthy [])))))
     = [ mkFrame [61800; 61830; 61832] [LJM_WRITE; LJM_WRITE; LJM_WRITE]
                 [1; 1; 4]
                 (Some 7 :: Some 4096 :: map Some (wordsFrom 100 8));
         mkFrame [61800; 61830; 61832] [LJM_WRITE; LJM_WRITE; LJM_WRITE]
                 [1; 1; 4]
                 (Some 7 :: Some 4112 :: map Some (wordsFrom 108 8)) ]
  /\ writeFlash Sim.driver Sim.consts (simBundle []) 4096 8 4 7
       (Buffer.ofWords (wordsFrom 100 8)) (initialWorld (Sim.healthy []))
     = (initialWorld (Sim.healthy []), Thrown rangeError).
Proof. repeat split; vm_compute; reflexivity. Qed.

(** ** Compatibility *)

Lemma headerCodeCorrect_iff (dc : DriverConst) (b : DeviceFirmwareBundle) :
  headerCodeCorrect dc b = true
  <-> headerCode (firmwareImageInformation b) = T7_HEAD_FIRST_FOUR_BYTES dc.
Proof. apply Z.eqb_eq. Qed.

Lemma intendedDeviceCorrect_iff (dc : DriverConst) (b : DeviceFirmwareBundle) :
  intendedDeviceCorrect dc b = true
  <-> In (intendedDevice (firmwareImageInformation b))
         (ALLOWED_IMAGE_INFO_DEVICE_TYPES dc).
Proof.
  unfold intendedDeviceCorrect. rewrite existsb_exists. split.
  - intros [x [Hin Heq]]. apply Z.eqb_eq in Heq. now subst.
  - intros Hin. eexists. split; [exact Hin | apply Z.eqb_refl].
Qed.

Lemma versionCorrect_iff (b : DeviceFirmwareBundle) :
  versionCorrect b = true
  <-> Double.eqb (containedVersion (firmwareImageInformation b)) (version b)
      = true.
Proof. reflexivity. Qed.

(** C5.  checkCompatibility resolves with the bundle exactly when the
    header code is the family constant, the intended device is one of the
    allowed types and the contained version equals the bundle's version
    (as numbers: [==] of the source, which a version that is not a number
    never satisfies); otherwise it rejects with one of three pairwise
    different errors, the one of the first predicate (in this order) that
    fails. *)
Theorem checkCompatibility_outcomes (dc : DriverConst)
  (b : DeviceFirmwareBundle) :
  let info := firmwareImageInformation b in
  let codeOk := headerCode info = T7_HEAD_FIRST_FOUR_BYTES dc in
  let deviceOk :=
    In (intendedDevice info) (ALLOWED_IMAGE_INFO_DEVICE_TYPES dc) in
  let versionOk := Double.eqb (containedVersion info) (version b) = true in
  (checkCompatibility dc b = Fulfilled (VBundle b)
   <-> codeOk /\ deviceOk /\ versionOk)
  /\ (checkCompatibility dc b = Rejected invalidHeaderCode <-> ~ codeOk)
  /\ (checkCompatibility dc b = Rejected incorrectDeviceType
      <-> codeOk /\ ~ deviceOk)
  /\ (checkCompatibility dc b = Rejected incorrectVersion
      <-> codeOk /\ deviceOk /\ ~ versionOk)
  /\ invalidHeaderCode <> incorrectDeviceType
  /\ invalidHeaderCode <> incorrectVersion
  /\ incorrectDeviceType <> incorrectVersion.
Proof.
  cbv zeta.
  rewrite <- headerCodeCorrect_iff, <- intendedDeviceCorrect_iff,
    <- versionCorrect_iff.
  unfold checkCompatibility, invalidHeaderCode, incorrectDeviceType,
    incorrectVersion.
  destruct (headerCodeCorrect dc b), (intendedDeviceCorrect dc b),
    (versionCorrect b); cbn;
    repeat split; try discriminate; try tauto; try congruence;
    intros; intuition (try discriminate; try congruence).
Qed.

(** ** The words read do not reach the caller *)

Lemma reduceOperations_ignores_words {Ext} (d1 d2 : Driver Ext)
  (dc : DriverConst) (dev : option Handle)
  (ptrAddress flashAddress sizeInts : Z) (isReadOp : bool) (key : option Z)
  (ops : list Execution) :
  sameButWords d1 d2 ->
  forall memo1 memo2 numIntsWritten (w : World Ext),
    fst (reduceOperations d1 dc dev ptrAddress flashAddress sizeInts isReadOp
           key ops memo1 numIntsWritten w)
    = fst (reduceOperations d2 dc dev ptrAddress flashAddress sizeInts
             isReadOp key ops memo2 numIntsWritten w)
    /\ sameSettlement
         (snd (reduceOperations d1 dc dev ptrAddress flashAddress sizeInts
                 isReadOp key ops memo1 numIntsWritten w))
         (snd (reduceOperations d2 dc dev ptrAddress flashAddress sizeInts
                 isReadOp key ops memo2 numIntsWritten w)).
Proof.
  intros Hsame. induction ops as [|op ops IH]; intros memo1 memo2 n w.
  - cbn. split; [reflexivity | exact I].
  - cbn [reduceOperations]. unfold runExecution.
    destruct dev as [h|]; [|cbn; split; reflexivity].
    set (w1 := updateProgressScaled (n + sizeInts) w).
    set (f := frameOf dc ptrAddress flashAddress isReadOp key op).
    destruct (Hsame h f (ext w1)) as [Hfst Hsnd].
    destruct (drv_rwMany d1 h f (ext w1)) as [e1 r1].
    destruct (drv_rwMany d2 h f (ext w1)) as [e2 r2].
    cbn [fst snd] in Hfst, Hsnd. subst e2.
    destruct r1 as [m1|res1], r2 as [m2|res2]; try contradiction.
    + subst m2. cbn. split; reflexivity.
    + cbn [resolve]. apply IH.
Qed.

Lemma createFlashOperation_ignores_words {Ext} (d1 d2 : Driver Ext)
  (dc : DriverConst) (b : DeviceFirmwareBundle)
  (startAddress lengthInts sizeInts ptrAddress flashAddress : Z)
  (isReadOp : bool) (key : option Z) (data : option Buffer.t)
  (w : World Ext) :
  sameButWords d1 d2 ->
  createFlashOperation d1 dc b startAddress lengthInts sizeInts ptrAddress
    flashAddress isReadOp key data w
  = createFlashOperation d2 dc b startAddress lengthInts sizeInts ptrAddress
      flashAddress isReadOp key data w.
Proof.
  intros Hsame. unfold createFlashOperation.
  destruct (executeOperations _ _ _ _ _) as [ops|]; [|reflexivity].
  destruct (reduceOperations_ignores_words d1 d2 dc (device b) ptrAddress
              flashAddress sizeInts isReadOp key ops Hsame [] [] 0 w)
    as [Hw Ho].
  destruct (reduceOperations d1 _ _ _ _ _ _ _ _ _ _ _) as [w1 o1].
  destruct (reduceOperations d2 _ _ _ _ _ _ _ _ _ _ _) as [w2 o2].
  cbn [fst snd] in Hw, Ho. subst w2.
  destruct o1, o2; cbn in Ho; try contradiction; subst; reflexivity.
Qed.

(** ** Reads, version check and re-enumeration on any driver *)

Section Stages.

Context {Ext : Type}.
Variable drv : Driver Ext.
Variable dc : DriverConst.

Lemma safelyReject_pending (err : Value) (deferred : Outcome) :
  safelyReject Pending err = Some deferred ->
  exists errorMsg, deferred = Rejected (VString errorMsg).
Proof.
  unfold safelyReject. destruct (toString err) as [m|]; [|discriminate].
  intros [= <-]. now exists m.
Qed.

Lemma settleWith_fulfilled (b : DeviceFirmwareBundle) (o : Outcome)
  (v : Value) :
  settleWith b o = Fulfilled v -> v = VBundle b.
Proof.
  destruct o as [v0|err| |e]; cbn; try discriminate.
  - now intros [= <-].
  - destruct (safelyReject Pending err) as [d|] eqn:E; [|discriminate].
    destruct (safelyReject_pending _ _ E) as [m ->]. discriminate.
Qed.

(** A flash operation never resolves with what it read or wrote. *)
Lemma createFlashOperation_fulfilled (b : DeviceFirmwareBundle)
  (startAddress lengthInts sizeInts ptrAddress flashAddress : Z)
  (isReadOp : bool) (key : option Z) (data : option Buffer.t)
  (w : World Ext) (v : Value) :
  snd (createFlashOperation drv dc b startAddress lengthInts sizeInts
         ptrAddress flashAddress isReadOp key data w) = Fulfilled v ->
  v = VBundle b.
Proof.
  unfold createFlashOperation.
  destruct (executeOperations _ _ _ _ _) as [ops|]; [|discriminate].
  destruct (reduceOperations _ _ _ _ _ _ _ _ _ _ _ _) as [w' [mem|err| |e]];
    cbn; try discriminate.
  - now intros [= <-].
  - destruct (safelyReject Pending err) as [d|] eqn:E; [|discriminate].
    destruct (safelyReject_pending _ _ E) as [m ->]. discriminate.
Qed.

(** On a device that carries out every frame, a read resolves with the
    bundle. *)
Lemma readFlash_accepted (b : DeviceFirmwareBundle) (h : Handle)
  (startAddress length size : Z) (w : World Ext) :
  device b = Some h -> accepts drv h ->
  exists w', readFlash drv dc b startAddress length size w
             = (w', Fulfilled (VBundle b)).
Proof.
  intros Hdev Hacc. unfold readFlash, createFlashOperation.
  destruct (executeOperations_read_total startAddress length size None)
    as [ops ->].
  destruct (reduceOperations_accepted drv dc h (T7_MA_EXF_pREAD dc)
              (T7_MA_EXF_READ dc) size true None Hacc ops [] 0 w)
    as [w' [mem [Hrun _]]].
  rewrite Hdev, Hrun. now exists w'.
Qed.

(** C10.  For a bundle with a device and a positive block size: whenever
    readImage or readImageInformation resolves, it resolves with the bundle
    it was given; what they do and return is the same on any driver that
    differs only in the words its reads return (the memory that the flash
    operation accumulated is dropped, so those words reach no caller); and
    they do resolve when the device carries out every frame. *)
Theorem readImage_resolves_with_bundle (b : DeviceFirmwareBundle)
  (h : Handle) (w : World Ext) :
  device b = Some h ->
  0 < T7_FLASH_BLOCK_WRITE_SIZE dc ->
  (forall v, snd (readImage drv dc b w) = Fulfilled v -> v = VBundle b)
  /\ (forall v, snd (readImageInformation drv dc b w) = Fulfilled v ->
                v = VBundle b)
  /\ (forall drv', sameButWords drv drv' ->
        readImage drv dc b w = readImage drv' dc b w
        /\ readImageInformation drv dc b w = readImageInformation drv' dc b w)
  /\ (accepts drv h ->
      snd (readImage drv dc b w) = Fulfilled (VBundle b)
      /\ snd (readImageInformation drv dc b w) = Fulfilled (VBundle b)).
Proof.
  intros Hdev _. unfold readImage, readImageInformation, readFlash.
  split; [|split; [|split]].
  - intros v. destruct (createFlashOperation _ _ _ _ _ _ _ _ _ _ _ _)
      as [w' o]. cbn. apply settleWith_fulfilled.
  - intros v. destruct (createFlashOperation _ _ _ _ _ _ _ _ _ _ _ _)
      as [w' o]. cbn. apply settleWith_fulfilled.
  - intros drv' Hsame. split;
      now rewrite (createFlashOperation_ignores_words drv drv' dc b _ _ _ _ _
                     _ _ _ w Hsame).
  - intros Hacc. split.
    + destruct (readFlash_accepted b h (T7_EFAdd_ExtFirmwareImage dc)
                  (T7_IMG_FLASH_PAGE_ERASE dc * T7_FLASH_PAGE_SIZE dc / 4)
                  (T7_FLASH_BLOCK_WRITE_SIZE dc) w Hdev Hacc) as [w' Hr].
      unfold readFlash in Hr. rewrite Hr. reflexivity.
    + destruct (readFlash_accepted b h (T7_EFAdd_ExtFirmwareImgInfo dc)
                  (T7_HDR_FLASH_PAGE_ERASE dc * T7_FLASH_PAGE_SIZE dc / 4)
                  (T7_FLASH_BLOCK_WRITE_SIZE dc) w Hdev Hacc) as [w' Hr].
      unfold readFlash in Hr. rewrite Hr. reflexivity.
Qed.

(** On a device that carries out every frame, checkErase resolves with
    the bundle, whatever the words read back are. *)
Lemma checkErase_accepted (b : DeviceFirmwareBundle) (h : Handle)
  (w : World Ext) :
  device b = Some h -> accepts drv h ->
  snd (checkErase drv dc b w) = Fulfilled (VBundle b).
Proof.
  intros Hdev Hacc. unfold checkErase, readImageInformation, readImage.
  destruct (readFlash_accepted b h (T7_EFAdd_ExtFirmwareImgInfo dc)
              (T7_HDR_FLASH_PAGE_ERASE dc * T7_FLASH_PAGE_SIZE dc / 4)
              (T7_FLASH_BLOCK_WRITE_SIZE dc) w Hdev Hacc) as [w1 ->].
  cbn [settleWith resolve isAllZeroed].
  destruct (readFlash_accepted b h (T7_EFAdd_ExtFirmwareImage dc)
              (T7_IMG_FLASH_PAGE_ERASE dc * T7_FLASH_PAGE_SIZE dc / 4)
              (T7_FLASH_BLOCK_WRITE_SIZE dc) w1 Hdev Hacc) as [w2 ->].
  reflexivity.
Qed.

(** With [shouldUpdateProgressBar] off, a flash operation hands nothing to
    the progress listener and leaves the flag off. *)
Lemma reduceOperations_silent (dev : option Handle)
  (ptrAddress flashAddress sizeInts : Z) (isReadOp : bool) (key : option Z)
  (ops : list Execution) :
  forall lastMemoryResult numIntsWritten w,
    shouldUpdateProgressBar w = false ->
    let w' := fst (reduceOperations drv dc dev ptrAddress flashAddress
                     sizeInts isReadOp key ops lastMemoryResult
                     numIntsWritten w) in
    updates (trace w') = updates (trace w)
    /\ shouldUpdateProgressBar w' = false.
Proof.
  induction ops as [|op ops IH]; intros memo n w Hflag; cbv zeta.
  - split; [reflexivity | exact Hflag].
  - cbn [reduceOperations]. unfold updateProgressScaled. rewrite Hflag.
    unfold runExecution.
    destruct dev as [h|]; [|split; [reflexivity|exact Hflag]].
    destruct (drv_rwMany drv h _ (ext w)) as [e [msg|res]].
    + cbn. rewrite updates_app. cbn. rewrite app_nil_r. now split.
    + cbn [resolve].
      specialize (IH (memo ++ res) (n + sizeInts)
                    (emit (withExt w e)
                       (EvRwMany h (frameOf dc ptrAddress flashAddress
                                      isReadOp key op))) Hflag).
      cbv zeta in IH. destruct IH as [IHu IHf]. split; [|exact IHf].
      rewrite IHu. cbn. rewrite updates_app. cbn. apply app_nil_r.
Qed.

Lemma createFlashOperation_silent (b : DeviceFirmwareBundle)
  (startAddress lengthInts sizeInts ptrAddress flashAddress : Z)
  (isReadOp : bool) (key : option Z) (data : option Buffer.t)
  (w : World Ext) :
  shouldUpdateProgressBar w = false ->
  updates (trace (fst (createFlashOperation drv dc b startAddress lengthInts
                         sizeInts ptrAddress flashAddress isReadOp key data
                         w)))
  = updates (trace w).
Proof.
  intros Hflag. unfold createFlashOperation.
  destruct (executeOperations _ _ _ _ _) as [ops|]; [|reflexivity].
  pose proof (reduceOperations_silent (device b) ptrAddress flashAddress
                sizeInts isReadOp key ops [] 0 w Hflag) as Hs.
  cbv zeta in Hs. destruct Hs as [Hu _].
  destruct (reduceOperations _ _ _ _ _ _ _ _ _ _ _ _) as [w' [v|err| |e]];
    exact Hu.
Qed.

(** writeImageInformation does not turn the flag on: started with the flag
    off, as writeImage leaves it, it reports no progress at all. *)
Lemma writeImageInformation_silent (minPercent maxPercent : Q)
  (b : DeviceFirmwareBundle) (w : World Ext) :
  shouldUpdateProgressBar w = false ->
  updates (trace (fst (writeImageInformation drv dc minPercent maxPercent b
                         w)))
  = updates (trace w).
Proof.
  intros Hflag. unfold writeImageInformation, writeFlash, afterWrite.
  match goal with
  | |- context [createFlashOperation drv dc b ?a ?l ?s ?p ?f ?r ?k ?d ?w0] =>
      pose proof (createFlashOperation_silent b a l s p f r k d w0 Hflag)
        as Hs;
      destruct (createFlashOperation drv dc b a l s p f r k d w0)
        as [w' [v|err| |e]]
  end; exact Hs.
Qed.

(** Once the promise of writeImage is settled, the flag is off. *)
Lemma writeImage_clears_flag (minPercent maxPercent : Q)
  (b : DeviceFirmwareBundle) (w : World Ext) :
  match snd (writeImage drv dc minPercent maxPercent b w) with
  | Fulfilled _ | Rejected _ =>
      shouldUpdateProgressBar
        (fst (writeImage drv dc minPercent maxPercent b w)) = false
  | _ => True
  end.
Proof.
  unfold writeImage, afterWrite.
  destruct (writeFlash _ _ _ _ _ _ _ _ _) as [w' [v|err| |e]]; cbn;
    try exact I; try reflexivity.
  destruct (safelyReject Pending err) as [d|] eqn:E; [|exact I].
  destruct (safelyReject_pending _ _ E) as [m ->]. reflexivity.
Qed.

(** A number minus itself is zero or not a number, and its absolute value
    is not greater than any positive number. *)
Lemma exceedsTolerance_same (x : Double.t) :
  exceedsTolerance x x = false.
Proof.
  unfold exceedsTolerance, Double.sub, Double.abs, Double.ltb.
  destruct x as [[|]|[|]| |s m e]; try reflexivity.
  unfold SFsub. rewrite Z.sub_diag. reflexivity.
Qed.

Lemma exceedsTolerance_NaN (x y : Double.t) :
  x = Double.NaN \/ y = Double.NaN -> exceedsTolerance x y = false.
Proof.
  intros [-> | ->]; [reflexivity|].
  destruct x as [[|]|[|]| |s m e]; reflexivity.
Qed.

(** C6, as the code has it.  With a device in the bundle, checkNewFirmware
    resolves with the bundle exactly when the version read succeeds and the
    test [Math.abs(dif) > 0.0001], made in double arithmetic on the
    difference of the bundle's version and the reported one, fails: the
    bound is included, and so is a difference that is not a number.  It
    rejects with the version-mismatch error exactly when the read succeeds
    and the test holds, and a failed read rejects with the message of that
    failure.  In particular a device that reports the bundle's version
    itself passes, and so does every reading when one of the two versions
    is not a number. *)
Theorem checkNewFirmware_outcomes (b : DeviceFirmwareBundle) (h : Handle)
  (w : World Ext) :
  device b = Some h ->
  let answer := snd (drv_readFirmwareVersion drv h (ext w)) in
  let outcome := snd (checkNewFirmware drv b w) in
  (outcome = Fulfilled (VBundle b)
   <-> exists reported,
         answer = inr reported
         /\ exceedsTolerance (version b) reported = false)
  /\ (outcome = Rejected versionMismatch
      <-> exists reported,
            answer = inr reported
            /\ exceedsTolerance (version b) reported = true)
  /\ (forall errorMsg,
        answer = inl errorMsg -> outcome = Rejected (VString errorMsg))
  /\ (answer = inr (version b) -> outcome = Fulfilled (VBundle b))
  /\ (forall reported,
        answer = inr reported ->
        version b = Double.NaN \/ reported = Double.NaN ->
        outcome = Fulfilled (VBundle b)).
Proof.
  intros Hdev. cbv zeta.
  assert (Hcases :
            forall reported,
              snd (drv_readFirmwareVersion drv h (ext w)) = inr reported ->
              snd (checkNewFirmware drv b w)
              = if exceedsTolerance (version b) reported
                then Rejected versionMismatch
                else Fulfilled (VBundle b)).
  { intros reported Hr. unfold checkNewFirmware. rewrite Hdev.
    destruct (drv_readFirmwareVersion drv h (ext w)) as [e r].
    cbn [snd] in Hr. subst r.
    change (Double.ltb (Double.ofQ (1 # 10000))
              (Double.abs (Double.sub (version b) reported)))
      with (exceedsTolerance (version b) reported).
    destruct (exceedsTolerance (version b) reported); reflexivity. }
  assert (Hfail :
            forall errorMsg,
              snd (drv_readFirmwareVersion drv h (ext w)) = inl errorMsg ->
              snd (checkNewFirmware drv b w) = Rejected (VString errorMsg)).
  { intros errorMsg Hr. unfold checkNewFirmware. rewrite Hdev.
    destruct (drv_readFirmwareVersion drv h (ext w)) as [e r].
    cbn [snd] in Hr. subst r. reflexivity. }
  destruct (snd (drv_readFirmwareVersion drv h (ext w)))
    as [msg|reported] eqn:Hanswer.
  - rewrite (Hfail msg eq_refl). repeat split; try discriminate.
    + intros [r [Hr _]]. discriminate.
    + intros [r [Hr _]]. discriminate.
    + now intros m [= <-].
  - rewrite (Hcases reported eq_refl). unfold versionMismatch.
    split; [|split; [|split; [|split]]].
    + split.
      * intros Ho. exists reported. split; [reflexivity|].
        destruct (exceedsTolerance (version b) reported);
          [discriminate | reflexivity].
      * intros [r [[= <-] ->]]. reflexivity.
    + split.
      * intros Ho. exists reported. split; [reflexivity|].
        destruct (exceedsTolerance (version b) reported);
          [reflexivity | discriminate].
      * intros [r [[= <-] ->]]. reflexivity.
    + discriminate.
    + intros [= <-]. now rewrite exceedsTolerance_same.
    + intros r [= <-] Hnan. now rewrite exceedsTolerance_NaN.
Qed.

(** *** Re-enumeration *)

Lemma checkForDevice_not_rejected (b : DeviceFirmwareBundle) (s : Z)
  (polls : nat) :
  forall w,
    match snd (checkForDevice drv polls b s w) with
    | Fulfilled v =>
        exists h, v = VBundle (setDevice b h)
                  /\ In (EvOpen (connectionType b) s)
                        (trace (fst (checkForDevice drv polls b s w)))
    | Rejected _ | Thrown _ => False
    | Pending => True
    end.
Proof.
  induction polls as [|polls IH]; intros w; [exact I|].
  cbn [checkForDevice].
  destruct (drv_listAll drv (connectionType b) (ext w)) as [e1 [m|l]];
    [exact I|].
  destruct (existsb (Z.eqb s) l); [|apply IH].
  cbn [emit withExt ext].
  destruct (drv_open drv (connectionType b) s e1) as [e2 [m|h]];
    [apply IH|].
  cbn. exists h. split; [reflexivity|].
  apply in_or_app. right. now left.
Qed.

Lemma checkForDevice_reappears (b : DeviceFirmwareBundle) (s : Z)
  (h : Handle) (k : nat) :
  forall w polls,
    reappearsAfter drv k (connectionType b) s (ext w) h ->
    (k < polls)%nat ->
    snd (checkForDevice drv polls b s w)
    = Fulfilled (VBundle (setDevice b h)).
Proof.
  induction k as [|k IH]; intros w polls Hre Hk;
    (destruct polls as [|polls]; [lia|]); cbn [checkForDevice].
  - destruct Hre as [e1 [l [e2 [Hl [Hin Hop]]]]].
    rewrite Hl, Hin. cbn [emit withExt ext]. rewrite Hop. reflexivity.
- destruct Hre as [e1 [l [Hl [[Hin Hre]|[Hin [e2 [m [Hop Hre]]]]]]]].
  + rewrite Hl, Hin. apply IH; [exact Hre | lia].
  + rewrite Hl, Hin. cbn [emit withExt ext]. rewrite Hop.
    apply IH; [exact Hre | lia].
Qed.

Lemma checkForDevice_polls_on (b : DeviceFirmwareBundle) (s : Z) :
  forall polls w,
    neverListed drv (connectionType b) s (ext w) ->
    snd (checkForDevice drv polls b s w) = Pending.
Proof.
  intros polls w [Inv [H0 Hstep]]. revert w H0.
  induction polls as [|polls IH]; intros w H0; [reflexivity|].
  cbn [checkForDevice].
  destruct (Hstep (ext w) H0) as [e1 [l [Hl [Hin H1]]]].
  rewrite Hl, Hin. apply IH. exact H1.
Qed.

(** C9, as the code has it.  With a captured serial, waitForEnumeration
    never rejects and never throws, so there is no enumeration-timeout
    error; when it resolves, it resolves with the bundle updated to a
    device opened under the captured serial; it does resolve, with the
    device that the open yields, once enough polls are run for a listing
    to contain the serial and the open to succeed; and as long as the
    listings do not contain the serial it is still pending, however many
    polls have been run. *)
Theorem waitForEnumeration_outcomes (b : DeviceFirmwareBundle) (s : Z)
  (w : World Ext) :
  serial b = Some s ->
  (forall polls,
      match snd (waitForEnumeration drv polls b w) with
      | Fulfilled v =>
          exists h, v = VBundle (setDevice b h)
                    /\ In (EvOpen (connectionType b) s)
                          (trace (fst (waitForEnumeration drv polls b w)))
      | Rejected _ | Thrown _ => False
      | Pending => True
      end)
  /\ (forall k h polls,
        reappearsAfter drv k (connectionType b) s (ext w) h ->
        (k < polls)%nat ->
        snd (waitForEnumeration drv polls b w)
        = Fulfilled (VBundle (setDevice b h)))
  /\ (neverListed drv (connectionType b) s (ext w) ->
      forall polls, snd (waitForEnumeration drv polls b w) = Pending).
Proof.
  intros Hs. unfold waitForEnumeration. rewrite Hs. repeat split.
  - intros polls. apply checkForDevice_not_rejected.
  - intros k h polls Hre Hk. now apply (checkForDevice_reappears b s h k).
  - intros Hnever polls. apply checkForDevice_polls_on. exact Hnever.
Qed.

End Stages.

(** ** Progress over the pipeline, on any driver *)

Section Pipeline.

Context {Ext : Type}.
Variable drv : Driver Ext.
Variable dc : DriverConst.

Lemma updates_emit (w : World Ext) (ev : Event) :
  updates (trace (emit w ev)) = updates (trace w) ++ updates [ev].
Proof. cbn [emit trace]. apply updates_app. Qed.

Lemma erasePages_updates (h : Handle) (startAddress key : Z) (pages : list Z) :
  forall w,
    updates (trace (fst (erasePages drv dc h startAddress key pages w)))
    = updates (trace w).
Proof.
  induction pages as [|page pages IH]; intros w; [reflexivity|].
  cbn [erasePages].
  destruct (drv_writeMany drv h _ _ (ext w)) as [e [err|]].
  - cbn [fst]. rewrite updates_emit. cbn. apply app_nil_r.
  - rewrite IH, updates_emit. cbn. apply app_nil_r.
Qed.

Lemma eraseFlash_updates (b : DeviceFirmwareBundle)
  (startAddress numPages key : Z) (w : World Ext) :
  updates (trace (fst (eraseFlash drv dc b startAddress numPages key w)))
  = updates (trace w).
Proof.
  unfold eraseFlash. destruct (range numPages) as [|page pages];
    [reflexivity|].
  destruct (device b) as [h|]; [|reflexivity].
  pose proof (erasePages_updates h startAddress key (page :: pages) w) as H.
  destruct (erasePages _ _ _ _ _ _ _) as [w' [err|]]; exact H.
Qed.

Lemma settleWith_quiet (b : DeviceFirmwareBundle) (o : Outcome) (v : Value) :
  settleWith b o = Fulfilled v ->
  exists b', v = VBundle b'
             /\ firmwareImage b' = firmwareImage b
             /\ firmwareImageInformation b' = firmwareImageInformation b.
Proof.
  intros H. exists b. split; [|split; reflexivity].
  destruct o as [v0|err| |e]; cbn in H; try discriminate.
  - now inversion H.
  - destruct (safelyReject Pending err) as [d|] eqn:E; [|discriminate].
    unfold safelyReject in E. destruct (toString err); [|discriminate].
    inversion E; subst. discriminate.
Qed.

Lemma eraseImage_quiet : quiet (eraseImage drv dc).
Proof.
  intros b w. unfold eraseImage.
  pose proof (eraseFlash_updates b (T7_EFAdd_ExtFirmwareImage dc)
                (T7_IMG_FLASH_PAGE_ERASE dc) (T7_EFkey_ExtFirmwareImage dc) w)
    as H.
  destruct (eraseFlash _ _ _ _ _ _ _) as [w' o]. split; [exact H|].
  intros v. apply settleWith_quiet.
Qed.

Lemma eraseImageInformation_quiet : quiet (eraseImageInformation drv dc).
Proof.
  intros b w. unfold eraseImageInformation.
  pose proof (eraseFlash_updates b (T7_EFAdd_ExtFirmwareImgInfo dc)
                (T7_HDR_FLASH_PAGE_ERASE dc)
                (T7_EFkey_ExtFirmwareImgInfo dc) w) as H.
  destruct (eraseFlash _ _ _ _ _ _ _) as [w' o]. split; [exact H|].
  intros v. apply settleWith_quiet.
Qed.

Lemma checkCompatibility_quiet :
  quiet (fun b (w : World Ext) => (w, checkCompatibility dc b)).
Proof.
  intros b w. split; [reflexivity|]. cbn [snd]. intros v H.
  exists b. split; [|split; reflexivity].
  unfold checkCompatibility in H.
  destruct (_ && _); [now inversion H|].
  destruct (negb _); [discriminate|]. destruct (negb _); discriminate.
Qed.

Lemma restartAndUpgrade_quiet : quiet (restartAndUpgrade drv dc).
Proof.
  intros b w. unfold restartAndUpgrade. destruct (device b) as [h|].
  - destruct (drv_write drv h _ _ (ext w)) as [e [err|]]; cbn [fst snd].
    + rewrite updates_emit. cbn. rewrite app_nil_r. split; [reflexivity|].
      discriminate.
    + rewrite updates_emit. cbn. rewrite app_nil_r. split; [reflexivity|].
      intros v [= <-]. now exists b.
  - split; [reflexivity | discriminate].
Qed.

Lemma closeDevice_quiet : quiet (closeDevice drv).
Proof.
  intros b w. unfold closeDevice. destruct (device b) as [h|].
  - destruct (drv_close drv h (ext w)) as [e [err|]]; cbn [fst snd].
    + rewrite updates_emit. cbn. rewrite app_nil_r. split; [reflexivity|].
      discriminate.
    + rewrite updates_emit. cbn. rewrite app_nil_r. split; [reflexivity|].
      intros v [= <-]. now exists b.
  - split; [reflexivity | discriminate].
Qed.

Lemma pauseForClose_quiet : quiet (@pauseForClose Ext).
Proof.
  intros b w. unfold pauseForClose. cbn [fst snd].
  rewrite updates_emit. cbn. rewrite app_nil_r. split; [reflexivity|].
  intros v [= <-]. now exists b.
Qed.

Lemma checkForDevice_quiet (b : DeviceFirmwareBundle) (s : Z) (polls : nat) :
  forall w,
    updates (trace (fst (checkForDevice drv polls b s w)))
    = updates (trace w)
    /\ forall v, snd (checkForDevice drv polls b s w) = Fulfilled v ->
         exists h, v = VBundle (setDevice b h).
Proof.
  induction polls as [|polls IH]; intros w.
  - split; [reflexivity | discriminate].
  - cbn [checkForDevice].
    destruct (drv_listAll drv (connectionType b) (ext w)) as [e1 [m|l]].
    + cbn [fst snd]. rewrite updates_emit. cbn. rewrite app_nil_r.
      split; [reflexivity | discriminate].
    + destruct (existsb (Z.eqb s) l).
      * cbn [emit withExt ext].
        destruct (drv_open drv (connectionType b) s e1) as [e2 [m|h]].
        -- match goal with
           | |- context [checkForDevice drv polls b s ?w0] =>
               destruct (IH w0) as [Hu Hv]
           end.
           split; [|exact Hv]. rewrite Hu. cbn. rewrite !updates_app. cbn.
           now rewrite !app_nil_r.
        -- cbn [fst snd resolve]. split.
           ++ cbn. rewrite !updates_app. cbn. now rewrite !app_nil_r.
           ++ intros v [= <-]. now exists h.
      * match goal with
        | |- context [checkForDevice drv polls b s ?w0] =>
            destruct (IH w0) as [Hu Hv]
        end.
        split; [|exact Hv]. rewrite Hu. cbn. rewrite !updates_app. cbn.
        now rewrite !app_nil_r.
Qed.

Lemma waitForEnumeration_quiet (polls : nat) :
  quiet (waitForEnumeration drv polls).
Proof.
  intros b w. unfold waitForEnumeration. destruct (serial b) as [s|].
  - destruct (checkForDevice_quiet b s polls
                (emit w (EvSetTimeout EXPECTED_REBOOT_WAIT))) as [Hu Hv].
    split.
    + rewrite Hu, updates_emit. cbn. apply app_nil_r.
    + intros v H. destruct (Hv v H) as [h ->].
      exists (setDevice b h). repeat split.
  - split; [reflexivity | discriminate].
Qed.

Lemma checkNewFirmware_quiet : quiet (checkNewFirmware drv).
Proof.
  intros b w. unfold checkNewFirmware. destruct (device b) as [h|].
  - destruct (drv_readFirmwareVersion drv h (ext w)) as [e [m|reported]];
      cbn [fst snd].
    + rewrite updates_emit. cbn. rewrite app_nil_r. split; [reflexivity|].
      discriminate.
    + destruct (Double.ltb _ _); cbn [fst snd]; rewrite updates_emit; cbn;
        rewrite app_nil_r; (split; [reflexivity|]); [discriminate|].
      intros v [= <-]. now exists b.
  - split; [reflexivity | discriminate].
Qed.

Lemma reduceOperations_reports (dev : option Handle)
  (ptrAddress flashAddress sizeInts : Z) (isReadOp : bool) (key : option Z)
  (ops : list Execution) :
  forall lastMemoryResult numIntsWritten w v,
    shouldUpdateProgressBar w = true ->
    snd (reduceOperations drv dc dev ptrAddress flashAddress sizeInts
           isReadOp key ops lastMemoryResult numIntsWritten w)
    = Fulfilled v ->
    let w' := fst (reduceOperations drv dc dev ptrAddress flashAddress
                     sizeInts isReadOp key ops lastMemoryResult
                     numIntsWritten w) in
    updates (trace w')
    = updates (trace w)
      ++ map (fun k =>
                (curScaling w
                 * inject_Z (numIntsWritten + sizeInts * Z.of_nat k)
                 + curOffset w)%Q)
           (seq 1 (List.length ops))
    /\ shouldUpdateProgressBar w' = true.
Proof.
  induction ops as [|op ops IH]; intros memo n w v Hflag H; cbv zeta.
  - cbn. rewrite app_nil_r. now split.
  - cbn [reduceOperations] in H |- *. unfold updateProgressScaled in H |- *.
    rewrite Hflag in H |- *. unfold runExecution in H |- *.
    destruct dev as [h|]; [|discriminate].
    destruct (drv_rwMany drv h _ _) as [e [msg|res]]; [discriminate|].
    cbn [resolve] in H |- *.
    match type of H with
    | snd (reduceOperations _ _ _ _ _ _ _ _ _ ?m ?k ?w0) = _ =>
        destruct (IH m k w0 v Hflag H) as [Hu Hf]
    end.
    split; [|exact Hf]. rewrite Hu.
    cbn [emit withExt trace curScaling curOffset].
    rewrite !updates_app. cbn [updates flat_map app].
    rewrite app_nil_r, <- app_assoc. f_equal.
    cbn [List.length seq map app]. f_equal.
    + do 3 f_equal. lia.
    + rewrite <- (seq_shift (List.length ops) 1), map_map.
      apply map_ext. intros k. do 3 f_equal. lia.
Qed.

(** What a writeImage that resolves has handed to the listener: one value
    per chunk, the scaled count of words after [k] blocks. *)
Lemma writeImage_reports (minPercent maxPercent : Q)
  (b : DeviceFirmwareBundle) (w : World Ext) (v : Value) :
  0 < T7_FLASH_BLOCK_WRITE_SIZE dc ->
  snd (writeImage drv dc minPercent maxPercent b w) = Fulfilled v ->
  let numberOfIntegers := Z.of_nat (List.length (firmwareImage b)) / 4 in
  let w' := fst (writeImage drv dc minPercent maxPercent b w) in
  v = VBundle b
  /\ shouldUpdateProgressBar w' = false
  /\ updates (trace w')
     = updates (trace w)
       ++ map (fun k =>
                 ((maxPercent - minPercent) / inject_Z numberOfIntegers
                  * inject_Z (0 + T7_FLASH_BLOCK_WRITE_SIZE dc * Z.of_nat k)
                  + minPercent)%Q)
            (seq 1 (Z.to_nat (ceilDiv numberOfIntegers
                                (T7_FLASH_BLOCK_WRITE_SIZE dc)))).
Proof.
  intros HB H. cbv zeta.
  set (N := Z.of_nat (List.length (firmwareImage b)) / 4) in *.
  assert (HN : 0 <= N) by (apply Z.div_pos; lia).
  unfold writeImage, writeFlash, createFlashOperation, afterWrite in *.
  fold N in H |- *.
  destruct (executeOperations (T7_EFAdd_ExtFirmwareImage dc) N
              (T7_FLASH_BLOCK_WRITE_SIZE dc) false (Some (firmwareImage b)))
    as [ops|] eqn:Eops; [|discriminate].
  assert (Hlen : List.length ops
                 = Z.to_nat (ceilDiv N (T7_FLASH_BLOCK_WRITE_SIZE dc))).
  { pose proof (executeOperations_layout _ _ _ _ _ _ HB HN Eops) as Hg.
    pose proof (layout_length (T7_EFAdd_ExtFirmwareImage dc) N
                  (T7_FLASH_BLOCK_WRITE_SIZE dc) HB HN) as Hl.
    rewrite <- Hg in Hl. unfold geometry in Hl. rewrite length_map in Hl.
    unfold ceilDiv. lia. }
  match type of H with
  | context [reduceOperations drv dc ?d ?p ?f ?s ?r ?k ops ?m ?n ?w0] =>
      pose proof (reduceOperations_reports d p f s r k ops m n w0) as Hrep;
      destruct (reduceOperations drv dc d p f s r k ops m n w0)
        as [w1 [mem|err| |e]] eqn:Er
  end; cbn [fst snd resolve settleWith] in H |- *; try discriminate.
  - specialize (Hrep mem eq_refl eq_refl). cbv zeta in Hrep.
    cbn [fst] in Hrep. destruct Hrep as [Hu _].
    split; [now inversion H|]. split; [reflexivity|].
    cbn [setShouldUpdateProgressBar trace]. rewrite Hu, Hlen. reflexivity.
  - destruct (safelyReject Pending err) as [d|] eqn:E; cbn in H;
      [|discriminate].
    unfold safelyReject in E. destruct (toString err); [|discriminate].
    inversion E; subst. discriminate.
Qed.

(** *** Steps of the chain *)

Lemma reportError_rethrows (onFulfilled : @Handler Ext) (message : string) :
  rethrows (onFulfilled, reportError message).
Proof.
  intros reason w d Hd. cbn [snd]. unfold reportError.
  destruct (String.eqb message "finishingUpdate"); [now split|].
  unfold safelyReject. destruct (toString reason); cbn; [|now split].
  split; [|exact I]. destruct d; cbn; try exact I. contradiction.
Qed.

Lemma forceClose_rethrows (onFulfilled : @Handler Ext) :
  rethrows (onFulfilled, asHandler forceClose).
Proof. intros reason w d Hd. cbn. now split. Qed.

(** Once a step has failed, nothing resolves the outer deferred. *)
Lemma failed_chain_not_fulfilled (rest : list (@Handler Ext * @Handler Ext)) :
  Forall rethrows rest ->
  forall c,
    notFulfilled (ch_promise c) -> notFulfilled (ch_deferred c) ->
    notFulfilled (ch_deferred (fold_left then_ rest c)).
Proof.
  induction 1 as [|hs rest Hhs _ IH]; intros c Hp Hd; [exact Hd|].
  cbn [fold_left]. apply IH.
  - unfold then_. destruct hs as [f g].
    destruct (ch_promise c) as [v|reason| |e] eqn:E; try contradiction.
    + destruct (Hhs reason (ch_world c) (ch_deferred c) Hd) as [_ H2].
      cbn [snd] in H2. destruct (g reason _ _) as [[w' d'] o]. exact H2.
    + now rewrite E.
    + now rewrite E.
  - unfold then_. destruct hs as [f g].
    destruct (ch_promise c) as [v|reason| |e] eqn:E; try contradiction.
    + destruct (Hhs reason (ch_world c) (ch_deferred c) Hd) as [H1 _].
      cbn [snd] in H1. destruct (g reason _ _) as [[w' d'] o]. exact H1.
    + exact Hd.
    + exact Hd.
Qed.

(** A stage in a chain that ends fulfilled has itself resolved. *)
Lemma fulfilled_chain_stage
  (f : DeviceFirmwareBundle -> World Ext -> World Ext * Outcome)
  (g : @Handler Ext) (rest : list (@Handler Ext * @Handler Ext))
  (w : World Ext) (b : DeviceFirmwareBundle) (final : Value) :
  Forall rethrows rest ->
  ch_deferred (fold_left then_ ((stage f, g) :: rest)
                 (mkChain w Pending (Fulfilled (VBundle b))))
  = Fulfilled final ->
  exists v,
    snd (f b w) = Fulfilled v
    /\ fold_left then_ ((stage f, g) :: rest)
         (mkChain w Pending (Fulfilled (VBundle b)))
       = fold_left then_ rest (mkChain (fst (f b w)) Pending (Fulfilled v)).
Proof.
  intros Hrest H. cbn [fold_left then_ ch_promise ch_world ch_deferred stage]
    in *.
  destruct (f b w) as [w' o]. cbn [fst snd asPromise] in *.
  destruct o as [v|reason| |e].
  - exists v. split; reflexivity.
  - exfalso.
    pose proof (failed_chain_not_fulfilled rest Hrest
                  (mkChain w' Pending (Rejected reason)) I I) as Hn.
    cbn [asPromise] in H. rewrite H in Hn. exact Hn.
  - exfalso.
    pose proof (failed_chain_not_fulfilled rest Hrest
                  (mkChain w' Pending Pending) I I) as Hn.
    cbn [asPromise] in H. rewrite H in Hn. exact Hn.
  - exfalso.
    pose proof (failed_chain_not_fulfilled rest Hrest
                  (mkChain w' Pending (Rejected e)) I I) as Hn.
    cbn [asPromise] in H. rewrite H in Hn. exact Hn.
Qed.

Lemma fulfilled_chain_quiet
  (f : DeviceFirmwareBundle -> World Ext -> World Ext * Outcome)
  (g : @Handler Ext) (rest : list (@Handler Ext * @Handler Ext))
  (w : World Ext) (b : DeviceFirmwareBundle) (final : Value) :
  quiet f ->
  Forall rethrows rest ->
  ch_deferred (fold_left then_ ((stage f, g) :: rest)
                 (mkChain w Pending (Fulfilled (VBundle b))))
  = Fulfilled final ->
  exists w' b',
    fold_left then_ ((stage f, g) :: rest)
      (mkChain w Pending (Fulfilled (VBundle b)))
    = fold_left then_ rest (mkChain w' Pending (Fulfilled (VBundle b')))
    /\ updates (trace w') = updates (trace w)
    /\ firmwareImage b' = firmwareImage b
    /\ firmwareImageInformation b' = firmwareImageInformation b.
Proof.
  intros Hq Hrest H.
  destruct (fulfilled_chain_stage f g rest w b final Hrest H) as [v [Hv Heq]].
  destruct (Hq b w) as [Hu Hval]. destruct (Hval v Hv) as [b' [-> [Hi Hinfo]]].
  exists (fst (f b w)), b'. repeat split; assumption.
Qed.

Lemma writeImageInformation_fulfilled (minPercent maxPercent : Q)
  (b : DeviceFirmwareBundle) (w : World Ext) (v : Value) :
  snd (writeImageInformation drv dc minPercent maxPercent b w) = Fulfilled v ->
  v = VBundle b.
Proof.
  unfold writeImageInformation, afterWrite.
  destruct (writeFlash _ _ _ _ _ _ _ _ _) as [w' [v0|err| |e]]; cbn [snd];
    try discriminate; apply settleWith_fulfilled.
Qed.

Lemma injectDevice_quiet (dev : Handle) (connection : option Z) :
  quiet (fun b (w : World Ext) =>
           let '(e, r) := drv_readSerialSync drv dev (ext w) in
           match r with
           | inr serialNumber =>
               let b := setConnectionType (setSerialNumber b serialNumber)
                          connection in
               (withExt w e, resolve Pending (VBundle (setDevice b dev)))
           | inl errorMsg => (withExt w e, reject Pending (VString errorMsg))
           end).
Proof.
  intros b w. destruct (drv_readSerialSync drv dev (ext w)) as [e [m|s]];
    cbn; (split; [reflexivity|]); [discriminate|].
  intros v [= <-]. eexists. repeat split.
Qed.

Lemma chain_updateProgress (value : Q) (g : @Handler Ext)
  (rest : list (@Handler Ext * @Handler Ext)) (w : World Ext) (v : Value) :
  fold_left then_ ((updateProgress value, g) :: rest)
    (mkChain w Pending (Fulfilled v))
  = fold_left then_ rest
      (mkChain (emit w (EvUpdate value)) Pending (Fulfilled v)).
Proof. reflexivity. Qed.

Lemma chain_updateStatusText (value : string) (g : @Handler Ext)
  (rest : list (@Handler Ext * @Handler Ext)) (w : World Ext) (v : Value) :
  fold_left then_ ((updateStatusText value, g) :: rest)
    (mkChain w Pending (Fulfilled v))
  = fold_left then_ rest
      (mkChain (emit w (EvStatusText value)) Pending (Fulfilled v)).
Proof. reflexivity. Qed.

Lemma fst_pair (A B : Type) (a : A) (b : B) : fst (a, b) = a.
Proof. reflexivity. Qed.

Lemma snd_pair (A B : Type) (a : A) (b : B) : snd (a, b) = b.
Proof. reflexivity. Qed.

Lemma updateFirmware_deferred (polls : nat) (dev : Handle)
  (firmwareFileLocation : string) (connection : option Z) (w : World Ext) :
  snd (updateFirmware drv dc polls dev firmwareFileLocation connection w)
  = ch_deferred
      (fold_left then_ (pipeline drv dc polls dev connection)
         (mkChain (fst (readFirmwareFile drv firmwareFileLocation w)) Pending
            (snd (readFirmwareFile drv firmwareFileLocation w)))).
Proof. unfold updateFirmware. apply snd_pair. Qed.

Lemma updateFirmware_world (polls : nat) (dev : Handle)
  (firmwareFileLocation : string) (connection : option Z) (w : World Ext) :
  fst (updateFirmware drv dc polls dev firmwareFileLocation connection w)
  = ch_world
      (fold_left then_ (pipeline drv dc polls dev connection)
         (mkChain (fst (readFirmwareFile drv firmwareFileLocation w)) Pending
            (snd (readFirmwareFile drv firmwareFileLocation w)))).
Proof. unfold updateFirmware. apply fst_pair. Qed.

Lemma chain_resolveDeferred (g : @Handler Ext) (w : World Ext) (v : Value) :
  ch_world (fold_left then_ [(resolveDeferred, g)]
              (mkChain w Pending (Fulfilled v)))
  = w.
Proof. reflexivity. Qed.

Ltac rethrowing :=
  repeat first [ apply Forall_nil
               | apply Forall_cons;
                 [ first [ apply reportError_rethrows
                         | apply forceClose_rethrows ] | ] ].

Lemma pipeline_rethrows (polls : nat) (dev : Handle) (connection : option Z) :
  Forall rethrows (pipeline drv dc polls dev connection).
Proof. unfold pipeline. rethrowing. Qed.

(** Drops a quiet stage from the head of a chain known to end fulfilled. *)
Ltac quiet_step H lemma :=
  match type of H with
  | ch_deferred (fold_left then_ ((stage ?f, ?g) :: ?rest)
                   (mkChain ?w Pending (Fulfilled (VBundle ?b))))
    = Fulfilled ?final =>
      let w' := fresh "w" in
      let b' := fresh "b" in
      let Heq := fresh "Heq" in
      let Hu := fresh "Hu" in
      let Hi := fresh "Hi" in
      let Hinfo := fresh "Hinfo" in
      destruct (fulfilled_chain_quiet f g rest w b final lemma
                  ltac:(rethrowing) H)
        as [w' [b' [Heq [Hu [Hi Hinfo]]]]];
      rewrite Heq in H |- *; clear Heq
  end.

(** The percentages a run of updateFirmware that resolves has handed to
    the listener: 10, 30, one value per chunk of the image -- the words
    counted in whole blocks, scaled onto the range from 30 to 85 -- then 90
    and 100; the image-info write contributes none. *)
Theorem updateFirmware_progress (polls : nat) (dev : Handle)
  (firmwareFileLocation : string) (connection : option Z) (w : World Ext)
  (final : Value) :
  0 < T7_FLASH_BLOCK_WRITE_SIZE dc ->
  snd (updateFirmware drv dc polls dev firmwareFileLocation connection w)
  = Fulfilled final ->
  exists file,
    snd (drv_readFirmwareFile drv firmwareFileLocation (ext w)) = inr file
    /\ updates (trace (fst (updateFirmware drv dc polls dev
                              firmwareFileLocation connection w)))
       = updates (trace w)
         ++ [CHECKPOINT_ONE_PERCENT; CHECKPOINT_TWO_PERCENT]
         ++ imageProgress CHECKPOINT_TWO_PERCENT CHECKPOINT_THREE_PERCENT
              (Z.of_nat (List.length (ff_image file)) / 4)
              (T7_FLASH_BLOCK_WRITE_SIZE dc)
         ++ [CHECKPOINT_FOUR_PERCENT; CHECKPOINT_FIVE_PERCENT].
Proof.
  intros HB H.
  rewrite updateFirmware_deferred in H. rewrite updateFirmware_world.
  unfold readFirmwareFile in H |- *.
  destruct (drv_readFirmwareFile drv firmwareFileLocation (ext w))
    as [e [msg|file]]; cbv beta iota in H |- *;
    rewrite ?fst_pair, ?snd_pair in H; rewrite ?fst_pair, ?snd_pair.
  - exfalso.
    match type of H with
    | ch_deferred (fold_left then_ ?l ?c) = _ =>
        pose proof (failed_chain_not_fulfilled l (pipeline_rethrows _ _ _)
                      c I I) as Hn
    end.
    rewrite H in Hn. exact Hn.
  - exists file. split; [reflexivity|].
    unfold pipeline, injectDevice, resolve in H |- *.
    quiet_step H (injectDevice_quiet dev connection).
    quiet_step H checkCompatibility_quiet.
    rewrite chain_updateProgress, chain_updateStatusText in H |- *.
    quiet_step H eraseImage_quiet.
    quiet_step H eraseImageInformation_quiet.
    rewrite chain_updateProgress, chain_updateStatusText in H |- *.
    (* writeImage *)
    match type of H with
    | ch_deferred (fold_left then_ ((stage ?f, ?g) :: ?rest)
                     (mkChain ?w1 Pending (Fulfilled (VBundle ?b1)))) = _ =>
        destruct (fulfilled_chain_stage f g rest w1 b1 final
                    ltac:(rethrowing) H) as [v [Hv Heq]];
        rewrite Heq in H |- *; clear Heq;
        destruct (writeImage_reports _ _ b1 w1 v HB Hv) as [-> [Hflag Hwu]]
    end.
    (* writeImageInformation *)
    match type of H with
    | ch_deferred (fold_left then_ ((stage ?f, ?g) :: ?rest)
                     (mkChain ?w1 Pending (Fulfilled (VBundle ?b1)))) = _ =>
        destruct (fulfilled_chain_stage f g rest w1 b1 final
                    ltac:(rethrowing) H) as [v' [Hv' Heq]];
        rewrite Heq in H |- *; clear Heq;
        pose proof (writeImageInformation_fulfilled _ _ b1 w1 v' Hv');
        subst v';
        pose proof (writeImageInformation_silent drv dc
                      CHECKPOINT_THREE_PERCENT CHECKPOINT_FOUR_PERCENT b1 w1
                      Hflag) as Hiu
    end.
    rewrite chain_updateProgress, chain_updateStatusText in H |- *.
    quiet_step H restartAndUpgrade_quiet.
    quiet_step H closeDevice_quiet.
    rewrite chain_updateStatusText in H |- *.
    quiet_step H pauseForClose_quiet.
    quiet_step H (waitForEnumeration_quiet polls).
    quiet_step H checkNewFirmware_quiet.
    rewrite chain_updateProgress in H |- *.
    rewrite chain_resolveDeferred.
    repeat first
      [ rewrite updates_emit
      | rewrite Hiu
      | rewrite Hwu
      | match goal with
        | Hu : updates (trace ?a) = _ |- context [updates (trace ?a)] =>
            rewrite Hu
        end ].
    assert (Himg : firmwareImage b2 = ff_image file)
      by (rewrite Hi2, Hi1, Hi0, Hi; reflexivity).
    rewrite Himg. unfold imageProgress.
    cbn [updates flat_map app trace withExt Z.add].
    rewrite !app_nil_r, <- !app_assoc. unfold updates. cbn [app].
    reflexivity.
Qed.

End Pipeline.

(** ** Images of whole blocks *)

Lemma nonDecreasingb_cons (x y : Q) (l : list Q) :
  nonDecreasingb (x :: y :: l) = Qle_bool x y && nonDecreasingb (y :: l).
Proof. reflexivity. Qed.

Lemma nonDecreasingb_app (l1 l2 : list Q) :
  nonDecreasingb l1 = true -> nonDecreasingb l2 = true ->
  (forall x y, In x l1 -> In y l2 -> (x <= y)%Q) ->
  nonDecreasingb (l1 ++ l2) = true.
Proof.
  induction l1 as [|x [|y l1] IH]; intros H1 H2 Hle.
  - exact H2.
  - destruct l2 as [|y l2]; [reflexivity|].
    cbn [app]. rewrite nonDecreasingb_cons, H2, andb_true_r.
    apply Qle_bool_iff. apply Hle; now left.
  - cbn [app] in *. rewrite nonDecreasingb_cons in H1 |- *.
    apply andb_true_iff in H1. destruct H1 as [Hxy H1].
    rewrite Hxy. cbn [andb]. apply IH; [exact H1 | exact H2|].
    intros a c Ha Hc. apply Hle; [now right | exact Hc].
Qed.

Lemma nonDecreasingb_map_seq (f : nat -> Q) (n : nat) :
  (forall k, (f k <= f (S k))%Q) ->
  forall a, nonDecreasingb (map f (seq a n)) = true.
Proof.
  intros Hf. induction n as [|[|n] IH]; intros a; try reflexivity.
  change (map f (seq a (S (S n))))
    with (f a :: f (S a) :: map f (seq (S (S a)) n)).
  rewrite nonDecreasingb_cons. apply andb_true_iff. split.
  - apply Qle_bool_iff, Hf.
  - exact (IH (S a)).
Qed.

Section WholeBlocks.

Variables minPercent maxPercent : Q.
Variables numberOfIntegers blockSize : Z.
Hypothesis range_ok : (minPercent <= maxPercent)%Q.
Hypothesis block_pos : 0 < blockSize.
Hypothesis words_pos : 0 < numberOfIntegers.
Hypothesis whole : numberOfIntegers mod blockSize = 0.

Let scale : Q := ((maxPercent - minPercent) / inject_Z numberOfIntegers)%Q.
Let value (k : nat) : Q :=
  (scale * inject_Z (blockSize * Z.of_nat k) + minPercent)%Q.

Lemma scale_nonneg : (0 <= scale)%Q.
Proof.
  unfold scale, Qdiv. apply Qmult_le_0_compat.
  - apply (proj1 (Qle_minus_iff minPercent maxPercent)). exact range_ok.
  - apply Qinv_le_0_compat. rewrite <- (Zle_Qle 0). lia.
Qed.

Lemma scale_full :
  (scale * inject_Z numberOfIntegers == maxPercent - minPercent)%Q.
Proof.
  unfold scale. rewrite Qmult_comm. apply Qmult_div_r.
  intros H. apply (inject_Z_injective numberOfIntegers 0) in H. lia.
Qed.

Lemma value_mono (j k : nat) : (j <= k)%nat -> (value j <= value k)%Q.
Proof.
  intros Hjk. unfold value. apply Qplus_le_l.
  rewrite (Qmult_comm scale), (Qmult_comm scale).
  apply Qmult_le_compat_r; [|exact scale_nonneg].
  rewrite <- Zle_Qle. nia.
Qed.

Lemma value_first : (value 0 == minPercent)%Q.
Proof.
  unfold value. rewrite Z.mul_0_r.
  change (inject_Z 0) with 0%Q. rewrite Qmult_0_r. apply Qplus_0_l.
Qed.

Lemma value_last :
  (value (Z.to_nat (numberOfIntegers / blockSize)) == maxPercent)%Q.
Proof.
  unfold value.
  replace (blockSize * Z.of_nat (Z.to_nat (numberOfIntegers / blockSize)))
    with numberOfIntegers.
  - rewrite scale_full. ring.
  - pose proof (Z.div_mod numberOfIntegers blockSize ltac:(lia)) as Hdm.
    assert (0 <= numberOfIntegers / blockSize) by (apply Z.div_pos; lia).
    rewrite Z2Nat.id by assumption. lia.
Qed.

Lemma ceilDiv_whole :
  ceilDiv numberOfIntegers blockSize = numberOfIntegers / blockSize.
Proof. unfold ceilDiv. rewrite whole. cbn. lia. Qed.

Lemma blocks_pos : (0 < Z.to_nat (numberOfIntegers / blockSize))%nat.
Proof.
  pose proof (Z.div_mod numberOfIntegers blockSize ltac:(lia)) as Hdm.
  assert (0 < numberOfIntegers / blockSize) by nia. lia.
Qed.

Lemma imageProgress_values :
  imageProgress minPercent maxPercent numberOfIntegers blockSize
  = map value (seq 1 (Z.to_nat (numberOfIntegers / blockSize))).
Proof. unfold imageProgress. now rewrite ceilDiv_whole. Qed.

(** For an image of whole blocks the percentages of the write climb from
    above the lower end of the range to exactly its upper end. *)
Lemma imageProgress_whole_blocks :
  nonDecreasingb
    (imageProgress minPercent maxPercent numberOfIntegers blockSize) = true
  /\ existsb (Qeq_bool maxPercent)
       (imageProgress minPercent maxPercent numberOfIntegers blockSize)
     = true
  /\ forall p,
       In p (imageProgress minPercent maxPercent numberOfIntegers blockSize) ->
       (minPercent <= p <= maxPercent)%Q.
Proof.
  rewrite imageProgress_values. split; [|split].
  - apply nonDecreasingb_map_seq. intros k. apply value_mono. lia.
  - apply existsb_exists.
    exists (value (Z.to_nat (numberOfIntegers / blockSize))). split.
    + apply in_map, in_seq. pose proof blocks_pos. lia.
    + apply Qeq_bool_iff. symmetry. exact value_last.
  - intros p Hp. apply in_map_iff in Hp. destruct Hp as [k [<- Hk]].
    apply in_seq in Hk. split.
    + rewrite <- value_first. apply value_mono. lia.
    + rewrite <- value_last. apply value_mono. lia.
Qed.

End WholeBlocks.

(** The whole sequence of a resolving run, for an image of whole blocks:
    non-decreasing, through 10, 30, 85, 90 and 100. *)
Lemma pipelineProgress_whole_blocks (numberOfIntegers blockSize : Z) :
  0 < blockSize -> 0 < numberOfIntegers ->
  numberOfIntegers mod blockSize = 0 ->
  let delivered :=
    [CHECKPOINT_ONE_PERCENT; CHECKPOINT_TWO_PERCENT]
    ++ imageProgress CHECKPOINT_TWO_PERCENT CHECKPOINT_THREE_PERCENT
         numberOfIntegers blockSize
    ++ [CHECKPOINT_FOUR_PERCENT; CHECKPOINT_FIVE_PERCENT] in
  nonDecreasingb delivered = true
  /\ forallb (fun p => existsb (Qeq_bool p) delivered)
       [CHECKPOINT_ONE_PERCENT; CHECKPOINT_TWO_PERCENT;
        CHECKPOINT_THREE_PERCENT; CHECKPOINT_FOUR_PERCENT;
        CHECKPOINT_FIVE_PERCENT] = true
  /\ last delivered 0%Q = CHECKPOINT_FIVE_PERCENT.
Proof.
  intros HB HN Hw. cbv zeta.
  destruct (imageProgress_whole_blocks CHECKPOINT_TWO_PERCENT
              CHECKPOINT_THREE_PERCENT numberOfIntegers blockSize
              ltac:(vm_compute; discriminate) HB HN Hw) as [Hs [He Hb]].
  set (ip := imageProgress CHECKPOINT_TWO_PERCENT CHECKPOINT_THREE_PERCENT
               numberOfIntegers blockSize) in *.
  split; [|split].
  - apply nonDecreasingb_app; [reflexivity| |].
    + apply nonDecreasingb_app; [exact Hs | reflexivity|].
      intros x y Hx Hy. apply Qle_trans with CHECKPOINT_THREE_PERCENT.
      * apply Hb, Hx.
      * destruct Hy as [<-|[<-|[]]]; vm_compute; discriminate.
    + intros x y Hx Hy. apply Qle_trans with CHECKPOINT_TWO_PERCENT.
      * destruct Hx as [<-|[<-|[]]]; vm_compute; discriminate.
      * apply in_app_or in Hy. destruct Hy as [Hy|[<-|[<-|[]]]].
        -- apply Hb, Hy.
        -- vm_compute; discriminate.
        -- vm_compute; discriminate.
  - cbn [forallb]. rewrite !existsb_app, He.
    cbn. rewrite !orb_true_r. reflexivity.
  - change [CHECKPOINT_FOUR_PERCENT; CHECKPOINT_FIVE_PERCENT]
      with ([CHECKPOINT_FOUR_PERCENT] ++ [CHECKPOINT_FIVE_PERCENT]).
    rewrite !app_assoc. apply last_last.
Qed.

(** ** The version check at its bound *)

(** C6 fails as stated.  The bundle is for version 0.0001 and the device
    reports 0: the difference is the double 0.0001, which is not less than
    1e-4 -- neither as the double that the source compares with, nor in
    value, which is a little more than 1e-4 -- and checkNewFirmware
    resolves.  And when the device reports a version that is not a number,
    the difference is not a number, so it is not less than 1e-4 either, and
    checkNewFirmware resolves. *)
Lemma checkNewFirmware_resolves_at_bound :
  snd (checkNewFirmware Sim.driver boundaryBundle
         (initialWorld (Sim.reporting (Double.ofQ 0))))
  = Fulfilled (VBundle boundaryBundle)
  /\ Double.ltb
       (Double.abs (Double.sub (version boundaryBundle) (Double.ofQ 0)))
       (Double.ofQ (1 # 10000))
     = false
  /\ (exists expected reported,
        Double.toQ (version boundaryBundle) = Some expected
        /\ Double.toQ (Double.ofQ 0) = Some reported
        /\ ~ (Qabs (reported - expected) < 1 # 10000)%Q)
  /\ snd (checkNewFirmware Sim.driver (simBundle [])
            (initialWorld (Sim.reporting Double.NaN)))
     = Fulfilled (VBundle (simBundle []))
  /\ Double.ltb
       (Double.abs (Double.sub (version (simBundle [])) Double.NaN))
       (Double.ofQ (1 # 10000))
     = false
  /\ Double.toQ Double.NaN = None.
Proof.
  split; [vm_compute; reflexivity|].
  split; [vm_compute; reflexivity|].
  split.
  { eexists. eexists. split; [vm_compute; reflexivity|].
    split; [vm_compute; reflexivity|]. vm_compute. discriminate. }
  repeat split; vm_compute; reflexivity.
Qed.

(** The version 1.0290 of the file against a device that reports it as
    the single-precision value nearest to it, 8631878 * 2^-23. *)
Lemma checkNewFirmware_outcomes_witness :
  let b := simBundle [] in
  let w := initialWorld (Sim.reporting (Double.ofQ (8631878 # 8388608))) in
  device b = Some 1%nat
  /\ snd (checkNewFirmware Sim.driver b w) = Fulfilled (VBundle b).
Proof.
  cbv zeta. split; [reflexivity|].
  apply (proj1 (checkNewFirmware_outcomes Sim.driver (simBundle []) 1%nat
                  (initialWorld
                     (Sim.reporting (Double.ofQ (8631878 # 8388608))))
                  eq_refl)).
  exists (Double.ofQ (8631878 # 8388608)). split; [reflexivity|].
  vm_compute. reflexivity.
Defined.

(** The subtraction rounds: 1.0212 against a reported 1.0211 -- decimals
    that differ by 1e-4 -- leaves a double a little above the double
    0.0001, and the versions are taken to differ; 1.0290 against 1.0289
    leaves one a little below it, and they are not. *)
Lemma checkNewFirmware_rounded_difference :
  exceedsTolerance (Double.ofQ (10212 # 10000)) (Double.ofQ (10211 # 10000))
  = true
  /\ exceedsTolerance (Double.ofQ (10290 # 10000))
       (Double.ofQ (10289 # 10000))
     = false
  /\ Double.ofQ (1 # 10000) = S754_finite false 7378697629483821 (-66)
  /\ Double.sub (Double.ofQ (10212 # 10000)) (Double.ofQ (10211 # 10000))
     = S754_finite false 7378697629499392 (-66).
Proof. repeat split; vm_compute; reflexivity. Qed.

(** ** Reads on the simulated device *)

Lemma readImage_resolves_with_bundle_witness :
  let b := simBundle [] in
  let w := initialWorld (Sim.healthy []) in
  device b = Some 1%nat
  /\ 0 < T7_FLASH_BLOCK_WRITE_SIZE Sim.consts
  /\ snd (readImage Sim.driver Sim.consts b w) = Fulfilled (VBundle b)
  /\ snd (readImageInformation Sim.driver Sim.consts b w)
     = Fulfilled (VBundle b).
Proof.
  cbv zeta. split; [reflexivity|]. split; [reflexivity|].
  apply (proj2 (proj2 (proj2 (readImage_resolves_with_bundle Sim.driver
                                Sim.consts (simBundle []) 1%nat
                                (initialWorld (Sim.healthy []))
                                eq_refl eq_refl)))).
  apply sim_accepts.
Defined.

(** ** Re-enumeration on the simulated device *)

Lemma sim_lost_neverListed (connection : option Z) (s : Z) (e : Sim.State) :
  Sim.bootPolls e = None -> neverListed Sim.driver connection s e.
Proof.
  intros He. exists (fun e0 => Sim.bootPolls e0 = None). split; [exact He|].
  intros e0 H0. exists (Sim.countListing e0), [].
  cbn. unfold Sim.listAll. rewrite H0. repeat split.
Qed.

Lemma waitForEnumeration_outcomes_witness :
  let b := simBundle [] in
  let w := initialWorld (Sim.healthy []) in
  serial b = Some Sim.serialNumber
  /\ reappearsAfter Sim.driver 1 (connectionType b) Sim.serialNumber (ext w)
       2%nat
  /\ snd (waitForEnumeration Sim.driver 3 b w)
     = Fulfilled (VBundle (setDevice b 2%nat))
  /\ neverListed Sim.driver (connectionType b) Sim.serialNumber
       (ext (initialWorld (Sim.lost [])))
  /\ snd (waitForEnumeration Sim.driver 3 b (initialWorld (Sim.lost [])))
     = Pending.
Proof.
  cbv zeta.
  assert (Hre : reappearsAfter Sim.driver 1 (connectionType (simBundle []))
                  Sim.serialNumber (ext (initialWorld (Sim.healthy [])))
                  2%nat).
  { cbn. do 2 eexists. split; [reflexivity|]. left. split; [reflexivity|].
    do 3 eexists. split; [reflexivity|]. split; reflexivity. }
  assert (Hnever : neverListed Sim.driver (connectionType (simBundle []))
                     Sim.serialNumber (ext (initialWorld (Sim.lost []))))
    by (apply sim_lost_neverListed; reflexivity).
  split; [reflexivity|]. split; [exact Hre|]. split.
  - apply (proj1 (proj2 (waitForEnumeration_outcomes Sim.driver (simBundle [])
                           Sim.serialNumber (initialWorld (Sim.healthy []))
                           eq_refl)) 1%nat 2%nat 3%nat Hre).
    lia.
  - split; [exact Hnever|].
    apply (proj2 (proj2 (waitForEnumeration_outcomes Sim.driver (simBundle [])
                           Sim.serialNumber (initialWorld (Sim.lost []))
                           eq_refl)) Hnever 3%nat).
Defined.

Lemma listingCount_app (tr1 tr2 : list Event) :
  listingCount (tr1 ++ tr2) = (listingCount tr1 + listingCount tr2)%nat.
Proof. unfold listingCount. now rewrite filter_app, length_app. Qed.

Lemma sim_lost_listingCount (b : DeviceFirmwareBundle) (s : Z) (polls : nat) :
  forall w,
    Sim.bootPolls (ext w) = None ->
    listingCount (trace (fst (checkForDevice Sim.driver polls b s w)))
    = (listingCount (trace w) + polls)%nat.
Proof.
  induction polls as [|polls IH]; intros w Hw; [cbn; lia|].
  cbn [checkForDevice drv_listAll Sim.driver]. unfold Sim.listAll.
  rewrite Hw. cbn [existsb]. rewrite IH by exact Hw.
  cbn [emit withExt trace]. rewrite !listingCount_app. cbn. lia.
Qed.

(** C9 fails as stated: when the device does not come back, the promise of
    waitForEnumeration is pending after any number of polls, and each
    further poll lists the devices once more: there is no limit after which
    it gives up. *)
Lemma waitForEnumeration_polls_without_limit :
  (forall polls,
      snd (waitForEnumeration Sim.driver polls (simBundle [])
             (initialWorld (Sim.lost []))) = Pending)
  /\ (forall polls,
        listingCount
          (trace (fst (waitForEnumeration Sim.driver polls (simBundle [])
                         (initialWorld (Sim.lost []))))) = polls).
Proof.
  split; intros polls.
  - unfold waitForEnumeration. cbn [serial simBundle].
    apply checkForDevice_polls_on. apply sim_lost_neverListed. reflexivity.
  - unfold waitForEnumeration. cbn [serial simBundle].
    rewrite sim_lost_listingCount by reflexivity. reflexivity.
Qed.

(** ** The erase check on the simulated device *)

(** C4, on the code.  Every word of the simulated flash reads back 0, not
    0xFFFFFFFF; checkErase reads both regions (512 frames of 8 words) and
    resolves with the bundle: what readImageInformation and readImage
    resolve with is the bundle, which has no [length], so [isAllZeroed]
    never looks at a word. *)
Theorem checkErase_resolves_on_unerased_flash :
  Sim.flashWord (Sim.healthy []) <> EXPECTED_ZEROED_MEM_VAL
  /\ snd (checkErase Sim.driver Sim.consts (simBundle [])
            (initialWorld (Sim.healthy [])))
     = Fulfilled (VBundle (simBundle []))
  /\ List.length
       (frames (trace (fst (checkErase Sim.driver Sim.consts (simBundle [])
                              (initialWorld (Sim.healthy []))))))
     = 512%nat
  /\ isAllZeroed (VMemory (repeat (Sim.flashWord (Sim.healthy [])) 8))
     = Some false
  /\ isAllZeroed (VBundle (simBundle [])) = Some true.
Proof.
  split; [discriminate|]. repeat split; vm_compute; reflexivity.
Qed.

(** ** Progress over a run of the pipeline *)

(** C3, on the code.  A firmware file whose image is 10 words long, on a
    device that takes the upgrade and comes back: updateFirmware resolves,
    and the listener has been handed 10, 30, 74, 118, 90, 100.  The second
    chunk of the image, 2 words long, is counted as a full block of 8, so
    the interpolation runs past its upper end 85; the sequence then steps
    back to 90, and 85 itself is never delivered. *)
Theorem updateFirmware_progress_short_image :
  snd (Sim.run 5 (Sim.healthy (wordsFrom 1 10)))
  = Fulfilled (VBundle (setDevice (simBundle (wordsFrom 1 10)) 2%nat))
  /\ map Qred (updates (trace (fst (Sim.run 5 (Sim.healthy (wordsFrom 1 10))))))
     = [10; 30; 74; 118; 90; 100]%Q
  /\ nonDecreasingb
       (updates (trace (fst (Sim.run 5 (Sim.healthy (wordsFrom 1 10))))))
     = false
  /\ existsb (Qeq_bool 85)
       (updates (trace (fst (Sim.run 5 (Sim.healthy (wordsFrom 1 10))))))
     = false.
Proof. repeat split; vm_compute; reflexivity. Qed.

(** C7, on the code.  writeImageInformation(85, 90) sets the scale and the
    offset but not [shouldUpdateProgressBar], which writeImage has cleared:
    its four chunks are written and nothing is handed to the listener.  In a
    whole run with an image of 16 words the listener gets 10, 30, 57.5, 85,
    90, 100: two values from the image write, none between 85 and 90. *)
Theorem writeImageInformation_reports_no_progress :
  let b := simBundle (wordsFrom 1 16) in
  let r := writeImageInformation Sim.driver Sim.consts 85 90 b
             (initialWorld (Sim.healthy (wordsFrom 1 16))) in
  snd r = Fulfilled (VBundle b)
  /\ List.length (frames (trace (fst r))) = 4%nat
  /\ updates (trace (fst r)) = []
  /\ map Qred (updates (trace (fst (Sim.run 5 (Sim.healthy (wordsFrom 1 16))))))
     = [10; 30; 115 # 2; 85; 90; 100]%Q
  /\ List.length
       (frames (trace (fst (Sim.run 5 (Sim.healthy (wordsFrom 1 16))))))
     = 6%nat.
Proof. cbv zeta. repeat split; vm_compute; reflexivity. Qed.

(** ** Failures of close and of the upgrade request *)

(** C8, on the code.  When the close after the upgrade request reports an
    error, closeDevice rejects with the bundle; [forceClose] is the
    rejection handler of the step before, not of closeDevice, so the next
    [reportError] rejects the pipeline with the bundle's string form and
    the devices are never listed.  When the upgrade request itself fails,
    [forceClose] runs, throws, and the pipeline rejects with that TypeError,
    not with the error of the request; the device is not closed. *)
Theorem updateFirmware_close_failure_is_fatal :
  snd (Sim.run 5 (Sim.closeFailing (wordsFrom 1 16)))
  = Rejected (VString "[object Object]")
  /\ closed (trace (fst (Sim.run 5 (Sim.closeFailing (wordsFrom 1 16)))))
     = true
  /\ listed (trace (fst (Sim.run 5 (Sim.closeFailing (wordsFrom 1 16)))))
     = false
  /\ snd (Sim.run 5 (Sim.restartFailing (wordsFrom 1 16)))
     = Rejected
         (VString "TypeError: Cannot read property 'handle' of undefined")
  /\ closed (trace (fst (Sim.run 5 (Sim.restartFailing (wordsFrom 1 16)))))
     = false.
Proof. repeat split; vm_compute; reflexivity. Qed.

(** * Further properties *)

(** ** The range helper *)

Lemma ceilDiv_shift (a b : Z) :
  b <> 0 -> ceilDiv (a - b) b = ceilDiv a b - 1.
Proof.
  intros Hb. unfold ceilDiv.
  replace (a - b) with (a + (-1) * b) by lia.
  rewrite Z.div_add, Z.mod_add by exact Hb. lia.
Qed.

Lemma ceilDiv_sign (a b : Z) :
  b <> 0 -> (0 < ceilDiv a b <-> 0 < a * b).
Proof.
  intros Hb. unfold ceilDiv.
  pose proof (Z.div_mod a b Hb) as Hdm.
  destruct (Z.eqb_spec (a mod b) 0) as [Hz|Hnz].
  - rewrite Hz in Hdm. split; intros H; nia.
  - destruct (Z.lt_total b 0) as [Hneg|[Hzero|Hpos]]; [|lia|].
    + pose proof (Z.mod_neg_bound a b Hneg) as Hm. split; intros H; nia.
    + pose proof (Z.mod_pos_bound a b Hpos) as Hm. split; intros H; nia.
Qed.

Lemma ceilDiv_le_abs (a b : Z) :
  b <> 0 -> ceilDiv a b <= Z.abs a.
Proof.
  intros Hb. unfold ceilDiv.
  pose proof (Z.div_mod a b Hb) as Hdm.
  destruct (Z.eqb_spec (a mod b) 0) as [Hz|Hnz].
  - rewrite Hz in Hdm. nia.
  - destruct (Z.lt_total b 0) as [Hneg|[Hzero|Hpos]]; [|lia|].
    + pose proof (Z.mod_neg_bound a b Hneg). nia.
    + pose proof (Z.mod_pos_bound a b Hpos). nia.
Qed.

(** With enough fuel the loop returns the members [i], [i + step], ... on
    the near side of [stop]. *)
Lemma loop_members (stop step : Z) :
  step <> 0 ->
  forall fuel i,
    (Z.to_nat (ceilDiv (stop - i) step) < fuel)%nat ->
    General.loop fuel i stop step
    = Some (map (fun k => i + Z.of_nat k * step)
              (seq 0 (Z.to_nat (ceilDiv (stop - i) step)))).
Proof.
  intros Hstep. induction fuel as [|fuel IH]; intros i Hfuel; [lia|].
  cbn [General.loop].
  pose proof (ceilDiv_sign (stop - i) step Hstep) as Hsign.
  assert (Hcond : (if 0 <? step then i <? stop else stop <? i) = true
                  <-> 0 < (stop - i) * step).
  { destruct (Z.ltb_spec 0 step).
    - rewrite Z.ltb_lt. split; intros; nia.
    - rewrite Z.ltb_lt. split; intros; nia. }
  destruct (if 0 <? step then i <? stop else stop <? i).
  - assert (Hpos : 0 < ceilDiv (stop - i) step)
      by (apply Hsign, Hcond; reflexivity).
    pose proof (ceilDiv_shift (stop - i) step Hstep) as Hshift.
    replace (stop - i - step) with (stop - (i + step)) in Hshift by lia.
    rewrite IH by lia. rewrite Hshift.
    replace (Z.to_nat (ceilDiv (stop - i) step))
      with (S (Z.to_nat (ceilDiv (stop - i) step - 1))) by lia.
    cbn [seq map]. rewrite <- seq_shift, map_map. f_equal. f_equal.
    + lia.
    + apply map_ext. intros k. lia.
  - assert (Hnpos : ~ 0 < ceilDiv (stop - i) step).
    { intros H. apply Hsign, Hcond in H. discriminate. }
    replace (Z.to_nat (ceilDiv (stop - i) step)) with O by lia.
    reflexivity.
Qed.

Lemma range_members (start stop step : Z) :
  step <> 0 ->
  General.range start (Some stop) (Some step)
  = Some (map (fun k => start + Z.of_nat k * step)
            (seq 0 (Z.to_nat (ceilDiv (stop - start) step)))).
Proof.
  intros Hstep. unfold General.range.
  pose proof (ceilDiv_sign (stop - start) step Hstep) as Hsign.
  pose proof (ceilDiv_le_abs (stop - start) step Hstep) as Hle.
  destruct ((0 <? step) && (stop <=? start) || (step <? 0) && (start <=? stop))
    eqn:E.
  - assert (Hnpos : ~ 0 < ceilDiv (stop - start) step).
    { intros H. apply Hsign in H.
      apply orb_true_iff in E.
      destruct E as [E|E]; apply andb_true_iff in E; destruct E as [E1 E2].
      - apply Z.ltb_lt in E1. apply Z.leb_le in E2. nia.
      - apply Z.ltb_lt in E1. apply Z.leb_le in E2. nia. }
    replace (Z.to_nat (ceilDiv (stop - start) step)) with O by lia.
    reflexivity.
  - apply loop_members; [exact Hstep | lia].
Qed.

(** X1.  range(start, stop, step) with a step other than 0 is Python's
    range: the members [start + k * step] for [k] from 0 up to, and not
    including, the ceiling of [(stop - start) / step] (none when that is
    not positive), in this order. *)
Theorem range_python (start stop step : Z) :
  step <> 0 ->
  General.range start (Some stop) (Some step)
  = Some (map (fun k => start + Z.of_nat k * step)
            (seq 0 (Z.to_nat (ceilDiv (stop - start) step))))
  /\ forall x result,
       General.range start (Some stop) (Some step) = Some result ->
       (In x result
        <-> exists k, 0 <= k /\ x = start + k * step
                      /\ if 0 <? step then x < stop else stop < x).
Proof.
  intros Hstep. split; [now apply range_members|].
  intros x result. rewrite range_members by exact Hstep.
  intros [= <-]. rewrite in_map_iff.
  pose proof (ceilDiv_spec (stop - start) step) as Hpos.
  pose proof (ceilDiv_sign (stop - start) step Hstep) as Hsign.
  unfold ceilDiv in *.
  pose proof (Z.div_mod (stop - start) step Hstep) as Hdm.
  split.
  - intros [k [<- Hk]]. apply in_seq in Hk. exists (Z.of_nat k).
    split; [lia|]. split; [reflexivity|].
    destruct (Z.ltb_spec 0 step) as [Hp|Hn].
    + pose proof (Z.mod_pos_bound (stop - start) step Hp).
      destruct (Z.eqb_spec ((stop - start) mod step) 0); nia.
    + assert (Hneg : step < 0) by lia.
      pose proof (Z.mod_neg_bound (stop - start) step Hneg).
      destruct (Z.eqb_spec ((stop - start) mod step) 0); nia.
  - intros [k [Hk [-> Hside]]]. exists (Z.to_nat k).
    split; [lia|]. apply in_seq.
    destruct (Z.ltb_spec 0 step) as [Hp|Hn].
    + pose proof (Z.mod_pos_bound (stop - start) step Hp).
      destruct (Z.eqb_spec ((stop - start) mod step) 0); nia.
    + assert (Hneg : step < 0) by lia.
      pose proof (Z.mod_neg_bound (stop - start) step Hneg).
      destruct (Z.eqb_spec ((stop - start) mod step) 0); nia.
Qed.

(** range(10, 0, -3) is [10; 7; 4; 1]. *)
Lemma range_python_witness :
  General.range 10 (Some 0) (Some (-3)) = Some [10; 7; 4; 1]
  /\ forall x result,
       General.range 10 (Some 0) (Some (-3)) = Some result ->
       (In x result
        <-> exists k, 0 <= k /\ x = 10 + k * -3
                      /\ if 0 <? -3 then x < 0 else 0 < x).
Proof.
  apply (range_python 10 0 (-3)). discriminate.
Defined.

(** X2.  With one argument, and with the step left out, range counts up by
    1: range(n) is the list 0, ..., n - 1 that eraseFlash iterates over
    (empty for n <= 0), and range(start, stop) is start, ..., stop - 1. *)
Theorem range_defaults (start stop : Z) :
  General.range stop None None = Some (range stop)
  /\ General.range start (Some stop) None
     = Some (map (fun k => start + Z.of_nat k)
               (seq 0 (Z.to_nat (stop - start))))
  /\ (stop <= 0 -> General.range stop None None = Some []).
Proof.
  assert (H1 : forall a b,
             General.range a (Some b) None
             = Some (map (fun k => a + Z.of_nat k)
                       (seq 0 (Z.to_nat (b - a))))).
  { intros a b.
    change (General.range a (Some b) None)
      with (General.range a (Some b) (Some 1)).
    rewrite range_members by discriminate.
    unfold ceilDiv. rewrite Z.div_1_r, Z.mod_1_r. cbn [Z.eqb].
    rewrite Z.add_0_r. f_equal. apply map_ext. intros k. lia. }
  assert (H0 : General.range stop None None = Some (range stop)).
  { change (General.range stop None None)
      with (General.range 0 (Some stop) None).
    rewrite H1. unfold range. rewrite Z.sub_0_r. f_equal. }
  split; [exact H0|]. split; [apply H1|].
  intros Hle. rewrite H0. unfold range.
  replace (Z.to_nat stop) with O by lia. reflexivity.
Qed.

Lemma loop_zero_step (stop : Z) :
  forall fuel i, stop < i -> General.loop fuel i stop 0 = None.
Proof.
  induction fuel as [|fuel IH]; intros i Hi; [reflexivity|].
  cbn [General.loop Z.ltb Z.compare].
  replace (stop <? i) with true by (symmetry; apply Z.ltb_lt; exact Hi).
  rewrite Z.add_0_r, IH by exact Hi. reflexivity.
Qed.

(** X3.  A step of 0 is not refused: range(start, stop, 0) is empty when
    [start <= stop], and when [start > stop] the loop never ends -- it has
    not returned after any number of tests of its condition. *)
Theorem range_zero_step (start stop : Z) :
  (start <= stop -> General.range start (Some stop) (Some 0) = Some [])
  /\ (stop < start ->
      forall fuel, General.loop fuel start stop 0 = None).
Proof.
  split.
  - intros Hle. unfold General.range. cbn [Z.ltb Z.compare andb orb].
    cbn [General.loop Z.ltb Z.compare].
    replace (stop <? start) with false by (symmetry; apply Z.ltb_ge; lia).
    reflexivity.
  - intros Hlt fuel. now apply loop_zero_step.
Qed.

(** ** Erase and flash calls, one by one *)

Section FlashTrace.

Context {Ext : Type}.
Variable drv : Driver Ext.
Variable dc : DriverConst.












Lemma chunkEvents_silent (scaling offset : Q) (sizeInts : Z) (h : Handle)
  (fs : list Frame) :
  forall numIntsWritten,
    chunkEvents false scaling offset sizeInts h numIntsWritten fs
    = map (EvRwMany h) fs.
Proof.
  induction fs as [|f fs IH]; intros n; [reflexivity|].
  cbn [chunkEvents map app]. now rewrite IH.
Qed.

Lemma chunkPercents_length (scaling offset : Q) (sizeInts : Z)
  (count : nat) :
  forall numIntsWritten,
    List.length (chunkPercents scaling offset sizeInts numIntsWritten count)
    = count.
Proof.
  induction count as [|count IH]; intros n; [reflexivity|].
  cbn [chunkPercents List.length]. now rewrite IH.
Qed.

Lemma chunkEvents_reported (scaling offset : Q) (sizeInts : Z) (h : Handle)
  (fs : list Frame) :
  forall numIntsWritten,
    chunkEvents true scaling offset sizeInts h numIntsWritten fs
    = reportedFrames h
        (chunkPercents scaling offset sizeInts numIntsWritten
           (List.length fs)) fs.
Proof.
  induction fs as [|f fs IH]; intros n; [reflexivity|].
  cbn [chunkEvents List.length chunkPercents reportedFrames app].
  now rewrite IH.
Qed.






End FlashTrace.



(** ** The chunks of a read *)

Lemma map_nth_seq {A B} (f : A -> B) (g : nat -> B) (d : A) (l : list A) :
  forall k,
    (forall i, (i < List.length l)%nat -> f (nth i l d) = g (k + i)%nat) ->
    map f l = map g (seq k (List.length l)).
Proof.
  induction l as [|x l IH]; intros k H; [reflexivity|].
  cbn [map List.length seq]. f_equal.
  - pose proof (H O ltac:(cbn; lia)) as H0. cbn [nth] in H0.
    now rewrite Nat.add_0_r in H0.
  - apply IH. intros i Hi.
    pose proof (H (S i) ltac:(cbn; lia)) as Hi'. cbn [nth] in Hi'.
    rewrite Hi'. f_equal. lia.
Qed.

Section ReadPlan.

Context {Ext : Type}.
Variable drv : Driver Ext.
Variable dc : DriverConst.

(** X19.  A read does what the chunking promises, for every block size
    greater than 0.  On a bundle with a device that carries out every
    frame, readFlash of [length] words in blocks of [size] from
    [startAddress] resolves with the bundle after sending exactly
    ceil(length / size) frames, in order; frame [i] writes the pointer
    [startAddress + i * size * 4] and asks for [size] words, or, in the
    last frame, for what is left of the length; the words asked for are
    between 1 and [size] in every frame, [size] in every frame when
    [size] divides the length, and [length] in all. *)
Theorem readFlash_chunks (b : DeviceFirmwareBundle) (h : Handle)
  (startAddress length size : Z) (w : World Ext) :
  0 < size ->
  0 <= length ->
  device b = Some h ->
  accepts drv h ->
  let sent := map (readFrame dc startAddress length size)
                (seq 0 (Z.to_nat (ceilDiv length size))) in
  snd (readFlash drv dc b startAddress length size w)
  = Fulfilled (VBundle b)
  /\ frames (trace (fst (readFlash drv dc b startAddress length size w)))
     = frames (trace w) ++ sent
  /\ (forall f, In f sent -> 0 < declaredWords f <= size)
  /\ (length mod size = 0 -> forall f, In f sent -> declaredWords f = size)
  /\ sumZ (map declaredWords sent) = length.
Proof.
  intros Hs Hl Hdev Hacc. cbv zeta.
  destruct (createFlashOperation_chunking drv dc b h startAddress length
              size (T7_MA_EXF_pREAD dc) (T7_MA_EXF_READ dc) true None None w
              Hs Hl Hdev Hacc ltac:(discriminate))
    as [ops [w' [Hops [Hcount [Hbound [Hnth [Hfull [Htotal [Hrun Hfr]]]]]]]]].
  pose proof (Z.div_mod length size ltac:(lia)) as Hdm.
  pose proof (Z.mod_pos_bound length size Hs) as Hm.
  assert (Hq : 0 <= length / size) by (apply Z.div_pos; lia).
  assert (Hn : Z.to_nat (ceilDiv length size) = List.length ops) by lia.
  assert (Hsize : forall i, (i < List.length ops)%nat ->
            ex_innerSize (nth i ops (mkExecution 0 0 None))
            = Z.min size (length - Z.of_nat i * size)
            /\ 0 < ex_innerSize (nth i ops (mkExecution 0 0 None)) <= size).
  { intros i Hi. destruct (Hnth i Hi) as [_ Hin]. rewrite Hin.
    unfold ceilDiv in Hcount.
    destruct (Z.ltb_spec (Z.of_nat i) (length / size)) as [Hlt|Hge].
    - split; [nia | lia].
    - destruct (Z.eqb_spec (length mod size) 0) as [Hz|Hnz]; [lia|].
      assert (Hi' : Z.of_nat i = length / size) by lia.
      rewrite Hi'. split; [nia | lia]. }
  assert (Hframes : map (frameOf dc (T7_MA_EXF_pREAD dc) (T7_MA_EXF_READ dc)
                           true None) ops
                    = map (readFrame dc startAddress length size)
                        (seq 0 (List.length ops))).
  { apply (map_nth_seq _ _ (mkExecution 0 0 None)). intros i Hi.
    destruct (Hnth i Hi) as [Haddr _]. destruct (Hsize i Hi) as [Hin _].
    unfold frameOf, readFrame. cbn [Nat.add]. now rewrite Haddr, Hin. }
  assert (Hdecl : forall op,
            declaredWords (frameOf dc (T7_MA_EXF_pREAD dc)
                             (T7_MA_EXF_READ dc) true None op)
            = ex_innerSize op) by reflexivity.
  rewrite Hn, <- Hframes. unfold readFlash. rewrite Hrun. cbn [fst snd].
  split; [reflexivity|]. split; [exact Hfr|]. split; [|split].
  - intros f Hin. apply in_map_iff in Hin. destruct Hin as [op [<- Hop]].
    rewrite Hdecl. destruct (In_nth _ _ (mkExecution 0 0 None) Hop)
      as [i [Hi <-]]. now apply Hsize.
  - intros Hz f Hin. apply in_map_iff in Hin. destruct Hin as [op [<- Hop]].
    rewrite Hdecl. now apply Hfull.
  - rewrite map_map. rewrite <- Htotal. unfold totalWords, sumZ.
    clear. induction ops as [|op ops IH]; [reflexivity|].
    cbn [map fold_right]. now rewrite IH.
Qed.

End ReadPlan.

(** A read of 20 words in blocks of 6 on the simulated device: four
    frames, at 4096, 4120, 4144 and 4168, asking for 6, 6, 6 and 2
    words. *)
Lemma readFlash_chunks_witness :
  0 < 6 /\ 0 <= 20
  /\ device (simBundle []) = Some 1%nat
  /\ accepts Sim.driver 1%nat
  /\ map (readFrame Sim.consts 4096 20 6) (seq 0 (Z.to_nat (ceilDiv 20 6)))
     = [ mkFrame [61810; 61812] [LJM_WRITE; LJM_READ] [1; 6]
                 (Some 4096 :: repeat None 6);
         mkFrame [61810; 61812] [LJM_WRITE; LJM_READ] [1; 6]
                 (Some 4120 :: repeat None 6);
         mkFrame [61810; 61812] [LJM_WRITE; LJM_READ] [1; 6]
                 (Some 4144 :: repeat None 6);
         mkFrame [61810; 61812] [LJM_WRITE; LJM_READ] [1; 2]
                 (Some 4168 :: repeat None 2) ]
  /\ (let sent := map (readFrame Sim.consts 4096 20 6)
                     (seq 0 (Z.to_nat (ceilDiv 20 6))) in
      snd (readFlash Sim.driver Sim.consts (simBundle []) 4096 20 6
             (initialWorld (Sim.healthy [])))
      = Fulfilled (VBundle (simBundle []))
      /\ frames (trace (fst (readFlash Sim.driver Sim.consts (simBundle [])
                               4096 20 6 (initialWorld (Sim.healthy [])))))
         = frames (trace (initialWorld (Sim.healthy []))) ++ sent
      /\ (forall f, In f sent -> 0 < declaredWords f <= 6)
      /\ (20 mod 6 = 0 -> forall f, In f sent -> declaredWords f = 6)
      /\ sumZ (map declaredWords sent) = 20).
Proof.
  split; [lia|]. split; [lia|]. split; [reflexivity|].
  split; [apply sim_accepts|]. split; [vm_compute; reflexivity|].
  apply (readFlash_chunks Sim.driver Sim.consts (simBundle []) 1%nat 4096 20
           6 (initialWorld (Sim.healthy []))).
  - lia.
  - lia.
  - reflexivity.
  - apply sim_accepts.
Defined.

(** ** Blocks of eight words *)









(** ** The checks after the erase and after the write *)

Section Checks.

Context {Ext : Type}.
Variable drv : Driver Ext.
Variable dc : DriverConst.

(** How the promise of a region facade can be settled: with the bundle, or
    with a message. *)
Lemma settleWith_cases (b : DeviceFirmwareBundle) (o : Outcome) :
  settleWith b o = Fulfilled (VBundle b)
  \/ (exists errorMsg, settleWith b o = Rejected (VString errorMsg))
  \/ settleWith b o = Pending
  \/ exists e, settleWith b o = Thrown e.
Proof.
  destruct o as [v|err| |e]; cbn.
  - now left.
  - unfold safelyReject. destruct (toString err) as [m|]; cbn.
    + right. left. now exists m.
    + right. right. now left.
  - right. right. now left.
  - right. right. right. now exists e.
Qed.

Lemma readImage_cases (b : DeviceFirmwareBundle) (w : World Ext) :
  snd (readImage drv dc b w) = Fulfilled (VBundle b)
  \/ (exists errorMsg,
         snd (readImage drv dc b w) = Rejected (VString errorMsg))
  \/ snd (readImage drv dc b w) = Pending
  \/ exists e, snd (readImage drv dc b w) = Thrown e.
Proof.
  unfold readImage. destruct (readFlash _ _ _ _ _ _ _) as [w' o].
  cbn [snd]. apply settleWith_cases.
Qed.

Lemma readImageInformation_cases (b : DeviceFirmwareBundle) (w : World Ext) :
  snd (readImageInformation drv dc b w) = Fulfilled (VBundle b)
  \/ (exists errorMsg,
         snd (readImageInformation drv dc b w) = Rejected (VString errorMsg))
  \/ snd (readImageInformation drv dc b w) = Pending
  \/ exists e, snd (readImageInformation drv dc b w) = Thrown e.
Proof.
  unfold readImageInformation. destruct (readFlash _ _ _ _ _ _ _) as [w' o].
  cbn [snd]. apply settleWith_cases.
Qed.

(** X7.  checkImageWrite compares nothing: what readImage resolves with is
    the bundle, which has no [length], so the loop over the read image is
    never entered.  It settles exactly as readImage does -- resolved with
    the bundle whenever the read resolves, whatever the flash holds,
    rejected with the message of a failed read -- and never rejects with
    an 'Unexpected image data' error, nor with any other Error object. *)
Theorem checkImageWrite_compares_nothing (b : DeviceFirmwareBundle)
  (w : World Ext) :
  checkImageWrite drv dc b w = readImage drv dc b w
  /\ (forall i, snd (checkImageWrite drv dc b w)
                <> Rejected (unexpectedImageData i))
  /\ (forall name message,
        snd (checkImageWrite drv dc b w) <> Rejected (VError name message)).
Proof.
  assert (Heq : checkImageWrite drv dc b w = readImage drv dc b w).
  { unfold checkImageWrite.
    destruct (readImage_cases b w) as [H|[[m H]|[H|[e H]]]];
      destruct (readImage drv dc b w) as [w' o]; cbn [snd] in H; subst o;
      reflexivity. }
  split; [exact Heq|]. rewrite Heq.
  split; [intros i|intros name message];
    destruct (readImage_cases b w) as [H|[[m H]|[H|[e H]]]];
    rewrite H; discriminate.
Qed.

(** X8.  checkErase looks at no word either.  With [info] the read of the
    image-info region and [image] the read of the image region that
    follows it: when both reads resolve, checkErase resolves with the
    bundle, whatever was read; when the first read resolves and the second
    is rejected, nothing handles that rejection and the promise of
    checkErase stays pending; when the first read is rejected, checkErase
    rejects with its message, and the image region is read all the same;
    and checkErase never rejects with 'Memory not zeroed.', nor with any
    other Error object. *)
Theorem checkErase_outcomes (b : DeviceFirmwareBundle) (w : World Ext) :
  let info := readImageInformation drv dc b w in
  let image := readImage drv dc b (fst info) in
  (forall v1 v2,
      snd info = Fulfilled v1 -> snd image = Fulfilled v2 ->
      checkErase drv dc b w = (fst image, Fulfilled (VBundle b)))
  /\ (forall v1 reason,
        snd info = Fulfilled v1 -> snd image = Rejected reason ->
        checkErase drv dc b w = (fst image, Pending))
  /\ (forall reason,
        snd info = Rejected reason ->
        checkErase drv dc b w = (fst image, Rejected reason))
  /\ (forall name message,
        snd (checkErase drv dc b w) <> Rejected (VError name message)).
Proof.
  cbv zeta. unfold checkErase.
  destruct (readImageInformation_cases b w) as [H1|[[m1 H1]|[H1|[e1 H1]]]];
    destruct (readImageInformation drv dc b w) as [w1 p1];
    cbn [fst snd] in *; subst p1;
    (destruct (readImage_cases b w1) as [H2|[[m2 H2]|[H2|[e2 H2]]]];
     destruct (readImage drv dc b w1) as [w2 p2];
     cbn [fst snd] in *; subst p2);
    cbn; repeat split; intros; try discriminate; try reflexivity;
    try congruence;
    unfold safeRejectHandler, safelyReject;
    destruct (toString _); cbn; try discriminate; congruence.
Qed.

End Checks.

(** On a device that carries out the 128 frames of the first read and
    refuses the next one, the promise of checkErase is left pending; on a
    device that refuses the first frame, checkErase rejects with that
    refusal after sending one frame of each read. *)
Lemma checkErase_outcomes_witness :
  checkErase (Faulty.driver (Sim.firmware [])) Sim.consts (simBundle [])
    (initialWorld (Faulty.refusingAfter 128))
  = (fst (readImage (Faulty.driver (Sim.firmware [])) Sim.consts
            (simBundle [])
            (fst (readImageInformation (Faulty.driver (Sim.firmware []))
                    Sim.consts (simBundle [])
                    (initialWorld (Faulty.refusingAfter 128))))),
     Pending)
  /\ checkErase (Faulty.driver (Sim.firmware [])) Sim.consts (simBundle [])
       (initialWorld (Faulty.refusingAfter 0))
     = (fst (readImage (Faulty.driver (Sim.firmware [])) Sim.consts
               (simBundle [])
               (fst (readImageInformation (Faulty.driver (Sim.firmware []))
                       Sim.consts (simBundle [])
                       (initialWorld (Faulty.refusingAfter 0))))),
        Rejected (VString Faulty.refusal))
  /\ List.length
       (frames (trace (fst (checkErase (Faulty.driver (Sim.firmware []))
                              Sim.consts (simBundle [])
                              (initialWorld (Faulty.refusingAfter 0))))))
     = 2%nat.
Proof.
  split; [|split].
  - apply (proj1 (proj2 (checkErase_outcomes
                           (Faulty.driver (Sim.firmware [])) Sim.consts
                           (simBundle [])
                           (initialWorld (Faulty.refusingAfter 128))))
             (VBundle (simBundle [])) (VString Faulty.refusal));
      vm_compute; reflexivity.
  - apply (proj1 (proj2 (proj2 (checkErase_outcomes
                                  (Faulty.driver (Sim.firmware []))
                                  Sim.consts (simBundle [])
                                  (initialWorld (Faulty.refusingAfter 0)))))
             (VString Faulty.refusal)).
    vm_compute; reflexivity.
  - vm_compute; reflexivity.
Defined.

(** ** The calls of waitForEnumeration *)

Section Enumeration.

Context {Ext : Type}.
Variable drv : Driver Ext.

(** What the polls of [checkForDevice] are, on the answers of the driver:
    polls that do not bring the device back, and then the poll that does,
    or the end of the polls allowed, or a listing that fails. *)
Lemma checkForDevice_calls (b : DeviceFirmwareBundle) (s : Z) (polls : nat) :
  forall w,
  exists (unsuccessful : list Poll) (e' : Ext),
    (List.length unsuccessful <= polls)%nat
    /\ polled drv (connectionType b) s unsuccessful (ext w) e'
    /\ match snd (checkForDevice drv polls b s w) with
       | Fulfilled v =>
           exists e1 serialNumbers h,
             (List.length unsuccessful < polls)%nat
             /\ drv_listAll drv (connectionType b) e'
                = (e1, inr serialNumbers)
             /\ existsb (Z.eqb s) serialNumbers = true
             /\ drv_open drv (connectionType b) s e1
                = (ext (fst (checkForDevice drv polls b s w)), inr h)
             /\ v = VBundle (setDevice b h)
             /\ trace (fst (checkForDevice drv polls b s w))
                = trace w
                  ++ flat_map (pollEvents (connectionType b) s) unsuccessful
                  ++ [EvListAll (connectionType b);
                      EvOpen (connectionType b) s]
       | Pending =>
           (List.length unsuccessful = polls
            /\ ext (fst (checkForDevice drv polls b s w)) = e'
            /\ trace (fst (checkForDevice drv polls b s w))
               = trace w
                 ++ flat_map (pollEvents (connectionType b) s) unsuccessful)
           \/ ((List.length unsuccessful < polls)%nat
               /\ (exists errorMsg,
                     drv_listAll drv (connectionType b) e'
                     = (ext (fst (checkForDevice drv polls b s w)),
                        inl errorMsg))
               /\ trace (fst (checkForDevice drv polls b s w))
                  = trace w
                    ++ flat_map (pollEvents (connectionType b) s)
                         unsuccessful
                    ++ [EvListAll (connectionType b)])
       | Rejected _ | Thrown _ => False
       end.
Proof.
  induction polls as [|polls IH]; intros w.
  - exists [], (ext w). cbn. rewrite app_nil_r.
    split; [lia|]. split; [reflexivity|]. left. now repeat split.
  - cbn [checkForDevice].
    destruct (drv_listAll drv (connectionType b) (ext w)) as [e1 [m|l]]
      eqn:Hlist.
    + exists [], (ext w).
      cbn [fst snd List.length flat_map app emit withExt trace ext polled].
      split; [lia|]. split; [reflexivity|]. right.
      split; [lia|]. split; [|reflexivity].
      exists m. exact Hlist.
    + destruct (existsb (Z.eqb s) l) eqn:Hin.
      * cbn [emit withExt ext].
        destruct (drv_open drv (connectionType b) s e1) as [e2 [m|h]]
          eqn:Hopen.
        -- match goal with
           | |- context [checkForDevice drv polls b s ?w0] =>
               destruct (IH w0) as [done [e' [Hle [Hpolled Hres]]]]
           end.
           cbn [emit withExt ext] in Hpolled.
           exists (OpenFailed :: done), e'. split; [cbn; lia|].
           split.
           { cbn [polled]. exists e1, l, e2, m. now repeat split. }
           destruct (snd (checkForDevice drv polls b s _)) as [v|r| |e];
             try contradiction.
           ++ destruct Hres as [e3 [l' [h [Hlt [Hl' [Hin' [Hop' [Hv Htr]]]]]]]].
              exists e3, l', h. split; [cbn; lia|].
              split; [exact Hl'|]. split; [exact Hin'|].
              split; [exact Hop'|]. split; [exact Hv|].
              rewrite Htr. cbn [emit withExt trace flat_map pollEvents].
              rewrite <- !app_assoc. reflexivity.
           ++ destruct Hres as [[Hlen [Hext Htr]]|[Hlt [Hfail Htr]]].
              ** left. split; [cbn; lia|]. split; [exact Hext|].
                 rewrite Htr. cbn [emit withExt trace flat_map pollEvents].
                 rewrite <- !app_assoc. reflexivity.
              ** right. split; [cbn; lia|]. split; [exact Hfail|].
                 rewrite Htr. cbn [emit withExt trace flat_map pollEvents].
                 rewrite <- !app_assoc. reflexivity.
        -- exists [], (ext w).
           cbn [fst snd resolve List.length flat_map app emit withExt trace
                  ext polled].
           split; [lia|]. split; [reflexivity|].
           exists e1, l, h. split; [lia|]. split; [exact Hlist|].
           split; [exact Hin|]. split; [exact Hopen|].
           split; [reflexivity|].
           rewrite <- !app_assoc. reflexivity.
      * match goal with
        | |- context [checkForDevice drv polls b s ?w0] =>
            destruct (IH w0) as [done [e' [Hle [Hpolled Hres]]]]
        end.
        cbn [emit withExt ext] in Hpolled.
        exists (NotListed :: done), e'. split; [cbn; lia|].
        split.
        { cbn [polled]. exists e1, l. now repeat split. }
        destruct (snd (checkForDevice drv polls b s _)) as [v|r| |e];
          try contradiction.
        -- destruct Hres as [e3 [l' [h [Hlt [Hl' [Hin' [Hop' [Hv Htr]]]]]]]].
           exists e3, l', h. split; [cbn; lia|].
           split; [exact Hl'|]. split; [exact Hin'|].
           split; [exact Hop'|]. split; [exact Hv|].
           rewrite Htr. cbn [emit withExt trace flat_map pollEvents].
           rewrite <- !app_assoc. reflexivity.
        -- destruct Hres as [[Hlen [Hext Htr]]|[Hlt [Hfail Htr]]].
           ++ left. split; [cbn; lia|]. split; [exact Hext|].
              rewrite Htr. cbn [emit withExt trace flat_map pollEvents].
              rewrite <- !app_assoc. reflexivity.
           ++ right. split; [cbn; lia|]. split; [exact Hfail|].
              rewrite Htr. cbn [emit withExt trace flat_map pollEvents].
              rewrite <- !app_assoc. reflexivity.
Qed.

(** The same for [waitForEnumeration], which sets a timer first. *)
Lemma waitForEnumeration_polls (b : DeviceFirmwareBundle) (s : Z)
  (polls : nat) (w : World Ext) :
  serial b = Some s ->
  exists (unsuccessful : list Poll) (e' : Ext),
    (List.length unsuccessful <= polls)%nat
    /\ polled drv (connectionType b) s unsuccessful (ext w) e'
    /\ match snd (waitForEnumeration drv polls b w) with
       | Fulfilled v =>
           exists h,
             (List.length unsuccessful < polls)%nat
             /\ reopened drv (connectionType b) s unsuccessful (ext w) h
                  (ext (fst (waitForEnumeration drv polls b w)))
             /\ v = VBundle (setDevice b h)
             /\ trace (fst (waitForEnumeration drv polls b w))
                = trace w
                  ++ [EvSetTimeout EXPECTED_REBOOT_WAIT]
                  ++ flat_map (pollEvents (connectionType b) s) unsuccessful
                  ++ [EvListAll (connectionType b);
                      EvOpen (connectionType b) s]
       | Pending =>
           (List.length unsuccessful = polls
            /\ ext (fst (waitForEnumeration drv polls b w)) = e'
            /\ trace (fst (waitForEnumeration drv polls b w))
               = trace w
                 ++ [EvSetTimeout EXPECTED_REBOOT_WAIT]
                 ++ flat_map (pollEvents (connectionType b) s) unsuccessful)
           \/ ((List.length unsuccessful < polls)%nat
               /\ (exists errorMsg,
                     drv_listAll drv (connectionType b) e'
                     = (ext (fst (waitForEnumeration drv polls b w)),
                        inl errorMsg))
               /\ trace (fst (waitForEnumeration drv polls b w))
                  = trace w
                    ++ [EvSetTimeout EXPECTED_REBOOT_WAIT]
                    ++ flat_map (pollEvents (connectionType b) s)
                         unsuccessful
                    ++ [EvListAll (connectionType b)])
       | Rejected _ | Thrown _ => False
       end.
Proof.
  intros Hs. unfold waitForEnumeration. rewrite Hs.
  destruct (checkForDevice_calls b s polls
              (emit w (EvSetTimeout EXPECTED_REBOOT_WAIT)))
    as [done [e' [Hle [Hpolled Hres]]]].
  cbn [emit ext] in Hpolled.
  exists done, e'. split; [exact Hle|]. split; [exact Hpolled|].
  destruct (snd (checkForDevice drv polls b s _)) as [v|r| |e];
    try contradiction.
  - destruct Hres as [e1 [l [h [Hlt [Hl [Hin [Hop [Hv Htr]]]]]]]].
    exists h. split; [exact Hlt|]. split.
    { exists e', e1, l. now repeat split. }
    split; [exact Hv|].
    rewrite Htr. cbn [emit trace]. rewrite <- !app_assoc. reflexivity.
  - destruct Hres as [[Hlen [Hext Htr]]|[Hlt [Hfail Htr]]].
    + left. split; [exact Hlen|]. split; [exact Hext|].
      rewrite Htr. cbn [emit trace]. rewrite <- !app_assoc. reflexivity.
    + right. split; [exact Hlt|]. split; [exact Hfail|].
      rewrite Htr. cbn [emit trace]. rewrite <- !app_assoc. reflexivity.
Qed.

(** X9.  What waitForEnumeration does, on the answers of the driver.
    With a captured serial it sets a timer of [EXPECTED_REBOOT_WAIT] and
    then polls: each poll lists the devices under the bundle's connection
    type; when that listing does not hold the captured serial, nothing is
    opened and the timer is set again; when it does, that serial is opened
    under that connection type, and if the open fails the timer is set
    again.  It resolves exactly after an open that succeeds, with the
    bundle under the device that this open has yielded, and it makes no
    call after it.  It never rejects.  While it is pending it has used
    up its polls, none of which brought the device back, or it has ended
    on a listing that failed. *)
Theorem waitForEnumeration_calls (b : DeviceFirmwareBundle) (s : Z)
  (polls : nat) (w : World Ext) :
  serial b = Some s ->
  match snd (waitForEnumeration drv polls b w) with
  | Fulfilled v =>
      exists (unsuccessful : list Poll) (h : Handle),
        (List.length unsuccessful < polls)%nat
        /\ reopened drv (connectionType b) s unsuccessful (ext w) h
             (ext (fst (waitForEnumeration drv polls b w)))
        /\ v = VBundle (setDevice b h)
        /\ trace (fst (waitForEnumeration drv polls b w))
           = trace w
             ++ [EvSetTimeout EXPECTED_REBOOT_WAIT]
             ++ flat_map (pollEvents (connectionType b) s) unsuccessful
             ++ [EvListAll (connectionType b);
                 EvOpen (connectionType b) s]
  | Pending =>
      exists (unsuccessful : list Poll) (e' : Ext),
        polled drv (connectionType b) s unsuccessful (ext w) e'
        /\ ((List.length unsuccessful = polls
             /\ ext (fst (waitForEnumeration drv polls b w)) = e'
             /\ trace (fst (waitForEnumeration drv polls b w))
                = trace w
                  ++ [EvSetTimeout EXPECTED_REBOOT_WAIT]
                  ++ flat_map (pollEvents (connectionType b) s)
                       unsuccessful)
            \/ ((List.length unsuccessful < polls)%nat
                /\ (exists errorMsg,
                      drv_listAll drv (connectionType b) e'
                      = (ext (fst (waitForEnumeration drv polls b w)),
                         inl errorMsg))
                /\ trace (fst (waitForEnumeration drv polls b w))
                   = trace w
                     ++ [EvSetTimeout EXPECTED_REBOOT_WAIT]
                     ++ flat_map (pollEvents (connectionType b) s)
                          unsuccessful
                     ++ [EvListAll (connectionType b)]))
  | Rejected _ | Thrown _ => False
  end.
Proof.
  intros Hs.
  destruct (waitForEnumeration_polls b s polls w Hs)
    as [done [e' [Hle [Hpolled Hres]]]].
  destruct (snd (waitForEnumeration drv polls b w)) as [v|r| |e];
    try contradiction.
  - destruct Hres as [h Hres]. now exists done, h.
  - exists done, e'. now split.
Qed.

Lemma checkForDevice_failed_listing (b : DeviceFirmwareBundle) (s : Z)
  (k : nat) :
  forall w polls,
    listingFailsAfter drv k (connectionType b) s (ext w) ->
    (k < polls)%nat ->
    checkForDevice drv polls b s w = checkForDevice drv (S k) b s w
    /\ snd (checkForDevice drv (S k) b s w) = Pending
    /\ last (trace (fst (checkForDevice drv (S k) b s w)))
            (EvSetTimeout 0)
       = EvListAll (connectionType b)
    /\ listingCount (trace (fst (checkForDevice drv (S k) b s w)))
       = (listingCount (trace w) + S k)%nat.
Proof.
  induction k as [|k IH]; intros w polls Hfail Hk;
    (destruct polls as [|polls]; [lia|]).
  - destruct Hfail as [e1 [m Hl]]. cbn [checkForDevice]. rewrite Hl.
    cbn [fst snd emit withExt trace]. split; [reflexivity|].
    split; [reflexivity|]. split; [apply last_last|].
    rewrite listingCount_app. reflexivity.
  - destruct Hfail as [e1 [l [Hl [[Hin Hfail]|[Hin [e2 [m [Hop Hfail]]]]]]]].
    + remember (S k) as n eqn:En in *.
      cbn [checkForDevice]. rewrite Hl, Hin.
      match goal with
      | |- context [checkForDevice drv polls b s ?w0] =>
          destruct (IH w0 polls Hfail ltac:(lia)) as [H1 [H2 [H3 H4]]]
      end.
      rewrite H1. split; [reflexivity|]. split; [exact H2|].
      split; [exact H3|]. rewrite H4.
      cbn [emit withExt trace]. rewrite !listingCount_app. cbn. lia.
    + remember (S k) as n eqn:En in *.
      cbn [checkForDevice]. rewrite Hl, Hin. cbn [emit withExt ext].
      rewrite Hop.
      match goal with
      | |- context [checkForDevice drv polls b s ?w0] =>
          destruct (IH w0 polls Hfail ltac:(lia)) as [H1 [H2 [H3 H4]]]
      end.
      rewrite H1. split; [reflexivity|]. split; [exact H2|].
      split; [exact H3|]. rewrite H4.
      cbn [emit withExt trace]. rewrite !listingCount_app. cbn. lia.
Qed.

(** X10.  A listing that fails ends the polling without settling
    anything: when the listing of poll [k + 1] fails, no timer is set any
    more, so that however many polls are allowed, waitForEnumeration has
    done what it did in [k + 1] polls -- that many listings, the failed
    one being its last call -- and its promise is still pending; the
    failure is reported to no one. *)
Theorem waitForEnumeration_failed_listing (b : DeviceFirmwareBundle)
  (s : Z) (k : nat) (w : World Ext) :
  serial b = Some s ->
  listingFailsAfter drv k (connectionType b) s (ext w) ->
  forall polls,
    (k < polls)%nat ->
    waitForEnumeration drv polls b w = waitForEnumeration drv (S k) b w
    /\ snd (waitForEnumeration drv polls b w) = Pending
    /\ last (trace (fst (waitForEnumeration drv polls b w)))
            (EvSetTimeout 0)
       = EvListAll (connectionType b)
    /\ listingCount (trace (fst (waitForEnumeration drv polls b w)))
       = (listingCount (trace w) + S k)%nat.
Proof.
  intros Hs Hfail polls Hk. unfold waitForEnumeration. rewrite Hs.
  destruct (checkForDevice_failed_listing b s k
              (emit w (EvSetTimeout EXPECTED_REBOOT_WAIT)) polls Hfail Hk)
    as [H1 [H2 [H3 H4]]].
  rewrite H1. split; [reflexivity|]. split; [exact H2|].
  split; [exact H3|]. rewrite H4. cbn [emit trace].
  rewrite listingCount_app. cbn. lia.
Qed.

End Enumeration.

(** On the simulated device, back at the second listing: one poll that
    does not find it, then the listing and the open that yields the
    device 2. *)
Lemma waitForEnumeration_calls_witness :
  serial (simBundle []) = Some Sim.serialNumber
  /\ snd (waitForEnumeration Sim.driver 3 (simBundle [])
            (initialWorld (Sim.healthy [])))
     = Fulfilled (VBundle (setDevice (simBundle []) 2%nat))
  /\ match snd (waitForEnumeration Sim.driver 3 (simBundle [])
                  (initialWorld (Sim.healthy []))) with
     | Fulfilled v =>
         exists (unsuccessful : list Poll) (h : Handle),
           (List.length unsuccessful < 3)%nat
           /\ reopened Sim.driver (connectionType (simBundle []))
                Sim.serialNumber unsuccessful
                (ext (initialWorld (Sim.healthy []))) h
                (ext (fst (waitForEnumeration Sim.driver 3 (simBundle [])
                             (initialWorld (Sim.healthy [])))))
           /\ v = VBundle (setDevice (simBundle []) h)
           /\ trace (fst (waitForEnumeration Sim.driver 3 (simBundle [])
                            (initialWorld (Sim.healthy []))))
              = trace (initialWorld (Sim.healthy []))
                ++ [EvSetTimeout EXPECTED_REBOOT_WAIT]
                ++ flat_map
                     (pollEvents (connectionType (simBundle []))
                        Sim.serialNumber) unsuccessful
                ++ [EvListAll (connectionType (simBundle []));
                    EvOpen (connectionType (simBundle []))
                      Sim.serialNumber]
     | Pending =>
         exists (unsuccessful : list Poll) (e' : Sim.State),
           polled Sim.driver (connectionType (simBundle []))
             Sim.serialNumber unsuccessful
             (ext (initialWorld (Sim.healthy []))) e'
           /\ ((List.length unsuccessful = 3%nat
                /\ ext (fst (waitForEnumeration Sim.driver 3 (simBundle [])
                               (initialWorld (Sim.healthy [])))) = e'
                /\ trace (fst (waitForEnumeration Sim.driver 3
                                 (simBundle [])
                                 (initialWorld (Sim.healthy []))))
                   = trace (initialWorld (Sim.healthy []))
                     ++ [EvSetTimeout EXPECTED_REBOOT_WAIT]
                     ++ flat_map
                          (pollEvents (connectionType (simBundle []))
                             Sim.serialNumber) unsuccessful)
               \/ ((List.length unsuccessful < 3)%nat
                   /\ (exists errorMsg,
                         drv_listAll Sim.driver
                           (connectionType (simBundle [])) e'
                         = (ext (fst (waitForEnumeration Sim.driver 3
                                        (simBundle [])
                                        (initialWorld (Sim.healthy [])))),
                            inl errorMsg))
                   /\ trace (fst (waitForEnumeration Sim.driver 3
                                    (simBundle [])
                                    (initialWorld (Sim.healthy []))))
                      = trace (initialWorld (Sim.healthy []))
                        ++ [EvSetTimeout EXPECTED_REBOOT_WAIT]
                        ++ flat_map
                             (pollEvents (connectionType (simBundle []))
                                Sim.serialNumber) unsuccessful
                        ++ [EvListAll (connectionType (simBundle []))]))
     | Rejected _ | Thrown _ => False
     end.
Proof.
  split; [reflexivity|]. split; [vm_compute; reflexivity|].
  apply (waitForEnumeration_calls Sim.driver (simBundle [])
           Sim.serialNumber 3 (initialWorld (Sim.healthy [])) eq_refl).
Defined.

(** On a bus that cannot be listed, the first listing fails: one listing,
    whatever the number of polls. *)
Lemma waitForEnumeration_failed_listing_witness :
  serial (simBundle []) = Some Sim.serialNumber
  /\ listingFailsAfter (Faulty.driver (Sim.firmware [])) 0
       (connectionType (simBundle [])) Sim.serialNumber
       (ext (initialWorld (Faulty.unlisted 0)))
  /\ waitForEnumeration (Faulty.driver (Sim.firmware [])) 7 (simBundle [])
       (initialWorld (Faulty.unlisted 0))
     = waitForEnumeration (Faulty.driver (Sim.firmware [])) 1 (simBundle [])
         (initialWorld (Faulty.unlisted 0))
  /\ snd (waitForEnumeration (Faulty.driver (Sim.firmware [])) 7
            (simBundle []) (initialWorld (Faulty.unlisted 0)))
     = Pending
  /\ last (trace (fst (waitForEnumeration (Faulty.driver (Sim.firmware []))
                         7 (simBundle [])
                         (initialWorld (Faulty.unlisted 0)))))
          (EvSetTimeout 0)
     = EvListAll (connectionType (simBundle []))
  /\ listingCount
       (trace (fst (waitForEnumeration (Faulty.driver (Sim.firmware [])) 7
                      (simBundle []) (initialWorld (Faulty.unlisted 0)))))
     = (listingCount (trace (initialWorld (Faulty.unlisted 0))) + 1)%nat.
Proof.
  assert (Hfail : listingFailsAfter (Faulty.driver (Sim.firmware [])) 0
                    (connectionType (simBundle [])) Sim.serialNumber
                    (ext (initialWorld (Faulty.unlisted 0)))).
  { cbn. do 2 eexists. reflexivity. }
  split; [reflexivity|]. split; [exact Hfail|].
  apply (waitForEnumeration_failed_listing (Faulty.driver (Sim.firmware []))
           (simBundle []) Sim.serialNumber 0
           (initialWorld (Faulty.unlisted 0)) eq_refl Hfail 7%nat).
  lia.
Defined.

(** ** Failures before anything is written *)

Section Failures.

Context {Ext : Type}.
Variable drv : Driver Ext.
Variable dc : DriverConst.

Lemma reportError_passesOn (onFulfilled : @Handler Ext) (message : string) :
  passesOn (onFulfilled, reportError message).
Proof.
  intros reason w d. cbn [snd]. unfold reportError.
  destruct (String.eqb message "finishingUpdate").
  - exists d, reason. now split.
  - unfold safelyReject. destruct (toString reason) as [m|].
    + exists (reject d (VString m)), reason. split; [reflexivity|].
      intros Hd. destruct d; try reflexivity. contradiction.
    + exists d, notAnObject. now split.
Qed.

Lemma forceClose_passesOn (onFulfilled : @Handler Ext) :
  passesOn (onFulfilled, asHandler forceClose).
Proof. intros reason w d. cbn. do 2 eexists. now split. Qed.

Ltac passing :=
  repeat first [ apply Forall_nil
               | apply Forall_cons;
                 [ first [ apply reportError_passesOn
                         | apply forceClose_passesOn ] | ] ].

Lemma pipeline_passesOn (polls : nat) (dev : Handle) (connection : option Z) :
  Forall passesOn (pipeline drv dc polls dev connection).
Proof. unfold pipeline. passing. Qed.

Lemma Forall_skipn {A} (P : A -> Prop) (n : nat) (l : list A) :
  Forall P l -> Forall P (skipn n l).
Proof.
  revert l. induction n as [|n IH]; intros l H; [exact H|].
  destruct l as [|x l]; [exact H|]. cbn [skipn]. apply IH.
  now inversion H.
Qed.

(** A chain whose promise is pending stays as it is. *)
Lemma pending_chain (rest : list (@Handler Ext * @Handler Ext)) :
  forall c, ch_promise c = Pending -> fold_left then_ rest c = c.
Proof.
  induction rest as [|hs rest IH]; intros c Hp; [reflexivity|].
  cbn [fold_left].
  assert (Hstep : then_ c hs = c)
    by (unfold then_; destruct hs as [f g]; now rewrite Hp).
  rewrite Hstep. now apply IH.
Qed.

(** Once a step has failed, the rejection handlers of the steps after it
    do nothing to the world, and nothing to an outer deferred that is
    settled. *)
Lemma failed_chain_world (rest : list (@Handler Ext * @Handler Ext)) :
  Forall passesOn rest ->
  forall c reason,
    ch_promise c = Rejected reason ->
    ch_world (fold_left then_ rest c) = ch_world c
    /\ (ch_deferred c <> Pending ->
        ch_deferred (fold_left then_ rest c) = ch_deferred c).
Proof.
  induction 1 as [|hs rest Hhs _ IH]; intros c reason Hp; [now split|].
  cbn [fold_left].
  destruct (Hhs reason (ch_world c) (ch_deferred c))
    as [d' [reason' [Hg Hd]]].
  assert (Hstep : then_ c hs = mkChain (ch_world c) d' (Rejected reason')).
  { unfold then_. destruct hs as [f g]. rewrite Hp. cbn [snd] in Hg.
    rewrite Hg. reflexivity. }
  rewrite Hstep.
  destruct (IH (mkChain (ch_world c) d' (Rejected reason')) reason' eq_refl)
    as [Hw Hdef].
  cbn [ch_world ch_deferred] in Hw, Hdef. split; [exact Hw|].
  intros Hsettled. rewrite (Hd Hsettled) in Hdef |- *. now apply Hdef.
Qed.

(** The first [reportError] that sees a rejection rejects the outer
    deferred with the message of its reason; the pipeline ends in that
    state, with the world as the failed step left it. *)
Lemma failed_chain_message (onFulfilled : @Handler Ext) (message : string)
  (rest : list (@Handler Ext * @Handler Ext)) (w : World Ext)
  (reason : Value) (errorMsg : string) :
  String.eqb message "finishingUpdate" = false ->
  Forall passesOn rest ->
  toString reason = Some errorMsg ->
  (ch_world (fold_left then_ ((onFulfilled, reportError message) :: rest)
               (mkChain w Pending (Rejected reason))),
   ch_deferred (fold_left then_ ((onFulfilled, reportError message) :: rest)
                  (mkChain w Pending (Rejected reason))))
  = (w, Rejected (VString errorMsg)).
Proof.
  intros Hm Hrest Hmsg. cbn [fold_left].
  assert (Hstep : then_ (mkChain w Pending (Rejected reason))
                    (onFulfilled, reportError message)
                  = mkChain w (Rejected (VString errorMsg))
                      (Rejected reason)).
  { unfold then_, reportError, safelyReject.
    cbn [ch_promise ch_world ch_deferred]. rewrite Hm, Hmsg. reflexivity. }
  rewrite Hstep.
  destruct (failed_chain_world rest Hrest
              (mkChain w (Rejected (VString errorMsg)) (Rejected reason))
              reason eq_refl) as [Hw Hd].
  cbn [ch_world ch_deferred] in Hw, Hd.
  rewrite Hw, Hd by discriminate. reflexivity.
Qed.

Lemma updateFirmware_chain (polls : nat) (dev : Handle)
  (firmwareFileLocation : string) (connection : option Z) (w : World Ext) :
  updateFirmware drv dc polls dev firmwareFileLocation connection w
  = (ch_world
       (fold_left then_ (pipeline drv dc polls dev connection)
          (mkChain (fst (readFirmwareFile drv firmwareFileLocation w)) Pending
             (snd (readFirmwareFile drv firmwareFileLocation w)))),
     ch_deferred
       (fold_left then_ (pipeline drv dc polls dev connection)
          (mkChain (fst (readFirmwareFile drv firmwareFileLocation w)) Pending
             (snd (readFirmwareFile drv firmwareFileLocation w))))).
Proof. reflexivity. Qed.

Lemma chain_stage
  (f : DeviceFirmwareBundle -> World Ext -> World Ext * Outcome)
  (g : @Handler Ext) (rest : list (@Handler Ext * @Handler Ext))
  (w : World Ext) (d : Outcome) (b : DeviceFirmwareBundle) :
  fold_left then_ ((stage f, g) :: rest)
    (mkChain w d (Fulfilled (VBundle b)))
  = fold_left then_ rest
      (mkChain (fst (f b w)) d (asPromise (snd (f b w)))).
Proof.
  cbn [fold_left]. f_equal. unfold then_, stage.
  cbn [ch_promise ch_world ch_deferred]. destruct (f b w). reflexivity.
Qed.

(** X11.  When the firmware file cannot be read, or the serial number of
    the device cannot, updateFirmware rejects with the message of that
    failure and does nothing else: no progress is reported and no call is
    made to the device. *)
Theorem updateFirmware_unreadable_inputs (polls : nat) (dev : Handle)
  (firmwareFileLocation : string) (connection : option Z) (w : World Ext) :
  (forall e errorMsg,
      drv_readFirmwareFile drv firmwareFileLocation (ext w)
      = (e, inl errorMsg) ->
      updateFirmware drv dc polls dev firmwareFileLocation connection w
      = (withExt w e, Rejected (VString errorMsg)))
  /\ (forall e1 file e2 errorMsg,
        drv_readFirmwareFile drv firmwareFileLocation (ext w)
        = (e1, inr file) ->
        drv_readSerialSync drv dev e1 = (e2, inl errorMsg) ->
        updateFirmware drv dc polls dev firmwareFileLocation connection w
        = (withExt w e2, Rejected (VString errorMsg))).
Proof.
  split.
  - intros e errorMsg Hfile. rewrite updateFirmware_chain.
    unfold readFirmwareFile. rewrite Hfile. rewrite fst_pair, snd_pair.
    unfold pipeline, reject.
    apply failed_chain_message; [reflexivity | passing | reflexivity].
  - intros e1 file e2 errorMsg Hfile Hserial.
    assert (Hstep :
              fold_left then_ (pipeline drv dc polls dev connection)
                (mkChain (fst (readFirmwareFile drv firmwareFileLocation w))
                   Pending (snd (readFirmwareFile drv firmwareFileLocation w)))
              = fold_left then_
                  (skipn 1 (pipeline drv dc polls dev connection))
                  (mkChain (withExt w e2) Pending
                     (Rejected (VString errorMsg)))).
    { unfold readFirmwareFile. rewrite Hfile. rewrite fst_pair, snd_pair.
      unfold pipeline, injectDevice, resolve. cbn [skipn].
      rewrite chain_stage. cbv beta. cbn [withExt ext]. rewrite Hserial.
      reflexivity. }
    rewrite updateFirmware_chain, Hstep. unfold pipeline. cbn [skipn].
    apply failed_chain_message; [reflexivity | passing | reflexivity].
Qed.

(** X12.  An image that checkCompatibility refuses is never written: when
    the file and the serial number are read and the header code, the
    intended device or the contained version of the file is not right,
    updateFirmware rejects with the text of the compatibility error, and
    it has reported no progress, erased no page and sent no frame. *)
Theorem updateFirmware_rejects_incompatible_image (polls : nat)
  (dev : Handle) (firmwareFileLocation : string) (connection : option Z)
  (w : World Ext) (e1 e2 : Ext) (file : FirmwareFile) (s : Z)
  (error : Value) :
  drv_readFirmwareFile drv firmwareFileLocation (ext w) = (e1, inr file) ->
  drv_readSerialSync drv dev e1 = (e2, inr s) ->
  checkCompatibility dc (injected file dev s connection) = Rejected error ->
  exists errorMsg,
    toString error = Some errorMsg
    /\ In error [invalidHeaderCode; incorrectDeviceType; incorrectVersion]
    /\ updateFirmware drv dc polls dev firmwareFileLocation connection w
       = (withExt w e2, Rejected (VString errorMsg)).
Proof.
  intros Hfile Hserial Hcompat.
  assert (Herr : In error
                   [invalidHeaderCode; incorrectDeviceType; incorrectVersion]).
  { unfold checkCompatibility in Hcompat.
    destruct (_ && _); [discriminate|].
    destruct (negb _); [injection Hcompat as <-; now left|].
    destruct (negb _); injection Hcompat as <-;
      [right; now left | right; right; now left]. }
  assert (Hmsg : exists errorMsg, toString error = Some errorMsg).
  { destruct Herr as [<-|[<-|[<-|[]]]]; eexists; reflexivity. }
  destruct Hmsg as [errorMsg Hmsg]. exists errorMsg.
  split; [exact Hmsg|]. split; [exact Herr|].
  assert (Hstep :
            fold_left then_ (pipeline drv dc polls dev connection)
              (mkChain (fst (readFirmwareFile drv firmwareFileLocation w))
                 Pending (snd (readFirmwareFile drv firmwareFileLocation w)))
            = fold_left then_
                (skipn 2 (pipeline drv dc polls dev connection))
                (mkChain (withExt w e2) Pending (Rejected error))).
  { unfold readFirmwareFile. rewrite Hfile. rewrite fst_pair, snd_pair.
    unfold pipeline, injectDevice, resolve. cbn [skipn].
    rewrite chain_stage. cbv beta. cbn [withExt ext]. rewrite Hserial.
    cbv beta iota. rewrite fst_pair, snd_pair. cbn [asPromise].
    rewrite chain_stage. cbv beta. rewrite fst_pair, snd_pair.
    change (setDevice _ dev) with (injected file dev s connection).
    rewrite Hcompat. reflexivity. }
  rewrite updateFirmware_chain, Hstep. unfold pipeline. cbn [skipn].
  apply failed_chain_message; [reflexivity | passing | exact Hmsg].
Qed.

End Failures.

(** A file for another device, on the simulated device: rejected with
    'Error: Incorrect device type.', nothing done. *)
Lemma updateFirmware_rejects_incompatible_image_witness :
  exists errorMsg,
    toString incorrectDeviceType = Some errorMsg
    /\ In incorrectDeviceType
         [invalidHeaderCode; incorrectDeviceType; incorrectVersion]
    /\ updateFirmware (Faulty.driver foreignFirmware) Sim.consts 5 1%nat
         Sim.fileName (Some 1) (initialWorld (Faulty.refusingAfter 0))
       = (withExt (initialWorld (Faulty.refusingAfter 0))
            (Faulty.refusingAfter 0),
          Rejected (VString errorMsg)).
Proof.
  apply (updateFirmware_rejects_incompatible_image
           (Faulty.driver foreignFirmware) Sim.consts 5 1%nat Sim.fileName
           (Some 1) (initialWorld (Faulty.refusingAfter 0))
           (Faulty.refusingAfter 0) (Faulty.refusingAfter 0) foreignFirmware
           Sim.serialNumber incorrectDeviceType);
    reflexivity.
Defined.

(** ** What each step adds to the trace *)

Section Adds.

Context {Ext : Type}.
Variable drv : Driver Ext.
Variable dc : DriverConst.

Lemma adds_refl (sel : Event -> bool) (w w' : World Ext) :
  trace w' = trace w -> adds sel w w'.
Proof. intros H. exists []. rewrite H, app_nil_r. now split. Qed.

Lemma adds_trans (sel : Event -> bool) (w1 w2 w3 : World Ext) :
  adds sel w1 w2 -> adds sel w2 w3 -> adds sel w1 w3.
Proof.
  intros [evs1 [H1 Hs1]] [evs2 [H2 Hs2]]. exists (evs1 ++ evs2).
  rewrite H2, H1, <- app_assoc, forallb_app, Hs1, Hs2. now split.
Qed.

Lemma adds_emit (sel : Event -> bool) (w : World Ext) (ev : Event) :
  sel ev = true -> adds sel w (emit w ev).
Proof. intros H. exists [ev]. cbn. now rewrite H. Qed.

Lemma adds_any (sel : Event -> bool) (w w' : World Ext) :
  adds sel w w' -> adds anyEvent w w'.
Proof.
  intros [evs [H _]]. exists evs. split; [exact H|].
  apply forallb_forall. reflexivity.
Qed.

Lemma erasePages_adds (h : Handle) (startAddress key : Z) (pages : list Z) :
  forall w,
    adds flashEvent w (fst (erasePages drv dc h startAddress key pages w)).
Proof.
  induction pages as [|page pages IH]; intros w; [now apply adds_refl|].
  cbn [erasePages].
  destruct (drv_writeMany drv h _ _ (ext w)) as [e [err|]].
  - cbn [fst]. apply (adds_trans _ _ (withExt w e)); [now apply adds_refl|].
    now apply adds_emit.
  - eapply adds_trans; [|apply IH].
    apply (adds_trans _ _ (withExt w e)); [now apply adds_refl|].
    now apply adds_emit.
Qed.

Lemma eraseFlash_adds (b : DeviceFirmwareBundle)
  (startAddress numPages key : Z) (w : World Ext) :
  adds flashEvent w (fst (eraseFlash drv dc b startAddress numPages key w)).
Proof.
  unfold eraseFlash. destruct (range numPages) as [|page pages];
    [now apply adds_refl|].
  destruct (device b) as [h|]; [|now apply adds_refl].
  pose proof (erasePages_adds h startAddress key (page :: pages) w) as H.
  destruct (erasePages _ _ _ _ _ _ _) as [w' [err|]]; exact H.
Qed.

Lemma eraseImage_adds (b : DeviceFirmwareBundle) (w : World Ext) :
  adds flashEvent w (fst (eraseImage drv dc b w)).
Proof.
  unfold eraseImage.
  pose proof (eraseFlash_adds b (T7_EFAdd_ExtFirmwareImage dc)
                (T7_IMG_FLASH_PAGE_ERASE dc) (T7_EFkey_ExtFirmwareImage dc) w)
    as H.
  destruct (eraseFlash _ _ _ _ _ _ _) as [w' o]. exact H.
Qed.

Lemma eraseImageInformation_adds (b : DeviceFirmwareBundle) (w : World Ext) :
  adds flashEvent w (fst (eraseImageInformation drv dc b w)).
Proof.
  unfold eraseImageInformation.
  pose proof (eraseFlash_adds b (T7_EFAdd_ExtFirmwareImgInfo dc)
                (T7_HDR_FLASH_PAGE_ERASE dc)
                (T7_EFkey_ExtFirmwareImgInfo dc) w) as H.
  destruct (eraseFlash _ _ _ _ _ _ _) as [w' o]. exact H.
Qed.

Lemma updateProgressScaled_adds (value : Z) (w : World Ext) :
  adds flashEvent w (updateProgressScaled value w).
Proof.
  unfold updateProgressScaled. destruct (shouldUpdateProgressBar w).
  - now apply adds_emit.
  - now apply adds_refl.
Qed.

Lemma reduceOperations_adds (dev : option Handle)
  (ptrAddress flashAddress sizeInts : Z) (isReadOp : bool) (key : option Z)
  (ops : list Execution) :
  forall lastMemoryResult numIntsWritten w,
    adds flashEvent w
      (fst (reduceOperations drv dc dev ptrAddress flashAddress sizeInts
              isReadOp key ops lastMemoryResult numIntsWritten w)).
Proof.
  induction ops as [|op ops IH]; intros memo n w; [now apply adds_refl|].
  cbn [reduceOperations].
  eapply adds_trans; [apply (updateProgressScaled_adds (n + sizeInts))|].
  set (w1 := updateProgressScaled (n + sizeInts) w).
  unfold runExecution. destruct dev as [h|]; [|now apply adds_refl].
  destruct (drv_rwMany drv h _ (ext w1)) as [e [msg|res]].
  - cbn [fst]. apply (adds_trans _ _ (withExt w1 e));
      [now apply adds_refl | now apply adds_emit].
  - cbn [resolve]. eapply adds_trans; [|apply IH].
    apply (adds_trans _ _ (withExt w1 e));
      [now apply adds_refl | now apply adds_emit].
Qed.

Lemma createFlashOperation_adds (b : DeviceFirmwareBundle)
  (startAddress lengthInts sizeInts ptrAddress flashAddress : Z)
  (isReadOp : bool) (key : option Z) (data : option Buffer.t)
  (w : World Ext) :
  adds flashEvent w
    (fst (createFlashOperation drv dc b startAddress lengthInts sizeInts
            ptrAddress flashAddress isReadOp key data w)).
Proof.
  unfold createFlashOperation.
  destruct (executeOperations _ _ _ _ _) as [ops|]; [|now apply adds_refl].
  pose proof (reduceOperations_adds (device b) ptrAddress flashAddress
                sizeInts isReadOp key ops [] 0 w) as H.
  destruct (reduceOperations _ _ _ _ _ _ _ _ _ _ _ _) as [w' [v|err| |e]];
    exact H.
Qed.

Lemma afterWrite_adds (b : DeviceFirmwareBundle) (w : World Ext)
  (r : World Ext * Outcome) :
  adds flashEvent w (fst r) -> adds flashEvent w (fst (afterWrite b r)).
Proof.
  intros H. unfold afterWrite. destruct r as [w' [v|err| |e]]; cbn [fst] in *;
    try exact H;
    (eapply adds_trans; [exact H | now apply adds_refl]).
Qed.

Lemma writeImage_adds (minPercent maxPercent : Q)
  (b : DeviceFirmwareBundle) (w : World Ext) :
  adds flashEvent w (fst (writeImage drv dc minPercent maxPercent b w)).
Proof.
  unfold writeImage, writeFlash. apply afterWrite_adds.
  eapply adds_trans; [|apply createFlashOperation_adds].
  now apply adds_refl.
Qed.

Lemma writeImageInformation_adds (minPercent maxPercent : Q)
  (b : DeviceFirmwareBundle) (w : World Ext) :
  adds flashEvent w
    (fst (writeImageInformation drv dc minPercent maxPercent b w)).
Proof.
  unfold writeImageInformation, writeFlash. apply afterWrite_adds.
  eapply adds_trans; [|apply createFlashOperation_adds].
  now apply adds_refl.
Qed.

Lemma restartAndUpgrade_adds (b : DeviceFirmwareBundle) (w : World Ext) :
  adds anyEvent w (fst (restartAndUpgrade drv dc b w)).
Proof.
  unfold restartAndUpgrade. destruct (device b) as [h|];
    [|now apply adds_refl].
  destruct (drv_write drv h _ _ (ext w)) as [e [err|]]; cbn [fst];
    (apply (adds_trans _ _ (withExt w e));
     [now apply adds_refl | now apply adds_emit]).
Qed.

Lemma closeDevice_adds (b : DeviceFirmwareBundle) (w : World Ext) :
  adds anyEvent w (fst (closeDevice drv b w)).
Proof.
  unfold closeDevice. destruct (device b) as [h|]; [|now apply adds_refl].
  destruct (drv_close drv h (ext w)) as [e [err|]]; cbn [fst];
    (apply (adds_trans _ _ (withExt w e));
     [now apply adds_refl | now apply adds_emit]).
Qed.

Lemma pauseForClose_adds (b : DeviceFirmwareBundle) (w : World Ext) :
  adds anyEvent w (fst (pauseForClose b w)).
Proof. unfold pauseForClose. cbn [fst]. now apply adds_emit. Qed.

Lemma checkForDevice_adds (b : DeviceFirmwareBundle) (s : Z) (polls : nat) :
  forall w, adds anyEvent w (fst (checkForDevice drv polls b s w)).
Proof.
  induction polls as [|polls IH]; intros w; [now apply adds_refl|].
  cbn [checkForDevice].
  destruct (drv_listAll drv (connectionType b) (ext w)) as [e1 [m|l]].
  - cbn [fst]. apply (adds_trans _ _ (withExt w e1));
      [now apply adds_refl | now apply adds_emit].
  - assert (H1 : adds anyEvent w
                   (emit (withExt w e1) (EvListAll (connectionType b))))
      by (apply (adds_trans _ _ (withExt w e1));
          [now apply adds_refl | now apply adds_emit]).
    destruct (existsb (Z.eqb s) l).
    + cbn [emit withExt ext].
      destruct (drv_open drv (connectionType b) s e1) as [e2 [m|h]].
      * eapply adds_trans; [|apply IH].
        eapply adds_trans; [exact H1|].
        eapply adds_trans; [|now apply adds_emit].
        eapply adds_trans; [|now apply adds_emit].
        now apply adds_refl.
      * cbn [fst]. eapply adds_trans; [exact H1|].
        eapply adds_trans; [|now apply adds_emit].
        now apply adds_refl.
    + eapply adds_trans; [|apply IH].
      eapply adds_trans; [exact H1|]. now apply adds_emit.
Qed.

Lemma waitForEnumeration_adds (polls : nat) (b : DeviceFirmwareBundle)
  (w : World Ext) :
  adds anyEvent w (fst (waitForEnumeration drv polls b w)).
Proof.
  unfold waitForEnumeration. destruct (serial b) as [s|];
    [|now apply adds_refl].
  eapply adds_trans; [|apply checkForDevice_adds]. now apply adds_emit.
Qed.

Lemma checkNewFirmware_adds (b : DeviceFirmwareBundle) (w : World Ext) :
  adds anyEvent w (fst (checkNewFirmware drv b w)).
Proof.
  unfold checkNewFirmware. destruct (device b) as [h|];
    [|now apply adds_refl].
  destruct (drv_readFirmwareVersion drv h (ext w)) as [e [m|reported]].
  - cbn [fst]. apply (adds_trans _ _ (withExt w e));
      [now apply adds_refl | now apply adds_emit].
  - destruct (Double.ltb _ _); cbn [fst];
      (apply (adds_trans _ _ (withExt w e));
       [now apply adds_refl | now apply adds_emit]).
Qed.

(** Handlers *)

Lemma stage_adds (sel : Event -> bool)
  (f : DeviceFirmwareBundle -> World Ext -> World Ext * Outcome) :
  (forall b w, adds sel w (fst (f b w))) -> handlerAdds sel (stage f).
Proof.
  intros H v w d. unfold stage. destruct v as [|b| | |];
    try (now apply adds_refl).
  specialize (H b w). destruct (f b w) as [w' o]. exact H.
Qed.

Lemma injectDevice_adds (sel : Event -> bool) (dev : Handle)
  (connection : option Z) :
  handlerAdds sel (injectDevice drv dev connection).
Proof.
  unfold injectDevice. apply stage_adds. intros b w.
  destruct (drv_readSerialSync drv dev (ext w)) as [e [m|s]];
    now apply adds_refl.
Qed.

Lemma reportError_adds (sel : Event -> bool) (message : string) :
  handlerAdds sel (@reportError Ext message).
Proof.
  intros v w d. unfold reportError.
  destruct (String.eqb message "finishingUpdate"); [now apply adds_refl|].
  destruct (safelyReject d v); now apply adds_refl.
Qed.

Lemma forceClose_adds (sel : Event -> bool) :
  handlerAdds sel (asHandler (@forceClose Ext)).
Proof. intros v w d. now apply adds_refl. Qed.

Lemma updateProgress_adds (sel : Event -> bool) (value : Q) :
  sel (EvUpdate value) = true -> handlerAdds sel (@updateProgress Ext value).
Proof. intros H v w d. now apply adds_emit. Qed.

Lemma updateStatusText_adds (sel : Event -> bool) (value : string) :
  sel (EvStatusText value) = true ->
  handlerAdds sel (@updateStatusText Ext value).
Proof. intros H v w d. now apply adds_emit. Qed.

Lemma resolveDeferred_adds (sel : Event -> bool) :
  handlerAdds sel (@resolveDeferred Ext).
Proof. intros v w d. now apply adds_refl. Qed.

(** The steps of a chain add to the trace one after the other. *)
Lemma chain_adds (sel : Event -> bool)
  (steps : list (@Handler Ext * @Handler Ext)) :
  Forall (fun hs => handlerAdds sel (fst hs) /\ handlerAdds sel (snd hs))
    steps ->
  forall c, adds sel (ch_world c) (ch_world (fold_left then_ steps c)).
Proof.
  induction 1 as [|hs steps [Hf Hg] _ IH]; intros c;
    [now apply adds_refl|].
  cbn [fold_left]. eapply adds_trans; [|apply IH].
  unfold then_. destruct hs as [f g]. cbn [fst snd] in Hf, Hg.
  destruct (ch_promise c) as [v|reason| |e].
  - specialize (Hf v (ch_world c) (ch_deferred c)).
    destruct (f v _ _) as [[w' d'] o]. exact Hf.
  - specialize (Hg reason (ch_world c) (ch_deferred c)).
    destruct (g reason _ _) as [[w' d'] o]. exact Hg.
  - now apply adds_refl.
  - now apply adds_refl.
Qed.

End Adds.

(** ** The run up to the request to reboot *)

Section Run.

Context {Ext : Type}.
Variable drv : Driver Ext.
Variable dc : DriverConst.

(** *** Calls that the driver carries out *)

Lemma carriedOut_app (evs1 evs2 : list Event) :
  forall e,
    carriedOut drv (evs1 ++ evs2) e
    = match carriedOut drv evs1 e with
      | Some e' => carriedOut drv evs2 e'
      | None => None
      end.
Proof.
  induction evs1 as [|ev evs1 IH]; intros e; [reflexivity|].
  cbn [app carriedOut]. destruct ev; try apply IH.
  - destruct (drv_rwMany drv h f e) as [e' [m|r]]; [reflexivity | apply IH].
  - destruct (drv_writeMany drv h addrs vals e) as [e' [m|]];
      [reflexivity | apply IH].
  - destruct (drv_write drv h address value e) as [e' [m|]];
      [reflexivity | apply IH].
  - destruct (drv_close drv h e) as [e' [m|]]; [reflexivity | apply IH].
  - destruct (drv_readFirmwareVersion drv h e) as [e' [m|r]];
      [reflexivity | apply IH].
  - destruct (drv_listAll drv connection e) as [e' [m|r]];
      [reflexivity | apply IH].
  - destruct (drv_open drv connection identifier e) as [e' [m|r]];
      [reflexivity | apply IH].
Qed.

Lemma carries_refl (w : World Ext) : carries drv w w [].
Proof. split; [now rewrite app_nil_r | reflexivity]. Qed.

Lemma carries_trans (w w1 w2 : World Ext) (evs1 evs2 : list Event) :
  carries drv w w1 evs1 -> carries drv w1 w2 evs2 ->
  carries drv w w2 (evs1 ++ evs2).
Proof.
  intros [Ht1 Hc1] [Ht2 Hc2]. split.
  - now rewrite Ht2, Ht1, app_assoc.
  - now rewrite carriedOut_app, Hc1.
Qed.

Lemma carries_update (w : World Ext) (percent : Q) :
  carries drv w (emit w (EvUpdate percent)) [EvUpdate percent].
Proof. now split. Qed.

Lemma carries_statusText (w : World Ext) (text : string) :
  carries drv w (emit w (EvStatusText text)) [EvStatusText text].
Proof. now split. Qed.

Lemma carries_setTimeout (w : World Ext) (ms : Z) :
  carries drv w (emit w (EvSetTimeout ms)) [EvSetTimeout ms].
Proof. now split. Qed.

(** *** What a stage that resolves has done *)

Lemma settleWith_fulfilled_inv (b : DeviceFirmwareBundle) (o : Outcome)
  (v : Value) :
  settleWith b o = Fulfilled v -> exists v0, o = Fulfilled v0.
Proof.
  destruct o as [v0|err| |e]; cbn; try discriminate.
  - intros _. now exists v0.
  - unfold safelyReject. destruct (toString err); discriminate.
Qed.

Lemma erasePages_carried (h : Handle) (startAddress key : Z)
  (pages : list Z) :
  forall w,
    snd (erasePages drv dc h startAddress key pages w) = None ->
    carries drv w (fst (erasePages drv dc h startAddress key pages w))
      (eraseCalls dc h startAddress key pages).
Proof.
  induction pages as [|page pages IH]; intros w;
    [intros _; apply carries_refl|].
  cbn [erasePages].
  destruct (drv_writeMany drv h _ _ (ext w)) as [e [err|]] eqn:Hcall;
    [discriminate|].
  intros Hnone.
  match goal with
  | |- context [erasePages drv dc h startAddress key pages ?w0] =>
      destruct (IH w0 Hnone) as [Htr Hco]
  end.
  cbn [emit withExt trace ext] in Htr, Hco. split.
  - rewrite Htr. cbn [eraseCalls map]. rewrite <- app_assoc. reflexivity.
  - cbn [eraseCalls map carriedOut]. unfold eraseCall at 1.
    rewrite Hcall. exact Hco.
Qed.

(** An erase that resolves has erased every page. *)
Lemma eraseFlash_fulfilled (b : DeviceFirmwareBundle) (h : Handle)
  (startAddress numPages key : Z) (w : World Ext) (v : Value) :
  device b = Some h ->
  snd (eraseFlash drv dc b startAddress numPages key w) = Fulfilled v ->
  carries drv w (fst (eraseFlash drv dc b startAddress numPages key w))
    (eraseCalls dc h startAddress key (range numPages)).
Proof.
  intros Hdev. unfold eraseFlash. rewrite Hdev.
  destruct (range numPages) as [|page pages] eqn:Hpages.
  - intros _. apply carries_refl.
  - pose proof (erasePages_carried h startAddress key (page :: pages) w)
      as Hco.
    destruct (erasePages drv dc h startAddress key (page :: pages) w)
      as [w' [err|]]; cbn [fst snd] in *; [discriminate|].
    intros _. now apply Hco.
Qed.

Lemma eraseImage_fulfilled (b : DeviceFirmwareBundle) (h : Handle)
  (w : World Ext) (v : Value) :
  device b = Some h ->
  snd (eraseImage drv dc b w) = Fulfilled v ->
  v = VBundle b
  /\ carries drv w (fst (eraseImage drv dc b w))
       (eraseCalls dc h (T7_EFAdd_ExtFirmwareImage dc)
          (T7_EFkey_ExtFirmwareImage dc)
          (range (T7_IMG_FLASH_PAGE_ERASE dc))).
Proof.
  intros Hdev. unfold eraseImage.
  pose proof (eraseFlash_fulfilled b h (T7_EFAdd_ExtFirmwareImage dc)
                (T7_IMG_FLASH_PAGE_ERASE dc) (T7_EFkey_ExtFirmwareImage dc) w)
    as Htr.
  destruct (eraseFlash _ _ _ _ _ _ _) as [w' o]. cbn [fst snd] in *.
  intros Hv. split; [now apply (settleWith_fulfilled b o)|].
  destruct (settleWith_fulfilled_inv b o v Hv) as [v0 ->].
  now apply (Htr v0).
Qed.

Lemma eraseImageInformation_fulfilled (b : DeviceFirmwareBundle) (h : Handle)
  (w : World Ext) (v : Value) :
  device b = Some h ->
  snd (eraseImageInformation drv dc b w) = Fulfilled v ->
  v = VBundle b
  /\ carries drv w (fst (eraseImageInformation drv dc b w))
       (eraseCalls dc h (T7_EFAdd_ExtFirmwareImgInfo dc)
          (T7_EFkey_ExtFirmwareImgInfo dc)
          (range (T7_HDR_FLASH_PAGE_ERASE dc))).
Proof.
  intros Hdev. unfold eraseImageInformation.
  pose proof (eraseFlash_fulfilled b h (T7_EFAdd_ExtFirmwareImgInfo dc)
                (T7_HDR_FLASH_PAGE_ERASE dc)
                (T7_EFkey_ExtFirmwareImgInfo dc) w) as Htr.
  destruct (eraseFlash _ _ _ _ _ _ _) as [w' o]. cbn [fst snd] in *.
  intros Hv. split; [now apply (settleWith_fulfilled b o)|].
  destruct (settleWith_fulfilled_inv b o v Hv) as [v0 ->].
  now apply (Htr v0).
Qed.

(** A reduction that ends fulfilled has sent every frame, and the device
    has carried out every one. *)
Lemma reduceOperations_carried (h : Handle)
  (ptrAddress flashAddress sizeInts : Z) (isReadOp : bool) (key : option Z)
  (ops : list Execution) :
  forall lastMemoryResult numIntsWritten w v,
    snd (reduceOperations drv dc (Some h) ptrAddress flashAddress sizeInts
           isReadOp key ops lastMemoryResult numIntsWritten w)
    = Fulfilled v ->
    carries drv w
      (fst (reduceOperations drv dc (Some h) ptrAddress flashAddress
              sizeInts isReadOp key ops lastMemoryResult numIntsWritten w))
      (chunkEvents (shouldUpdateProgressBar w) (curScaling w) (curOffset w)
         sizeInts h numIntsWritten
         (map (frameOf dc ptrAddress flashAddress isReadOp key) ops)).
Proof.
  induction ops as [|op ops IH]; intros memo n w v.
  - intros _. apply carries_refl.
  - cbn [reduceOperations runExecution].
    set (w1 := updateProgressScaled (n + sizeInts) w).
    set (f := frameOf dc ptrAddress flashAddress isReadOp key op).
    assert (Hw1 : trace w1
                  = trace w
                    ++ (if shouldUpdateProgressBar w
                        then [EvUpdate (curScaling w * inject_Z (n + sizeInts)
                                        + curOffset w)%Q]
                        else [])
                  /\ ext w1 = ext w
                  /\ shouldUpdateProgressBar w1 = shouldUpdateProgressBar w
                  /\ curScaling w1 = curScaling w
                  /\ curOffset w1 = curOffset w).
    { subst w1. unfold updateProgressScaled.
      destruct (shouldUpdateProgressBar w) eqn:Eflag.
      - cbn. now rewrite Eflag.
      - rewrite app_nil_r. now rewrite Eflag. }
    destruct Hw1 as [Htr1 [Hext1 [Hflag1 [Hsc1 Hoff1]]]].
    destruct (drv_rwMany drv h f (ext w1)) as [e [msg|res]] eqn:Hcall;
      [discriminate|].
    cbn [resolve]. intros Hv.
    match goal with
    | |- context [reduceOperations drv dc (Some h) ptrAddress flashAddress
                    sizeInts isReadOp key ops ?m ?k ?w0] =>
        destruct (IH m k w0 v Hv) as [Htr Hco]
    end.
    cbn [emit withExt trace ext shouldUpdateProgressBar curScaling curOffset]
      in Htr, Hco.
    rewrite Hflag1, Hsc1, Hoff1 in Htr, Hco. rewrite Hext1 in Hcall.
    cbn [map chunkEvents]. fold f. split.
    + rewrite Htr, Htr1, <- !app_assoc. reflexivity.
    + rewrite carriedOut_app.
      assert (Hsilent :
                carriedOut drv
                  (if shouldUpdateProgressBar w
                   then [EvUpdate
                           (curScaling w * inject_Z (n + sizeInts)
                            + curOffset w)%Q]
                   else []) (ext w) = Some (ext w))
        by (destruct (shouldUpdateProgressBar w); reflexivity).
      rewrite Hsilent. cbn [carriedOut]. rewrite Hcall. exact Hco.
Qed.

(** A write that resolves has sent every frame of its plan. *)
Lemma writeFlash_fulfilled (b : DeviceFirmwareBundle) (h : Handle)
  (startAddress length size key : Z) (data : Buffer.t) (w : World Ext)
  (v : Value) :
  device b = Some h ->
  snd (writeFlash drv dc b startAddress length size key data w)
  = Fulfilled v ->
  exists ops,
    executeOperations startAddress length size false (Some data) = Some ops
    /\ carries drv w
         (fst (writeFlash drv dc b startAddress length size key data w))
         (chunkEvents (shouldUpdateProgressBar w) (curScaling w)
            (curOffset w) size h 0 (writeFrames dc key ops)).
Proof.
  intros Hdev. unfold writeFlash, createFlashOperation. rewrite Hdev.
  destruct (executeOperations startAddress length size false (Some data))
    as [ops|]; [|discriminate].
  pose proof (reduceOperations_carried h (T7_MA_EXF_pWRITE dc)
                (T7_MA_EXF_WRITE dc) size false (Some key) ops [] 0 w)
    as Hco.
  destruct (reduceOperations _ _ _ _ _ _ _ _ _ _ _ _) as [w' o].
  cbn [fst snd] in *. intros Hv. exists ops. split; [reflexivity|].
  destruct o as [v0|err| |e]; cbn [fst snd] in *.
  - now apply (Hco v0).
  - unfold safelyReject in Hv. destruct (toString err); discriminate.
  - discriminate.
  - discriminate.
Qed.

Lemma afterWrite_fulfilled (b : DeviceFirmwareBundle)
  (r : World Ext * Outcome) (v : Value) :
  snd (afterWrite b r) = Fulfilled v ->
  v = VBundle b
  /\ (exists v0, snd r = Fulfilled v0)
  /\ trace (fst (afterWrite b r)) = trace (fst r)
  /\ ext (fst (afterWrite b r)) = ext (fst r)
  /\ shouldUpdateProgressBar (fst (afterWrite b r)) = false.
Proof.
  unfold afterWrite. destruct r as [w' [v0|err| |e]]; cbn [fst snd];
    try discriminate.
  - cbn [settleWith resolve]. intros [= <-]. repeat split. now exists v0.
  - cbn [settleWith]. unfold safelyReject.
    destruct (toString err); discriminate.
Qed.

Lemma writeImage_fulfilled (minPercent maxPercent : Q)
  (b : DeviceFirmwareBundle) (h : Handle) (w : World Ext) (v : Value) :
  device b = Some h ->
  snd (writeImage drv dc minPercent maxPercent b w) = Fulfilled v ->
  exists ops percents,
    executeOperations (T7_EFAdd_ExtFirmwareImage dc)
      (Z.of_nat (List.length (firmwareImage b)) / 4)
      (T7_FLASH_BLOCK_WRITE_SIZE dc) false (Some (firmwareImage b))
    = Some ops
    /\ List.length percents = List.length ops
    /\ v = VBundle b
    /\ shouldUpdateProgressBar
         (fst (writeImage drv dc minPercent maxPercent b w)) = false
    /\ carries drv w (fst (writeImage drv dc minPercent maxPercent b w))
         (reportedFrames h percents
            (writeFrames dc (T7_EFkey_ExtFirmwareImage dc) ops)).
Proof.
  intros Hdev Hv. unfold writeImage in *.
  destruct (afterWrite_fulfilled b _ v Hv)
    as [-> [[v0 Hv0] [Htr [Hext Hflag]]]].
  destruct (writeFlash_fulfilled b h _ _ _ _ _ _ v0 Hdev Hv0)
    as [ops [Hops [Htr0 Hco0]]].
  cbn [setScaling setShouldUpdateProgressBar shouldUpdateProgressBar trace
         ext curScaling curOffset] in Htr0, Hco0.
  rewrite chunkEvents_reported in Htr0, Hco0.
  match type of Htr0 with
  | context [reportedFrames h ?percents _] => exists ops, percents
  end.
  split; [exact Hops|].
  split; [|split; [reflexivity|split; [exact Hflag|]]].
  - rewrite chunkPercents_length. unfold writeFrames. apply length_map.
  - split; [now rewrite Htr, Htr0 | now rewrite Hext, Hco0].
Qed.

Lemma writeImageInformation_carried (minPercent maxPercent : Q)
  (b : DeviceFirmwareBundle) (h : Handle) (w : World Ext) (v : Value) :
  device b = Some h ->
  shouldUpdateProgressBar w = false ->
  snd (writeImageInformation drv dc minPercent maxPercent b w)
  = Fulfilled v ->
  exists ops,
    executeOperations (T7_EFAdd_ExtFirmwareImgInfo dc)
      (Z.of_nat
         (List.length (rawImageInfo (firmwareImageInformation b))) / 4)
      (T7_FLASH_BLOCK_WRITE_SIZE dc) false
      (Some (rawImageInfo (firmwareImageInformation b)))
    = Some ops
    /\ v = VBundle b
    /\ carries drv w
         (fst (writeImageInformation drv dc minPercent maxPercent b w))
         (map (EvRwMany h)
            (writeFrames dc (T7_EFkey_ExtFirmwareImgInfo dc) ops)).
Proof.
  intros Hdev Hoff Hv. unfold writeImageInformation in *.
  destruct (afterWrite_fulfilled b _ v Hv) as [-> [[v0 Hv0] [Htr [Hext _]]]].
  destruct (writeFlash_fulfilled b h _ _ _ _ _ _ v0 Hdev Hv0)
    as [ops [Hops [Htr0 Hco0]]].
  cbn [setScaling shouldUpdateProgressBar trace ext curScaling curOffset]
    in Htr0, Hco0.
  rewrite Hoff, chunkEvents_silent in Htr0, Hco0.
  exists ops. split; [exact Hops|]. split; [reflexivity|].
  split; [now rewrite Htr, Htr0 | now rewrite Hext, Hco0].
Qed.

Lemma restartAndUpgrade_trace (b : DeviceFirmwareBundle) (h : Handle)
  (w : World Ext) :
  device b = Some h ->
  trace (fst (restartAndUpgrade drv dc b w))
  = trace w ++ [upgradeRequest dc h]
  /\ forall v, snd (restartAndUpgrade drv dc b w) = Fulfilled v ->
               v = VBundle b.
Proof.
  intros Hdev. unfold restartAndUpgrade. rewrite Hdev.
  destruct (drv_write drv h _ _ (ext w)) as [e [err|]]; cbn [fst snd];
    (split; [reflexivity|]); [discriminate | now intros v [= <-]].
Qed.

Lemma restartAndUpgrade_fulfilled (b : DeviceFirmwareBundle) (h : Handle)
  (w : World Ext) (v : Value) :
  device b = Some h ->
  snd (restartAndUpgrade drv dc b w) = Fulfilled v ->
  v = VBundle b
  /\ carries drv w (fst (restartAndUpgrade drv dc b w))
       [upgradeRequest dc h].
Proof.
  intros Hdev. unfold restartAndUpgrade, carries. rewrite Hdev.
  cbn [carriedOut upgradeRequest].
  destruct (drv_write drv h _ _ (ext w)) as [e [err|]]; cbn [fst snd];
    [discriminate|]. intros [= <-]. now repeat split.
Qed.

Lemma closeDevice_fulfilled (b : DeviceFirmwareBundle) (h : Handle)
  (w : World Ext) (v : Value) :
  device b = Some h ->
  snd (closeDevice drv b w) = Fulfilled v ->
  v = VBundle b
  /\ carries drv w (fst (closeDevice drv b w)) [EvClose h].
Proof.
  intros Hdev. unfold closeDevice, carries. rewrite Hdev.
  cbn [carriedOut].
  destruct (drv_close drv h (ext w)) as [e [err|]]; cbn [fst snd];
    [discriminate|]. intros [= <-]. now repeat split.
Qed.

Lemma waitForEnumeration_fulfilled (polls : nat) (b : DeviceFirmwareBundle)
  (s : Z) (w : World Ext) (v : Value) :
  serial b = Some s ->
  snd (waitForEnumeration drv polls b w) = Fulfilled v ->
  exists (h : Handle) (unsuccessful : list Poll),
    v = VBundle (setDevice b h)
    /\ reopened drv (connectionType b) s unsuccessful (ext w) h
         (ext (fst (waitForEnumeration drv polls b w)))
    /\ trace (fst (waitForEnumeration drv polls b w))
       = trace w
         ++ [EvSetTimeout EXPECTED_REBOOT_WAIT]
         ++ flat_map (pollEvents (connectionType b) s) unsuccessful
         ++ [EvListAll (connectionType b); EvOpen (connectionType b) s].
Proof.
  intros Hs Hv.
  destruct (waitForEnumeration_polls drv b s polls w Hs)
    as [done [e' [_ [_ Hres]]]].
  rewrite Hv in Hres. destruct Hres as [h [_ [Hre [-> Htr]]]].
  now exists h, done.
Qed.

Lemma checkNewFirmware_fulfilled (b : DeviceFirmwareBundle) (h : Handle)
  (w : World Ext) (v : Value) :
  device b = Some h ->
  snd (checkNewFirmware drv b w) = Fulfilled v ->
  v = VBundle b
  /\ trace (fst (checkNewFirmware drv b w)) = trace w ++ [EvRead h]
  /\ exists reported,
       drv_readFirmwareVersion drv h (ext w)
       = (ext (fst (checkNewFirmware drv b w)), inr reported)
       /\ exceedsTolerance (version b) reported = false.
Proof.
  intros Hdev. unfold checkNewFirmware. rewrite Hdev.
  destruct (drv_readFirmwareVersion drv h (ext w)) as [e [m|reported]];
    cbn [fst snd]; [discriminate|].
  change (Double.ltb (Double.ofQ (1 # 10000))
            (Double.abs (Double.sub (version b) reported)))
    with (exceedsTolerance (version b) reported).
  destruct (exceedsTolerance (version b) reported) eqn:E;
    cbn [fst snd]; [discriminate|].
  intros [= <-]. split; [reflexivity|]. split; [reflexivity|].
  exists reported. split; [reflexivity | exact E].
Qed.

(** *** Chains whose promise is followed *)

Ltac rethrowing :=
  repeat first [ apply Forall_nil
               | apply Forall_cons;
                 [ first [ apply reportError_rethrows
                         | apply forceClose_rethrows ] | ] ].

Lemma failed_prefix_not_fulfilled
  (rest : list (@Handler Ext * @Handler Ext)) :
  Forall rethrows rest ->
  forall c,
    notFulfilled (ch_promise c) -> notFulfilled (ch_deferred c) ->
    notFulfilled (ch_promise (fold_left then_ rest c)).
Proof.
  induction 1 as [|hs rest Hhs _ IH]; intros c Hp Hd; [exact Hp|].
  cbn [fold_left]. apply IH.
  - unfold then_. destruct hs as [f g].
    destruct (ch_promise c) as [v|reason| |e] eqn:E; try contradiction.
    + destruct (Hhs reason (ch_world c) (ch_deferred c) Hd) as [_ H2].
      cbn [snd] in H2. destruct (g reason _ _) as [[w' d'] o]. exact H2.
    + now rewrite E.
    + now rewrite E.
  - unfold then_. destruct hs as [f g].
    destruct (ch_promise c) as [v|reason| |e] eqn:E; try contradiction.
    + destruct (Hhs reason (ch_world c) (ch_deferred c) Hd) as [H1 _].
      cbn [snd] in H1. destruct (g reason _ _) as [[w' d'] o]. exact H1.
    + exact Hd.
    + exact Hd.
Qed.

Lemma fulfilled_prefix_stage
  (f : DeviceFirmwareBundle -> World Ext -> World Ext * Outcome)
  (g : @Handler Ext) (rest : list (@Handler Ext * @Handler Ext))
  (w : World Ext) (b : DeviceFirmwareBundle) (final : Value) :
  Forall rethrows rest ->
  ch_promise (fold_left then_ ((stage f, g) :: rest)
                (mkChain w Pending (Fulfilled (VBundle b))))
  = Fulfilled final ->
  exists v,
    snd (f b w) = Fulfilled v
    /\ fold_left then_ ((stage f, g) :: rest)
         (mkChain w Pending (Fulfilled (VBundle b)))
       = fold_left then_ rest (mkChain (fst (f b w)) Pending (Fulfilled v)).
Proof.
  intros Hrest H. rewrite chain_stage in H |- *.
  destruct (f b w) as [w' o]. cbn [fst snd] in *.
  destruct o as [v|reason| |e]; cbn [asPromise] in *.
  - exists v. split; reflexivity.
  - exfalso.
    pose proof (failed_prefix_not_fulfilled rest Hrest
                  (mkChain w' Pending (Rejected reason)) I I) as Hn.
    rewrite H in Hn. exact Hn.
  - exfalso.
    pose proof (failed_prefix_not_fulfilled rest Hrest
                  (mkChain w' Pending Pending) I I) as Hn.
    rewrite H in Hn. exact Hn.
  - exfalso.
    pose proof (failed_prefix_not_fulfilled rest Hrest
                  (mkChain w' Pending (Rejected e)) I I) as Hn.
    rewrite H in Hn. exact Hn.
Qed.

Lemma checkCompatibility_fulfilled (b : DeviceFirmwareBundle) (v : Value) :
  checkCompatibility dc b = Fulfilled v ->
  v = VBundle b /\ checkCompatibility dc b = Fulfilled (VBundle b).
Proof.
  unfold checkCompatibility. destruct (_ && _).
  - cbn. intros [= <-]. now split.
  - destruct (negb _); [discriminate|]. destruct (negb _); discriminate.
Qed.

(** Drops the stage at the head of a chain whose promise ends fulfilled. *)
Ltac prefix_step H Hc v Hv :=
  match type of H with
  | ch_promise (fold_left then_ ((stage ?f, ?g) :: ?rest)
                  (mkChain ?w Pending (Fulfilled (VBundle ?b))))
    = Fulfilled ?final =>
      let Heq := fresh "Heq" in
      destruct (fulfilled_prefix_stage f g rest w b final
                  ltac:(rethrowing) H) as [v [Hv Heq]];
      rewrite Heq in H, Hc; clear Heq
  end.

Lemma carries_update_statusText (w : World Ext) (percent : Q)
  (text : string) :
  carries drv w (emit (emit w (EvUpdate percent)) (EvStatusText text))
    [EvUpdate percent; EvStatusText text].
Proof. split; [cbn; now rewrite <- app_assoc | reflexivity]. Qed.

(** The state of the pipeline when its first twelve steps have all
    resolved: the file and the serial number were read, the image is
    compatible, and the whole flash sequence was made and carried out. *)
Lemma flashed_state (polls : nat) (dev : Handle)
  (firmwareFileLocation : string) (connection : option Z) (w : World Ext)
  (v : Value) :
  ch_promise
    (fold_left then_ (firstn 12 (pipeline drv dc polls dev connection))
       (mkChain (fst (readFirmwareFile drv firmwareFileLocation w)) Pending
          (snd (readFirmwareFile drv firmwareFileLocation w))))
  = Fulfilled v ->
  exists file e1 s e2 imageOps infoOps percents w12,
    drv_readFirmwareFile drv firmwareFileLocation (ext w) = (e1, inr file)
    /\ drv_readSerialSync drv dev e1 = (e2, inr s)
    /\ checkCompatibility dc (injected file dev s connection)
       = Fulfilled (VBundle (injected file dev s connection))
    /\ imagePlan dc file = Some imageOps
    /\ infoPlan dc file = Some infoOps
    /\ List.length percents = List.length imageOps
    /\ fold_left then_ (firstn 12 (pipeline drv dc polls dev connection))
         (mkChain (fst (readFirmwareFile drv firmwareFileLocation w)) Pending
            (snd (readFirmwareFile drv firmwareFileLocation w)))
       = mkChain w12 Pending
           (Fulfilled (VBundle (injected file dev s connection)))
    /\ trace w12
       = trace w ++ flashSequence dc dev percents imageOps infoOps
    /\ carriedOut drv (flashSequence dc dev percents imageOps infoOps) e2
       = Some (ext w12).
Proof.
  intros H.
  remember (fold_left then_ (firstn 12 (pipeline drv dc polls dev connection))
              (mkChain (fst (readFirmwareFile drv firmwareFileLocation w))
                 Pending (snd (readFirmwareFile drv firmwareFileLocation w))))
    as c12 eqn:Hc in |- *.
  unfold readFirmwareFile in H, Hc.
  destruct (drv_readFirmwareFile drv firmwareFileLocation (ext w))
    as [e1 [msg|file]]; cbv beta iota in H, Hc;
    rewrite ?fst_pair, ?snd_pair in H; rewrite ?fst_pair, ?snd_pair in Hc.
  - exfalso.
    match type of H with
    | ch_promise (fold_left then_ ?l ?c) = _ =>
        assert (Hl : Forall rethrows l)
          by (unfold pipeline; cbn [firstn]; rethrowing);
        pose proof (failed_prefix_not_fulfilled l Hl c I I) as Hn
    end.
    rewrite H in Hn. exact Hn.
  - unfold pipeline in H, Hc. cbn [firstn] in H, Hc.
    unfold injectDevice, resolve in H, Hc.
    (* injectDevice *)
    prefix_step H Hc v0 Hv0.
    cbv beta in H, Hc, Hv0. cbn [withExt ext] in H, Hc, Hv0.
    destruct (drv_readSerialSync drv dev e1) as [e2 [m|s]] eqn:Hserial;
      cbv beta iota zeta in H, Hc, Hv0;
      rewrite ?fst_pair, ?snd_pair in Hv0; [discriminate|].
    rewrite ?fst_pair, ?snd_pair in H; rewrite ?fst_pair, ?snd_pair in Hc.
    injection Hv0 as <-.
    change (setDevice _ dev) with (injected file dev s connection) in H, Hc.
    (* checkCompatibility *)
    prefix_step H Hc v1 Hv1. cbn [fst snd] in H, Hc, Hv1.
    destruct (checkCompatibility_fulfilled _ _ Hv1) as [-> Hcompat].
    clear Hv1.
    rewrite chain_updateProgress, chain_updateStatusText in H, Hc.
    (* eraseImage *)
    prefix_step H Hc v2 Hv2.
    match type of Hv2 with
    | snd (eraseImage _ _ ?b ?w0) = _ =>
        destruct (eraseImage_fulfilled b dev w0 v2 eq_refl Hv2) as [-> C2]
    end.
    clear Hv2.
    (* eraseImageInformation *)
    prefix_step H Hc v3 Hv3.
    match type of Hv3 with
    | snd (eraseImageInformation _ _ ?b ?w0) = _ =>
        destruct (eraseImageInformation_fulfilled b dev w0 v3 eq_refl Hv3)
          as [-> C3]
    end.
    clear Hv3.
    rewrite chain_updateProgress, chain_updateStatusText in H, Hc.
    (* writeImage *)
    prefix_step H Hc v4 Hv4.
    match type of Hv4 with
    | snd (writeImage _ _ ?lo ?hi ?b ?w0) = _ =>
        destruct (writeImage_fulfilled lo hi b dev w0 v4 eq_refl Hv4)
          as [imageOps [percents [Himage [Hpercents [-> [Hflag4 C4]]]]]]
    end.
    clear Hv4.
    (* writeImageInformation *)
    prefix_step H Hc v5 Hv5.
    match type of Hv5 with
    | snd (writeImageInformation _ _ ?lo ?hi ?b ?w0) = _ =>
        destruct (writeImageInformation_carried lo hi b dev w0 v5
                    eq_refl Hflag4 Hv5) as [infoOps [Hinfo [-> C5]]]
    end.
    clear Hv5.
    rewrite chain_updateProgress, chain_updateStatusText in H, Hc.
    cbn [fold_left] in Hc.
    match type of Hc with
    | _ = mkChain ?w12 _ _ =>
        assert (Hall : carries drv (withExt (withExt w e1) e2) w12
                         (flashSequence dc dev percents imageOps infoOps))
    end.
    { unfold flashSequence.
      eapply carries_trans; [apply carries_update_statusText|].
      eapply carries_trans; [exact C2|].
      eapply carries_trans; [exact C3|].
      eapply carries_trans; [apply carries_update_statusText|].
      eapply carries_trans; [exact C4|].
      eapply carries_trans; [exact C5|].
      apply carries_update_statusText. }
    destruct Hall as [Htr Hco]. cbn [withExt trace ext] in Htr, Hco.
    exists file, e1, s, e2, imageOps, infoOps, percents.
    eexists. split; [reflexivity|]. split; [exact Hserial|].
    split; [exact Hcompat|]. split; [exact Himage|]. split; [exact Hinfo|].
    split; [exact Hpercents|]. split; [exact Hc|].
    split; [exact Htr | exact Hco].
Qed.

End Run.

(** ** Whole runs *)

Section Runs.

Context {Ext : Type}.
Variable drv : Driver Ext.
Variable dc : DriverConst.

Ltac rethrowing :=
  repeat first [ apply Forall_nil
               | apply Forall_cons;
                 [ first [ apply reportError_rethrows
                         | apply forceClose_rethrows ] | ] ].

Ltac passing :=
  repeat first [ apply Forall_nil
               | apply Forall_cons;
                 [ first [ apply reportError_passesOn
                         | apply forceClose_passesOn ] | ] ].

Lemma pipeline_split (n : nat) (polls : nat) (dev : Handle)
  (connection : option Z) (c : @Chain Ext) :
  fold_left then_ (pipeline drv dc polls dev connection) c
  = fold_left then_ (skipn n (pipeline drv dc polls dev connection))
      (fold_left then_ (firstn n (pipeline drv dc polls dev connection)) c).
Proof. now rewrite <- fold_left_app, firstn_skipn. Qed.

(** A chain whose promise is pending, or was never a promise, stays as it
    is. *)
Lemma stuck_chain (rest : list (@Handler Ext * @Handler Ext)) :
  forall c,
    match ch_promise c with Pending | Thrown _ => True | _ => False end ->
    fold_left then_ rest c = c.
Proof.
  induction rest as [|hs rest IH]; intros c Hp; [reflexivity|].
  cbn [fold_left].
  assert (Hstep : then_ c hs = c).
  { unfold then_. destruct hs as [f g].
    destruct (ch_promise c); try contradiction; reflexivity. }
  rewrite Hstep. now apply IH.
Qed.

(** Unless a step resolves, the world at the end of the pipeline is the
    world that the step left. *)
Lemma unfulfilled_chain_world (rest : list (@Handler Ext * @Handler Ext)) :
  Forall passesOn rest ->
  forall c,
    notFulfilled (ch_promise c) ->
    ch_world (fold_left then_ rest c) = ch_world c.
Proof.
  intros Hrest c Hp. destruct (ch_promise c) as [v|reason| |e] eqn:E;
    try contradiction.
  - now apply (proj1 (failed_chain_world rest Hrest c reason E)).
  - rewrite stuck_chain; [reflexivity | now rewrite E].
  - rewrite stuck_chain; [reflexivity | now rewrite E].
Qed.

(** A property of the outer deferred that every handler of a chain keeps
    is kept by the chain. *)
Lemma deferred_invariant (P : Outcome -> Prop)
  (steps : list (@Handler Ext * @Handler Ext)) :
  Forall (fun hs => forall v w d,
              P d ->
              P (snd (fst (fst hs v w d))) /\ P (snd (fst (snd hs v w d))))
    steps ->
  forall c, P (ch_deferred c) -> P (ch_deferred (fold_left then_ steps c)).
Proof.
  induction 1 as [|hs steps Hhs _ IH]; intros c Hd; [exact Hd|].
  cbn [fold_left]. apply IH. unfold then_. destruct hs as [f g].
  cbn [fst snd] in Hhs.
  destruct (ch_promise c) as [v|reason| |e]; try exact Hd.
  - destruct (Hhs v (ch_world c) (ch_deferred c) Hd) as [H1 _].
    destruct (f v _ _) as [[w' d'] o]. exact H1.
  - destruct (Hhs reason (ch_world c) (ch_deferred c) Hd) as [_ H2].
    destruct (g reason _ _) as [[w' d'] o]. exact H2.
Qed.

Lemma stage_keeps (P : Outcome -> Prop)
  (f : DeviceFirmwareBundle -> World Ext -> World Ext * Outcome)
  (v : Value) (w : World Ext) (d : Outcome) :
  P d -> P (snd (fst (stage f v w d))).
Proof.
  intros Hd. unfold stage. destruct v as [|b| | |]; try exact Hd.
  destruct (f b w) as [w' o]. exact Hd.
Qed.

Lemma reportError_keeps (P : Outcome -> Prop) (message : string)
  (v : Value) (w : World Ext) (d : Outcome) :
  (forall m, P d -> P (reject d (VString m))) ->
  P d -> P (snd (fst (reportError message v w d))).
Proof.
  intros Hrej Hd. unfold reportError.
  destruct (String.eqb message "finishingUpdate"); [exact Hd|].
  unfold safelyReject. destruct (toString v) as [m|]; [|exact Hd].
  now apply Hrej.
Qed.

Lemma reject_notFulfilled (d : Outcome) (reason : Value) :
  notFulfilled d -> notFulfilled (reject d reason).
Proof. destruct d; cbn; tauto. Qed.

Lemma reject_textual (d : Outcome) (m : string) :
  textual d -> textual (reject d (VString m)).
Proof. destruct d; cbn; try tauto. intros _. now exists m. Qed.

Ltac keeping Hrej :=
  repeat first
    [ apply Forall_nil
    | apply Forall_cons;
      [ intros v w d Hd; cbn [fst snd]; split;
        [ first [ apply stage_keeps; exact Hd
                | exact Hd
                | idtac ]
        | first [ apply reportError_keeps; [intros m; apply Hrej | exact Hd]
                | exact Hd ] ]
      | ] ].

Lemma flashing_unresolved (polls : nat) (dev : Handle)
  (connection : option Z) (c : @Chain Ext) :
  notFulfilled (ch_deferred c) ->
  notFulfilled
    (ch_deferred
       (fold_left then_ (firstn 12 (pipeline drv dc polls dev connection))
          c)).
Proof.
  apply (deferred_invariant notFulfilled).
  unfold pipeline, injectDevice. cbn [firstn].
  keeping reject_notFulfilled.
Qed.

Lemma pipeline_textual (polls : nat) (dev : Handle)
  (connection : option Z) (c : @Chain Ext) :
  textual (ch_deferred c) ->
  textual
    (ch_deferred (fold_left then_ (pipeline drv dc polls dev connection) c)).
Proof.
  apply (deferred_invariant textual).
  unfold pipeline, injectDevice.
  keeping reject_textual.
  unfold resolveDeferred. cbn [fst snd]. destruct d; cbn; tauto.
Qed.

Ltac adding :=
  repeat first
    [ apply Forall_nil
    | apply Forall_cons;
      [ split; cbn [fst snd];
        first [ apply reportError_adds
              | apply forceClose_adds
              | apply resolveDeferred_adds
              | apply updateProgress_adds; reflexivity
              | apply updateStatusText_adds; reflexivity
              | apply injectDevice_adds
              | apply stage_adds; intros b w;
                first [ apply eraseImage_adds
                      | apply eraseImageInformation_adds
                      | apply writeImage_adds
                      | apply writeImageInformation_adds
                      | apply closeDevice_adds
                      | apply pauseForClose_adds
                      | apply waitForEnumeration_adds
                      | apply checkNewFirmware_adds
                      | apply restartAndUpgrade_adds
                      | now apply adds_refl ] ]
      | ] ].

Lemma flashing_adds (polls : nat) (dev : Handle) (connection : option Z)
  (c : @Chain Ext) :
  adds flashEvent (ch_world c)
    (ch_world
       (fold_left then_ (firstn 12 (pipeline drv dc polls dev connection))
          c)).
Proof.
  apply chain_adds. unfold pipeline. cbn [firstn]. adding.
Qed.

Lemma rebooting_adds (polls : nat) (dev : Handle) (connection : option Z)
  (c : @Chain Ext) :
  adds anyEvent (ch_world c)
    (ch_world
       (fold_left then_ (skipn 13 (pipeline drv dc polls dev connection))
          c)).
Proof.
  apply chain_adds. unfold pipeline. cbn [skipn]. adding.
Qed.

Lemma upgradeRequested_app (tr1 tr2 : list Event) :
  upgradeRequested (tr1 ++ tr2)
  = upgradeRequested tr1 || upgradeRequested tr2.
Proof. apply existsb_app. Qed.

Lemma flashEvents_request_nothing (evs : list Event) :
  forallb flashEvent evs = true -> upgradeRequested evs = false.
Proof.
  induction evs as [|ev evs IH]; [reflexivity|].
  cbn [forallb upgradeRequested existsb]. intros H.
  apply andb_true_iff in H. destruct H as [Hev Hevs].
  fold (upgradeRequested evs). rewrite (IH Hevs).
  destruct ev; try discriminate; reflexivity.
Qed.

(** X13.  The device is asked to reboot into the upgrade only when
    everything before has succeeded.  In a run that starts without such a
    request and makes one: the file was read, then the serial number of
    the device; the image passed checkCompatibility; and before the
    request every page of both regions was erased and every frame of the
    image and of the image information was sent, in this order and with a
    report of progress before each frame of the image -- and the device
    carried out every one of these calls, from the state that the read of
    the serial number had left it in.  So a run in which a read, the
    compatibility check, an erase or a frame fails makes no such request.
    The firmware file is taken to hold whole 4-byte words, and the block
    size not to be 0. *)
Theorem updateFirmware_requests_upgrade_after_flashing (polls : nat)
  (dev : Handle) (firmwareFileLocation : string) (connection : option Z)
  (w : World Ext) :
  readsWholeWords drv firmwareFileLocation w ->
  T7_FLASH_BLOCK_WRITE_SIZE dc <> 0 ->
  upgradeRequested (trace w) = false ->
  upgradeRequested
    (trace (fst (updateFirmware drv dc polls dev firmwareFileLocation
                   connection w))) = true ->
  exists file e1 s e2 imageOps infoOps percents e12 rest,
    drv_readFirmwareFile drv firmwareFileLocation (ext w) = (e1, inr file)
    /\ drv_readSerialSync drv dev e1 = (e2, inr s)
    /\ checkCompatibility dc (injected file dev s connection)
       = Fulfilled (VBundle (injected file dev s connection))
    /\ imagePlan dc file = Some imageOps
    /\ infoPlan dc file = Some infoOps
    /\ List.length percents = List.length imageOps
    /\ carriedOut drv (flashSequence dc dev percents imageOps infoOps) e2
       = Some e12
    /\ trace (fst (updateFirmware drv dc polls dev firmwareFileLocation
                     connection w))
       = trace w
         ++ flashSequence dc dev percents imageOps infoOps
         ++ upgradeRequest dc dev :: rest.
Proof.
  intros _ _ Hw Hreq. rewrite updateFirmware_world in Hreq |- *.
  rewrite (pipeline_split 12) in Hreq |- *.
  pose proof (flashing_adds polls dev connection
                (mkChain (fst (readFirmwareFile drv firmwareFileLocation w))
                   Pending
                   (snd (readFirmwareFile drv firmwareFileLocation w))))
    as [evs [Hevs Hflash]].
  assert (Hw0 : trace (fst (readFirmwareFile drv firmwareFileLocation w))
                = trace w).
  { unfold readFirmwareFile.
    destruct (drv_readFirmwareFile drv firmwareFileLocation (ext w))
      as [e [m|file]]; reflexivity. }
  cbn [ch_world] in Hevs. rewrite Hw0 in Hevs.
  destruct (ch_promise
              (fold_left then_
                 (firstn 12 (pipeline drv dc polls dev connection))
                 (mkChain (fst (readFirmwareFile drv firmwareFileLocation w))
                    Pending
                    (snd (readFirmwareFile drv firmwareFileLocation w)))))
    as [v|reason| |e] eqn:Ep.
  - destruct (flashed_state drv dc polls dev firmwareFileLocation connection
                w v Ep)
      as [file [e1 [s [e2 [imageOps [infoOps [percents [w12
            [Hfile [Hserial [Hcompat [Himage [Hinfo [Hpercents
              [Hc [Htr Hco]]]]]]]]]]]]]]]].
    rewrite Hc in Hreq |- *. clear Hc.
    unfold pipeline at 1. unfold pipeline in Hreq at 1.
    cbn [skipn] in Hreq |- *.
    rewrite chain_stage in Hreq |- *.
    destruct (restartAndUpgrade_trace drv dc (injected file dev s connection)
                dev w12 eq_refl) as [Htr13 _].
    match goal with
    | |- context [fold_left then_ ?l ?c] =>
        pose proof (rebooting_adds polls dev connection c) as [rest [Hrest _]]
    end.
    unfold pipeline in Hrest at 1. cbn [skipn ch_world] in Hrest.
    exists file, e1, s, e2, imageOps, infoOps, percents, (ext w12), rest.
    split; [exact Hfile|]. split; [exact Hserial|]. split; [exact Hcompat|].
    split; [exact Himage|]. split; [exact Hinfo|].
    split; [exact Hpercents|]. split; [exact Hco|].
    rewrite Hrest, Htr13, Htr, <- !app_assoc. reflexivity.
  - exfalso.
    rewrite unfulfilled_chain_world in Hreq
      by (first [ apply Forall_skipn, pipeline_passesOn
                | now rewrite Ep ]).
    rewrite Hevs, upgradeRequested_app, Hw,
      (flashEvents_request_nothing evs Hflash) in Hreq.
    discriminate.
  - exfalso.
    rewrite unfulfilled_chain_world in Hreq
      by (first [ apply Forall_skipn, pipeline_passesOn
                | now rewrite Ep ]).
    rewrite Hevs, upgradeRequested_app, Hw,
      (flashEvents_request_nothing evs Hflash) in Hreq.
    discriminate.
  - exfalso.
    rewrite unfulfilled_chain_world in Hreq
      by (first [ apply Forall_skipn, pipeline_passesOn
                | now rewrite Ep ]).
    rewrite Hevs, upgradeRequested_app, Hw,
      (flashEvents_request_nothing evs Hflash) in Hreq.
    discriminate.
Qed.

(** *** Runs that resolve *)

Lemma chain_resolved (g : @Handler Ext) (w : World Ext) (v : Value) :
  ch_deferred (fold_left then_ [(resolveDeferred, g)]
                 (mkChain w Pending (Fulfilled v)))
  = Fulfilled v.
Proof. reflexivity. Qed.

(** Drops the stage at the head of a chain known to end fulfilled. *)
Ltac tail_step H Hc v Hv :=
  match type of H with
  | ch_deferred (fold_left then_ ((stage ?f, ?g) :: ?rest)
                   (mkChain ?w Pending (Fulfilled (VBundle ?b))))
    = Fulfilled ?final =>
      let Heq := fresh "Heq" in
      destruct (fulfilled_chain_stage f g rest w b final
                  ltac:(rethrowing) H) as [v [Hv Heq]];
      rewrite Heq in H, Hc; clear Heq
  end.

(** What a run of updateFirmware that resolves has done, and what it
    resolves with. *)
Lemma resolved_run (polls : nat) (dev : Handle)
  (firmwareFileLocation : string) (connection : option Z) (w : World Ext)
  (final : Value) :
  snd (updateFirmware drv dc polls dev firmwareFileLocation connection w)
  = Fulfilled final ->
  exists file e1 s e2 imageOps infoOps percents e14 unsuccessful h e17
         reported,
    drv_readFirmwareFile drv firmwareFileLocation (ext w) = (e1, inr file)
    /\ drv_readSerialSync drv dev e1 = (e2, inr s)
    /\ checkCompatibility dc (injected file dev s connection)
       = Fulfilled (VBundle (injected file dev s connection))
    /\ imagePlan dc file = Some imageOps
    /\ infoPlan dc file = Some infoOps
    /\ List.length percents = List.length imageOps
    /\ carriedOut drv
         (flashSequence dc dev percents imageOps infoOps
          ++ [upgradeRequest dc dev; EvClose dev]) e2
       = Some e14
    /\ reopened drv connection s unsuccessful e14 h e17
    /\ drv_readFirmwareVersion drv h e17
       = (ext (fst (updateFirmware drv dc polls dev firmwareFileLocation
                      connection w)),
          inr reported)
    /\ exceedsTolerance (ff_version file) reported = false
    /\ final = VBundle (injected file h s connection)
    /\ trace (fst (updateFirmware drv dc polls dev firmwareFileLocation
                     connection w))
       = trace w
         ++ flashSequence dc dev percents imageOps infoOps
         ++ rebootSequence dc dev connection s unsuccessful h.
Proof.
  intros H. rewrite updateFirmware_deferred in H.
  rewrite updateFirmware_world.
  remember (fold_left then_ (pipeline drv dc polls dev connection)
              (mkChain (fst (readFirmwareFile drv firmwareFileLocation w))
                 Pending (snd (readFirmwareFile drv firmwareFileLocation w))))
    as cfin eqn:Hc in |- *.
  rewrite (pipeline_split 12) in H, Hc.
  assert (Hp : exists v,
             ch_promise
               (fold_left then_
                  (firstn 12 (pipeline drv dc polls dev connection))
                  (mkChain
                     (fst (readFirmwareFile drv firmwareFileLocation w))
                     Pending
                     (snd (readFirmwareFile drv firmwareFileLocation w))))
             = Fulfilled v).
  { match goal with
    | |- exists v, ch_promise ?c = _ =>
        destruct (ch_promise c) as [v|reason| |e] eqn:Ep;
        [ now exists v | exfalso | exfalso | exfalso ];
        pose proof (failed_chain_not_fulfilled
                      (skipn 12 (pipeline drv dc polls dev connection))
                      ltac:(unfold pipeline; cbn [skipn]; rethrowing) c
                      ltac:(now rewrite Ep)
                      ltac:(now apply flashing_unresolved)) as Hn;
        rewrite H in Hn; exact Hn
    end. }
  destruct Hp as [v12 Hp].
  destruct (flashed_state drv dc polls dev firmwareFileLocation connection
              w v12 Hp)
    as [file [e1 [s [e2 [imageOps [infoOps [percents [w12
          [Hfile [Hserial [Hcompat [Himage [Hinfo [Hpercents
            [Hc12 [Htr12 Hco12]]]]]]]]]]]]]]]].
  rewrite Hc12 in H, Hc. clear Hc12 Hp.
  unfold pipeline in H, Hc. cbn [skipn] in H, Hc.
  (* restartAndUpgrade *)
  tail_step H Hc v0 Hv0.
  destruct (restartAndUpgrade_fulfilled drv dc
              (injected file dev s connection) dev w12 v0 eq_refl Hv0)
    as [-> [Htr13 Hco13]].
  clear Hv0.
  (* closeDevice *)
  tail_step H Hc v1 Hv1.
  match type of Hv1 with
  | snd (closeDevice _ ?b ?w0) = _ =>
      destruct (closeDevice_fulfilled drv b dev w0 v1 eq_refl Hv1)
        as [-> [Htr14 Hco14]]
  end.
  clear Hv1.
  rewrite chain_updateStatusText in H, Hc.
  (* pauseForClose *)
  tail_step H Hc v2 Hv2.
  unfold pauseForClose in Hv2 at 1. cbn [snd resolve] in Hv2.
  injection Hv2 as <-.
  (* waitForEnumeration *)
  tail_step H Hc v3 Hv3.
  match type of Hv3 with
  | snd (waitForEnumeration _ _ ?b ?w0) = _ =>
      destruct (waitForEnumeration_fulfilled drv polls b s w0 v3 eq_refl Hv3)
        as [h [unsuccessful [-> [Hre16 Htr16]]]]
  end.
  clear Hv3.
  (* checkNewFirmware *)
  tail_step H Hc v4 Hv4.
  match type of Hv4 with
  | snd (checkNewFirmware _ ?b ?w0) = _ =>
      destruct (checkNewFirmware_fulfilled drv b h w0 v4 eq_refl Hv4)
        as [-> [Htr17 [reported [Hread Hclose]]]]
  end.
  clear Hv4.
  rewrite chain_updateProgress in H, Hc.
  rewrite chain_resolved in H. injection H as <-.
  pose proof Hread as Hread'. pose proof Hre16 as Hre16'.
  unfold pauseForClose in Hre16', Hread'.
  cbn [fst emit ext injected connectionType] in Hre16', Hread'.
  eexists file, e1, s, e2, imageOps, infoOps, percents, _, unsuccessful, h,
    _, reported.
  split; [exact Hfile|]. split; [exact Hserial|]. split; [exact Hcompat|].
  split; [exact Himage|]. split; [exact Hinfo|].
  split; [exact Hpercents|].
  split.
  { rewrite carriedOut_app, Hco12.
    change [upgradeRequest dc dev; EvClose dev]
      with ([upgradeRequest dc dev] ++ [EvClose dev]).
    rewrite carriedOut_app, Hco13. exact Hco14. }
  split; [exact Hre16'|].
  split.
  { rewrite Hc, chain_resolveDeferred. cbn [emit ext].
    unfold pauseForClose. cbn [fst emit ext]. exact Hread'. }
  split; [exact Hclose|]. split; [reflexivity|].
  rewrite Hc, chain_resolveDeferred. cbn [emit trace].
  rewrite Htr17, Htr16. unfold pauseForClose. cbn [fst emit trace].
  rewrite Htr14, Htr13, Htr12. unfold rebootSequence.
  cbn [injected connectionType]. rewrite <- !app_assoc. reflexivity.
Qed.

(** X14.  The order of operations of an upgrade that succeeds, on the
    answers of the driver.  When the promise of updateFirmware is
    resolved, the file was read and then the serial number of the device,
    and after them the calls made to the device and to the listener are,
    in this order and with nothing else between them: the flash sequence
    -- 10 percent, the erase of every page of the image and then of the
    image information, 30 percent, every frame of the image with a report
    of progress before it, every frame of the image information, 90
    percent -- then the request to reboot, the close, the timer of
    [EXPECTED_FIRMWARE_UPDATE_TIME], the polls that did not bring the
    device back, the listing that held the serial number read at the
    start and the open of that serial number, the read of the firmware
    version under the device that this open yielded, and 100 percent.
    The driver carried out every one of these calls, each in the state
    that the one before had left.  The firmware file is taken to hold
    whole 4-byte words, and the block size not to be 0. *)
Theorem updateFirmware_order_of_operations (polls : nat) (dev : Handle)
  (firmwareFileLocation : string) (connection : option Z) (w : World Ext)
  (final : Value) :
  readsWholeWords drv firmwareFileLocation w ->
  T7_FLASH_BLOCK_WRITE_SIZE dc <> 0 ->
  snd (updateFirmware drv dc polls dev firmwareFileLocation connection w)
  = Fulfilled final ->
  exists file e1 s e2 imageOps infoOps percents e14 unsuccessful h e17
         reported,
    drv_readFirmwareFile drv firmwareFileLocation (ext w) = (e1, inr file)
    /\ drv_readSerialSync drv dev e1 = (e2, inr s)
    /\ imagePlan dc file = Some imageOps
    /\ infoPlan dc file = Some infoOps
    /\ List.length percents = List.length imageOps
    /\ carriedOut drv
         (flashSequence dc dev percents imageOps infoOps
          ++ [upgradeRequest dc dev; EvClose dev]) e2
       = Some e14
    /\ reopened drv connection s unsuccessful e14 h e17
    /\ drv_readFirmwareVersion drv h e17
       = (ext (fst (updateFirmware drv dc polls dev firmwareFileLocation
                      connection w)),
          inr reported)
    /\ trace (fst (updateFirmware drv dc polls dev firmwareFileLocation
                     connection w))
       = trace w
         ++ flashSequence dc dev percents imageOps infoOps
         ++ rebootSequence dc dev connection s unsuccessful h.
Proof.
  intros _ _ H.
  destruct (resolved_run polls dev firmwareFileLocation connection w final H)
    as [file [e1 [s [e2 [imageOps [infoOps [percents [e14 [unsuccessful
          [h [e17 [reported
            [Hfile [Hserial [_ [Himage [Hinfo [Hpercents [Hco [Hre
              [Hread [_ [_ Htr]]]]]]]]]]]]]]]]]]]]]]].
  exists file, e1, s, e2, imageOps, infoOps, percents, e14, unsuccessful, h,
    e17, reported.
  now repeat split.
Qed.

(** X15.  What a resolved upgrade guarantees.  When the promise of
    updateFirmware is resolved, it is resolved with the bundle of the file
    that was read -- its image, its image information and the version of
    its name -- under the serial number that the device gave when it was
    read right after the file, the connection type that was passed, and
    the device that the open of that serial number yielded, after the
    flash sequence, the request to reboot and the close were carried out.
    The header of the file carries the T7 header code, an allowed device
    type and the version of the file name; and the firmware version that
    the reopened device reports passes the test of checkNewFirmware
    against that version: in double arithmetic, the absolute difference is
    not greater than 0.0001.  The firmware file is taken to hold whole
    4-byte words, and the block size not to be 0. *)
Theorem updateFirmware_resolves_only_if (polls : nat) (dev : Handle)
  (firmwareFileLocation : string) (connection : option Z) (w : World Ext)
  (final : Value) :
  readsWholeWords drv firmwareFileLocation w ->
  T7_FLASH_BLOCK_WRITE_SIZE dc <> 0 ->
  snd (updateFirmware drv dc polls dev firmwareFileLocation connection w)
  = Fulfilled final ->
  exists file e1 s e2 imageOps infoOps percents e14 unsuccessful h e17
         reported,
    drv_readFirmwareFile drv firmwareFileLocation (ext w) = (e1, inr file)
    /\ drv_readSerialSync drv dev e1 = (e2, inr s)
    /\ final = VBundle (injected file h s connection)
    /\ imagePlan dc file = Some imageOps
    /\ infoPlan dc file = Some infoOps
    /\ List.length percents = List.length imageOps
    /\ carriedOut drv
         (flashSequence dc dev percents imageOps infoOps
          ++ [upgradeRequest dc dev; EvClose dev]) e2
       = Some e14
    /\ reopened drv connection s unsuccessful e14 h e17
    /\ headerCode (ff_imageInformation file) = T7_HEAD_FIRST_FOUR_BYTES dc
    /\ In (intendedDevice (ff_imageInformation file))
          (ALLOWED_IMAGE_INFO_DEVICE_TYPES dc)
    /\ Double.eqb (containedVersion (ff_imageInformation file))
         (ff_version file) = true
    /\ drv_readFirmwareVersion drv h e17
       = (ext (fst (updateFirmware drv dc polls dev firmwareFileLocation
                      connection w)),
          inr reported)
    /\ exceedsTolerance (ff_version file) reported = false.
Proof.
  intros _ _ H.
  destruct (resolved_run polls dev firmwareFileLocation connection w final H)
    as [file [e1 [s [e2 [imageOps [infoOps [percents [e14 [unsuccessful
          [h [e17 [reported
            [Hfile [Hserial [Hcompat [Himage [Hinfo [Hpercents [Hco [Hre
              [Hread [Hclose [Hfinal _]]]]]]]]]]]]]]]]]]]]]]].
  exists file, e1, s, e2, imageOps, infoOps, percents, e14, unsuccessful, h,
    e17, reported.
  split; [exact Hfile|]. split; [exact Hserial|]. split; [exact Hfinal|].
  split; [exact Himage|]. split; [exact Hinfo|].
  split; [exact Hpercents|]. split; [exact Hco|]. split; [exact Hre|].
  assert (Hok : headerCodeCorrect dc (injected file dev s connection) = true
                /\ intendedDeviceCorrect dc (injected file dev s connection)
                   = true
                /\ versionCorrect (injected file dev s connection) = true).
  { unfold checkCompatibility in Hcompat.
    destruct (headerCodeCorrect dc _), (intendedDeviceCorrect dc _),
      (versionCorrect _); cbn in Hcompat; try discriminate.
    now repeat split. }
  destruct Hok as [Hcode [Hdevice Hversion]].
  split; [now apply headerCodeCorrect_iff in Hcode|].
  split; [now apply intendedDeviceCorrect_iff in Hdevice|].
  split; [now apply versionCorrect_iff in Hversion|].
  split; [exact Hread | exact Hclose].
Qed.

(** X16.  Whatever the device does, the promise of updateFirmware is
    rejected only with a string -- the text that [safelyReject] makes of
    the error of the step that failed, never an Error object -- and is
    resolved only with a bundle; no exception of a step is left in it.
    The firmware file, when it can be read, is taken to hold whole 4-byte
    words. *)
Theorem updateFirmware_settles_with_text (polls : nat) (dev : Handle)
  (firmwareFileLocation : string) (connection : option Z) (w : World Ext) :
  readsWholeWords drv firmwareFileLocation w ->
  match snd (updateFirmware drv dc polls dev firmwareFileLocation
               connection w) with
  | Fulfilled v => exists b, v = VBundle b
  | Rejected reason => exists errorMsg, reason = VString errorMsg
  | Pending => True
  | Thrown _ => False
  end.
Proof.
  intros _.
  pose proof (pipeline_textual polls dev connection
                (mkChain (fst (readFirmwareFile drv firmwareFileLocation w))
                   Pending
                   (snd (readFirmwareFile drv firmwareFileLocation w))) I)
    as Ht.
  rewrite <- updateFirmware_deferred in Ht.
  destruct (snd (updateFirmware drv dc polls dev firmwareFileLocation
                   connection w)) as [v|reason| |e] eqn:E; try exact Ht.
  destruct (resolved_run polls dev firmwareFileLocation connection w v E)
    as [file [e1 [s [e2 [imageOps [infoOps [percents [e14 [unsuccessful
          [h [e17 [reported
            [_ [_ [_ [_ [_ [_ [_ [_ [_ [_ [Hfinal _]]]]]]]]]]]]]]]]]]]]]]].
  eexists. exact Hfinal.
Qed.

End Runs.

(** ** Whole runs on the simulated devices *)

Lemma sim_readsWholeWords (d : Driver Sim.State) :
  drv_readFirmwareFile d = drv_readFirmwareFile Sim.driver ->
  readsWholeWords d Sim.fileName
    (initialWorld (Sim.healthy (wordsFrom 1 16))).
Proof.
  intros Hd file. rewrite Hd. cbn. intros [= <-].
  split; vm_compute; reflexivity.
Qed.

(** On the simulated device the request is made, after the flash
    sequence; on a device that refuses its sixth flash call -- the second
    frame of the image -- no request is made. *)
Lemma updateFirmware_requests_upgrade_after_flashing_witness :
  readsWholeWords Sim.driver Sim.fileName
    (initialWorld (Sim.healthy (wordsFrom 1 16)))
  /\ T7_FLASH_BLOCK_WRITE_SIZE Sim.consts <> 0
  /\ upgradeRequested (trace (initialWorld (Sim.healthy (wordsFrom 1 16))))
     = false
  /\ upgradeRequested
       (trace (fst (Sim.run 5 (Sim.healthy (wordsFrom 1 16))))) = true
  /\ (exists file e1 s e2 imageOps infoOps percents e12 rest,
         drv_readFirmwareFile Sim.driver Sim.fileName
           (ext (initialWorld (Sim.healthy (wordsFrom 1 16))))
         = (e1, inr file)
         /\ drv_readSerialSync Sim.driver 1%nat e1 = (e2, inr s)
         /\ checkCompatibility Sim.consts (injected file 1%nat s (Some 1))
            = Fulfilled (VBundle (injected file 1%nat s (Some 1)))
         /\ imagePlan Sim.consts file = Some imageOps
         /\ infoPlan Sim.consts file = Some infoOps
         /\ List.length percents = List.length imageOps
         /\ carriedOut Sim.driver
              (flashSequence Sim.consts 1%nat percents imageOps infoOps) e2
            = Some e12
         /\ trace (fst (Sim.run 5 (Sim.healthy (wordsFrom 1 16))))
            = trace (initialWorld (Sim.healthy (wordsFrom 1 16)))
              ++ flashSequence Sim.consts 1%nat percents imageOps infoOps
              ++ upgradeRequest Sim.consts 1%nat :: rest)
  /\ snd (Faulty.run 5 (Sim.firmware (wordsFrom 1 16))
            (Faulty.refusingAfter 5))
     = Rejected (VString Faulty.refusal)
  /\ upgradeRequested
       (trace (fst (Faulty.run 5 (Sim.firmware (wordsFrom 1 16))
                      (Faulty.refusingAfter 5)))) = false.
Proof.
  split; [now apply sim_readsWholeWords|].
  split; [discriminate|].
  split; [reflexivity|]. split; [vm_compute; reflexivity|].
  split; [|split; vm_compute; reflexivity].
  apply (updateFirmware_requests_upgrade_after_flashing Sim.driver
           Sim.consts 5 1%nat Sim.fileName (Some 1)
           (initialWorld (Sim.healthy (wordsFrom 1 16)))).
  - now apply sim_readsWholeWords.
  - discriminate.
  - reflexivity.
  - vm_compute; reflexivity.
Defined.

(** The upgrade of the simulated device with an image of 16 words. *)
Lemma updateFirmware_order_of_operations_witness :
  readsWholeWords Sim.driver Sim.fileName
    (initialWorld (Sim.healthy (wordsFrom 1 16)))
  /\ T7_FLASH_BLOCK_WRITE_SIZE Sim.consts <> 0
  /\ snd (Sim.run 5 (Sim.healthy (wordsFrom 1 16)))
     = Fulfilled (VBundle (setDevice (simBundle (wordsFrom 1 16)) 2%nat))
  /\ exists file e1 s e2 imageOps infoOps percents e14 unsuccessful h e17
            reported,
       drv_readFirmwareFile Sim.driver Sim.fileName
         (ext (initialWorld (Sim.healthy (wordsFrom 1 16))))
       = (e1, inr file)
       /\ drv_readSerialSync Sim.driver 1%nat e1 = (e2, inr s)
       /\ imagePlan Sim.consts file = Some imageOps
       /\ infoPlan Sim.consts file = Some infoOps
       /\ List.length percents = List.length imageOps
       /\ carriedOut Sim.driver
            (flashSequence Sim.consts 1%nat percents imageOps infoOps
             ++ [upgradeRequest Sim.consts 1%nat; EvClose 1%nat]) e2
          = Some e14
       /\ reopened Sim.driver (Some 1) s unsuccessful e14 h e17
       /\ drv_readFirmwareVersion Sim.driver h e17
          = (ext (fst (updateFirmware Sim.driver Sim.consts 5 1%nat
                         Sim.fileName (Some 1)
                         (initialWorld (Sim.healthy (wordsFrom 1 16))))),
             inr reported)
       /\ trace (fst (updateFirmware Sim.driver Sim.consts 5 1%nat
                        Sim.fileName (Some 1)
                        (initialWorld (Sim.healthy (wordsFrom 1 16)))))
          = trace (initialWorld (Sim.healthy (wordsFrom 1 16)))
            ++ flashSequence Sim.consts 1%nat percents imageOps infoOps
            ++ rebootSequence Sim.consts 1%nat (Some 1) s unsuccessful h.
Proof.
  split; [now apply sim_readsWholeWords|].
  split; [discriminate|].
  split; [vm_compute; reflexivity|].
  apply (updateFirmware_order_of_operations Sim.driver Sim.consts 5 1%nat
           Sim.fileName (Some 1)
           (initialWorld (Sim.healthy (wordsFrom 1 16)))
           (VBundle (setDevice (simBundle (wordsFrom 1 16)) 2%nat))).
  - now apply sim_readsWholeWords.
  - discriminate.
  - vm_compute; reflexivity.
Defined.

Lemma updateFirmware_resolves_only_if_witness :
  readsWholeWords Sim.driver Sim.fileName
    (initialWorld (Sim.healthy (wordsFrom 1 16)))
  /\ T7_FLASH_BLOCK_WRITE_SIZE Sim.consts <> 0
  /\ snd (Sim.run 5 (Sim.healthy (wordsFrom 1 16)))
     = Fulfilled (VBundle (setDevice (simBundle (wordsFrom 1 16)) 2%nat))
  /\ exists file e1 s e2 imageOps infoOps percents e14 unsuccessful h e17
            reported,
       drv_readFirmwareFile Sim.driver Sim.fileName
         (ext (initialWorld (Sim.healthy (wordsFrom 1 16))))
       = (e1, inr file)
       /\ drv_readSerialSync Sim.driver 1%nat e1 = (e2, inr s)
       /\ VBundle (setDevice (simBundle (wordsFrom 1 16)) 2%nat)
          = VBundle (injected file h s (Some 1))
       /\ imagePlan Sim.consts file = Some imageOps
       /\ infoPlan Sim.consts file = Some infoOps
       /\ List.length percents = List.length imageOps
       /\ carriedOut Sim.driver
            (flashSequence Sim.consts 1%nat percents imageOps infoOps
             ++ [upgradeRequest Sim.consts 1%nat; EvClose 1%nat]) e2
          = Some e14
       /\ reopened Sim.driver (Some 1) s unsuccessful e14 h e17
       /\ headerCode (ff_imageInformation file)
          = T7_HEAD_FIRST_FOUR_BYTES Sim.consts
       /\ In (intendedDevice (ff_imageInformation file))
             (ALLOWED_IMAGE_INFO_DEVICE_TYPES Sim.consts)
       /\ Double.eqb (containedVersion (ff_imageInformation file))
            (ff_version file) = true
       /\ drv_readFirmwareVersion Sim.driver h e17
          = (ext (fst (updateFirmware Sim.driver Sim.consts 5 1%nat
                         Sim.fileName (Some 1)
                         (initialWorld (Sim.healthy (wordsFrom 1 16))))),
             inr reported)
       /\ exceedsTolerance (ff_version file) reported = false.
Proof.
  split; [now apply sim_readsWholeWords|].
  split; [discriminate|].
  split; [vm_compute; reflexivity|].
  apply (updateFirmware_resolves_only_if Sim.driver Sim.consts 5 1%nat
           Sim.fileName (Some 1)
           (initialWorld (Sim.healthy (wordsFrom 1 16)))
           (VBundle (setDevice (simBundle (wordsFrom 1 16)) 2%nat))).
  - now apply sim_readsWholeWords.
  - discriminate.
  - vm_compute; reflexivity.
Defined.

(** On a device that refuses its sixth flash call, the promise is rejected
    with the text of that refusal. *)
Lemma updateFirmware_settles_with_text_witness :
  readsWholeWords (Faulty.driver (Sim.firmware (wordsFrom 1 16)))
    Sim.fileName (initialWorld (Faulty.refusingAfter 5))
  /\ snd (Faulty.run 5 (Sim.firmware (wordsFrom 1 16))
            (Faulty.refusingAfter 5))
     = Rejected (VString Faulty.refusal)
  /\ match snd (Faulty.run 5 (Sim.firmware (wordsFrom 1 16))
                  (Faulty.refusingAfter 5)) with
     | Fulfilled v => exists b, v = VBundle b
     | Rejected reason => exists errorMsg, reason = VString errorMsg
     | Pending => True
     | Thrown _ => False
     end.
Proof.
  assert (Hfile : readsWholeWords
                    (Faulty.driver (Sim.firmware (wordsFrom 1 16)))
                    Sim.fileName (initialWorld (Faulty.refusingAfter 5))).
  { intros file. cbn. intros [= <-]. split; vm_compute; reflexivity. }
  split; [exact Hfile|]. split; [vm_compute; reflexivity|].
  apply (updateFirmware_settles_with_text
           (Faulty.driver (Sim.firmware (wordsFrom 1 16))) Sim.consts 5 1%nat
           Sim.fileName (Some 1) (initialWorld (Faulty.refusingAfter 5))
           Hfile).
Defined.

(** When the file cannot be read, updateFirmware rejects with the message
    of the read and the world is as it was. *)
Lemma updateFirmware_unreadable_inputs_witness :
  updateFirmware Faulty.fileless Sim.consts 5 1%nat Sim.fileName (Some 1)
    (initialWorld (Sim.healthy []))
  = (withExt (initialWorld (Sim.healthy [])) (Sim.healthy []),
     Rejected (VString Faulty.noFile)).
Proof.
  apply (proj1 (updateFirmware_unreadable_inputs Faulty.fileless Sim.consts
                  5 1%nat Sim.fileName (Some 1)
                  (initialWorld (Sim.healthy [])))).
  reflexivity.
Defined.

(** ** A refused request to reboot, a failed close *)

Section Reboot.

Context {Ext : Type}.
Variable drv : Driver Ext.
Variable dc : DriverConst.

Ltac passing :=
  repeat first [ apply Forall_nil
               | apply Forall_cons;
                 [ first [ apply reportError_passesOn
                         | apply forceClose_passesOn ] | ] ].







End Reboot.

